(** * The analysis workflow engine of ai-hedge-fund-gui

    A shallow embedding of [src/main.py] (the workflow builder
    [create_workflow], the decision payload parser
    [parse_hedge_fund_response], the runner [run_hedge_fund] and the GUI
    entry points [run_hedge_fund_gui] and [run_from_gui]) together with the
    form validation of [gui_launcher.py].

    Python exceptions are modelled by an error monad, calls to external
    capabilities by a trace of events, dictionaries by stdpp's [gmap],
    sets by [gset] and Python floats by Rocq's binary64 floats.  The
    module [Engine] has the functions of [main.py] on a console that
    accepts every line that is printed; the module [Console] has them
    with each [print] as a call that can raise.

    Further modules embed the callers of the engine (the analysis thread
    of [gui_launcher.py] and the command line of [main.py]), the order of
    the rows of the report ([sort_agent_signals] of
    [src/utils/display.py]), the file of API keys ([create_env_file] of
    [gui_launcher.py]) and the builtin [float] on ASCII text. *)

From Stdlib Require Import ZArith String Ascii List Floats Uint63.
From Stdlib Require Import Sorted.
From stdpp Require Import base gmap strings list fin_maps sets.

Set Warnings "-register-all".
Local Open Scope string_scope.
Local Open Scope Z_scope.
Local Open Scope list_scope.

(** ** Exceptions *)

Module Exn.

(** The exception classes the engine can meet.  Every class here derives
    from Python's [Exception], which is what the handlers of [main.py]
    catch; [JSONDecodeError] is moreover a subclass of [ValueError]. *)
Inductive exn_class :=
| KeyError | ValueError | TypeError | IndexError | AttributeError
| JSONDecodeError | ImportError | RuntimeError.

(** An exception instance: its class and [str(e)]. *)
Record exn := mk_exn { exn_cls : exn_class; exn_str : string }.

Definition is_instance (e : exn) (c : exn_class) : bool :=
  match exn_cls e, c with
  | KeyError, KeyError | ValueError, ValueError | TypeError, TypeError
  | IndexError, IndexError | AttributeError, AttributeError
  | JSONDecodeError, JSONDecodeError | ImportError, ImportError
  | RuntimeError, RuntimeError => true
  | JSONDecodeError, ValueError => true
  | _, _ => false
  end.

(** The result of evaluating a Python expression: a value or a raised
    exception. *)
Inductive outcome (A : Type) :=
| Returns (a : A)
| Raises (e : exn).
Arguments Returns {A} a.
Arguments Raises {A} e.

#[global] Instance outcome_ret : MRet outcome := fun _ a => Returns a.
#[global] Instance outcome_bind : MBind outcome := fun _ _ f m =>
  match m with
  | Returns a => f a
  | Raises e => Raises e
  end.

Definition raise {A} (c : exn_class) (msg : string) : outcome A :=
  Raises (mk_exn c msg).

End Exn.
Export Exn.

(** ** Python data *)

(** The values JSON decoding produces, which are also the values a message
    content or the [analyst_signals] dictionary can hold. *)
Inductive pyval :=
| PyNone
| PyBool (b : bool)
| PyInt (z : Z)
| PyFloat (f : float)
| PyStr (s : string)
| PyList (l : list pyval)
| PyDict (d : list (string * pyval)).

Definition type_name (v : pyval) : string :=
  match v with
  | PyNone => "NoneType"
  | PyBool _ => "bool"
  | PyInt _ => "int"
  | PyFloat _ => "float"
  | PyStr _ => "str"
  | PyList _ => "list"
  | PyDict _ => "dict"
  end.

(** ** The workflow graph *)

Module Graph.

(** The callables registered as nodes: [start] of [main.py], the two
    fixed agents, and the analyst agents of the registry, identified by
    name. *)
Inductive node_func :=
| start
| risk_management_agent
| portfolio_management_agent
| analyst_agent (name : string).

Definition START : string := "__start__".
Definition END : string := "__end__".

(** [StateGraph]: the builder object of the graph library, a dictionary
    of nodes and a set of edges. *)
Record StateGraph := mk_graph {
  nodes : gmap string node_func;
  edges : gset (string * string);
}.

Definition new_graph : StateGraph := mk_graph ∅ ∅.

(** The interface of the graph library, as far as [create_workflow]
    uses it.  [add_node] refuses a name that is already present and the
    two reserved names. *)
Definition add_node (name : string) (f : node_func) (g : StateGraph)
  : outcome StateGraph :=
  if decide (name ∈ dom (nodes g)) then
    raise ValueError ("Node `" +:+ name +:+ "` already present.")
  else if decide (name = END ∨ name = START) then
    raise ValueError ("Node `" +:+ name +:+ "` is reserved.")
  else Returns (mk_graph (<[name := f]> (nodes g)) (edges g)).

(** [add_edge] adds the pair to the edge set. *)
Definition add_edge (start_key end_key : string) (g : StateGraph)
  : outcome StateGraph :=
  if decide (start_key = END) then
    raise ValueError "END cannot be a start node"
  else if decide (end_key = START) then
    raise ValueError "START cannot be an end node"
  else Returns (mk_graph (nodes g) ({[ (start_key, end_key) ]} ∪ edges g)).

Definition set_entry_point (key : string) (g : StateGraph)
  : outcome StateGraph :=
  add_edge START key g.

(** A Python [for] loop whose body updates a state and may raise. *)
Fixpoint for_each {A S : Type} (l : list A) (body : A → S → outcome S)
    (s : S) : outcome S :=
  match l with
  | [] => Returns s
  | x :: l' => s' ← body x s; for_each l' body s'
  end.

(** [d[key]] on a dictionary. *)
Definition getitem {V : Type} (d : gmap string V) (key : string)
  : outcome V :=
  match d !! key with
  | Some v => Returns v
  | None => raise KeyError ("'" +:+ key +:+ "'")
  end.

Section Build.
(** The registry [get_analyst_nodes()] of [src/utils/analysts.py]:
    analyst key to (node name, agent function). *)
Variable analyst_nodes : gmap string (string * node_func).

(** The body of the first loop of [create_workflow]. *)
Definition add_analyst_node (analyst_key : string) (workflow : StateGraph)
  : outcome StateGraph :=
  '(node_name, node_func) ← getitem analyst_nodes analyst_key;
  workflow ← add_node node_name node_func workflow;
  add_edge "start_node" node_name workflow.

(** The body of its second loop. *)
Definition connect_to_risk (analyst_key : string) (workflow : StateGraph)
  : outcome StateGraph :=
  node ← getitem analyst_nodes analyst_key;
  add_edge node.1 "risk_management_agent" workflow.

Definition create_workflow (selected_analysts : option (list string))
  : outcome StateGraph :=
  workflow ← add_node "start_node" start new_graph;
  let selected_analysts :=
    match selected_analysts with
    | None => (map_to_list analyst_nodes).*1
    | Some l => l
    end in
  workflow ← for_each selected_analysts add_analyst_node workflow;
  workflow ← add_node "risk_management_agent" risk_management_agent workflow;
  workflow ← add_node "portfolio_manager" portfolio_management_agent workflow;
  workflow ← for_each selected_analysts connect_to_risk workflow;
  workflow ← add_edge "risk_management_agent" "portfolio_manager" workflow;
  workflow ← add_edge "portfolio_manager" END workflow;
  set_entry_point "start_node" workflow.

(** *** Reading a plan *)

(** The registry entry of a key, and the node names of a selection. *)
Definition entry (k : string) : string * node_func :=
  default ("", start) (analyst_nodes !! k).

Definition node_names (selected_analysts : list string) : list string :=
  (λ k, (entry k).1) <$> selected_analysts.

(** The names taken by the builder itself and by the library. *)
Definition fixed_names : list string :=
  ["start_node"; "risk_management_agent"; "portfolio_manager"; START; END].

(** The names of all registered nodes. *)
Definition registry_names : list string := (map_to_list analyst_nodes).*2.*1.

(** A registry is well formed when its node names are pairwise distinct
    and none of them is a fixed name. *)
Definition registry_wf : Prop :=
  NoDup registry_names ∧ Forall (λ n, n ∉ fixed_names) registry_names.

(** The graph built from the registry entries [pairs]. *)
Definition plan_of (pairs : list (string * node_func)) : StateGraph :=
  mk_graph
    (<["portfolio_manager" := portfolio_management_agent]>
       (<["risk_management_agent" := risk_management_agent]>
          (list_to_map pairs ∪ <["start_node" := start]> ∅)))
    ({[ (START, "start_node") ]} ∪
     ({[ ("portfolio_manager", END) ]} ∪
      ({[ ("risk_management_agent", "portfolio_manager") ]} ∪
       (list_to_set ((λ n, (n, "risk_management_agent")) <$> pairs.*1) ∪
        (list_to_set ((λ n, ("start_node", n)) <$> pairs.*1) ∪ ∅))))).
End Build.

(** The edges that join two nodes of the graph.  The two other pairs of
    the edge set, from [START] and to [END], are the library's marks of
    the entry point and of the finish point. *)
Definition plan_edges (g : StateGraph) : gset (string * string) :=
  filter (λ e, e.1 ∈ dom (nodes g) ∧ e.2 ∈ dom (nodes g)) (edges g).

End Graph.
Export Graph.


(** ** Portfolio state *)

Module Portfolio.

Record Position := mk_position {
  long : Z;
  short : Z;
  long_cost_basis : float;
  short_cost_basis : float;
  short_margin_used : float;
}.

Record Gains := mk_gains {
  gains_long : float;
  gains_short : float;
}.

Record Portfolio := mk_portfolio {
  cash : float;
  margin_requirement : float;
  margin_used : float;
  positions : gmap string Position;
  realized_gains : gmap string Gains;
}.

(** [{k: v for k in keys}]: keys are inserted from left to right. *)
Definition dict_comprehension {V : Type} (v : V) (keys : list string)
  : gmap string V :=
  foldl (λ d k, <[k := v]> d) ∅ keys.

Definition zero_position : Position := mk_position 0 0 0%float 0%float 0%float.
Definition zero_gains : Gains := mk_gains 0%float 0%float.

(** The portfolio literal of [run_hedge_fund_gui] (and of the command-line
    entry and of [gui_main.py]). *)
Definition initial_portfolio (tickers : list string)
    (initial_cash margin_requirement : float) : Portfolio :=
  {| cash := initial_cash;
     margin_requirement := margin_requirement;
     margin_used := 0%float;
     positions := dict_comprehension zero_position tickers;
     realized_gains := dict_comprehension zero_gains tickers |}.

End Portfolio.
Export Portfolio.

(** ** The state threaded through the graph *)

Record message := HumanMessage { content : pyval }.

Record AgentData := mk_data {
  data_tickers : list string;
  data_portfolio : Portfolio;
  data_start_date : string;
  data_end_date : string;
  data_analyst_signals : pyval;
}.

Record Metadata := mk_metadata {
  show_reasoning : bool;
  model_name : string;
  model_provider : string;
}.

Record AgentState := mk_state {
  messages : list message;
  data : AgentData;
  metadata : Metadata;
}.

(** What [run_hedge_fund] returns. *)
Record RunResult := mk_result {
  decisions : pyval;
  analyst_signals : pyval;
}.

(** What the GUI entry points return: the run result, or the dictionary
    [{"error": ..., "traceback": ...}]. *)
Inductive Result :=
| Analysis (r : RunResult)
| ErrorEnvelope (error : string) (traceback : string).

Record date := mk_date { year : Z; month : Z; day : Z }.

(** ** The environment of the engine

    Everything the engine calls and does not define: the analyst registry
    of [src/utils/analysts.py], the graph library's compilation and
    execution, JSON decoding, the date functions, and the report writer. *)
Record Env := {
  get_analyst_nodes : gmap string (string * node_func);
  (** [from src.utils.analysts import ANALYST_ORDER]: pairs (display, key) *)
  import_ANALYST_ORDER : outcome (list (string * string));
  (** the validation done by [workflow.compile()] *)
  compile : StateGraph → outcome unit;
  (** [agent.invoke(state)]: the execution of the compiled graph *)
  invoke : StateGraph → AgentState → outcome AgentState;
  (** the JSON decoder behind [json.loads] on a [str] *)
  json_decode : string → outcome pyval;
  (** [datetime.strptime(s, "%Y-%m-%d")]; [None] is its [ValueError] *)
  strptime : string → option date;
  (** [d.strftime("%Y-%m-%d")] *)
  strftime : date → string;
  (** [datetime.now()] *)
  now : date;
  (** [d - relativedelta(months=n)] *)
  sub_months : date → Z → outcome date;
  save_graph_as_png : StateGraph → string → outcome unit;
  print_trading_output : RunResult → outcome unit;
  (** [traceback.format_exc()] while handling the exception *)
  format_exc : exn → string;
  (** the builtins [s.strip()] and [float(s)]; [None] is its [ValueError] *)
  str_strip : string → string;
  float_of_str : string → option float;
}.

(** ** Effects: a trace of events next to the outcome *)

Inductive parse_diagnostic :=
| JSON_decoding_error
| Invalid_response_type
| Unexpected_error.

Inductive event :=
| EvProgressStart
| EvProgressStop
| EvCreateWorkflow (selected : option (list string))
| EvCompile (workflow : StateGraph)
| EvInvoke (agent : StateGraph) (state : AgentState)
| EvParseDiagnostic (d : parse_diagnostic) (e : exn)
| EvWorkflowFailed (e : exn)
| EvSaveGraph (file_path : string)
| EvGraphFailed (e : exn)
| EvTradingOutput (r : RunResult)
| EvRunFailed (e : exn).

Module Effects.

Definition M (A : Type) : Type := list event * outcome A.

#[global] Instance M_ret : MRet M := λ _ a, ([], Returns a).
#[global] Instance M_bind : MBind M := λ _ _ f m,
  match m with
  | (t, Returns a) => let '(t', r) := f a in (t ++ t', r)
  | (t, Raises e) => (t, Raises e)
  end.

Definition lift {A} (o : outcome A) : M A := ([], o).
Definition emit (e : event) : M unit := ([e], Returns ()).
Definition throw {A} (c : exn_class) (msg : string) : M A :=
  lift (raise c msg).

(** [try: body except Exception as e: handler e] *)
Definition try_except {A} (body : M A) (handler : exn → M A) : M A :=
  match body with
  | (t, Returns a) => (t, Returns a)
  | (t, Raises e) => let '(t', r) := handler e in (t ++ t', r)
  end.

(** [try: body except cls as e: handler e] *)
Definition try_except_of {A} (cls : exn_class) (body : M A)
    (handler : exn → M A) : M A :=
  try_except body (λ e, if is_instance e cls then handler e else lift (Raises e)).

(** [try: body finally: final] *)
Definition try_finally {A} (body : M A) (final : M unit) : M A :=
  match body, final with
  | (t, r), (t', Returns _) => (t ++ t', r)
  | (t, _), (t', Raises e) => (t ++ t', Raises e)
  end.

Definition trace {A} (m : M A) : list event := m.1.
Definition result {A} (m : M A) : outcome A := m.2.

End Effects.
Export Effects.

(** ** The engine of [main.py]

    The functions of this module are those of a run whose console accepts
    every line that is printed: a [print] raises nothing there, and the
    lines that report a failure are events of the trace.  The module
    [Console] has the same functions with [print] as a call that can
    raise. *)

Module Engine.

Section WithEnv.
Context (E : Env).

(** [json.loads(s)]: a [str] goes to the decoder, any other value of
    [pyval] is refused with a [TypeError].  ([json.loads] also decodes
    [bytes] and [bytearray]; a message content is a [str] or a list, so
    these are not values of [pyval].) *)
Definition json_loads (s : pyval) : outcome pyval :=
  match s with
  | PyStr s => json_decode E s
  | _ => raise TypeError
           ("the JSON object must be str, bytes or bytearray, not " +:+ type_name s)
  end.

(** [parse_hedge_fund_response]: every exception of the decoding is
    handled by one of the three clauses, each of which prints a diagnostic
    and returns [None]. *)
Definition parse_hedge_fund_response (response : pyval) : M pyval :=
  try_except (lift (json_loads response)) (λ e,
    if is_instance e JSONDecodeError then
      emit (EvParseDiagnostic JSON_decoding_error e);; mret PyNone
    else if is_instance e TypeError then
      emit (EvParseDiagnostic Invalid_response_type e);; mret PyNone
    else
      emit (EvParseDiagnostic Unexpected_error e);; mret PyNone).

Definition workflow_compile (workflow : StateGraph) : M StateGraph :=
  emit (EvCompile workflow);;
  lift (compile E workflow);;
  mret workflow.

Definition create_workflow_call (selected_analysts : option (list string))
  : M StateGraph :=
  emit (EvCreateWorkflow selected_analysts);;
  lift (create_workflow (get_analyst_nodes E) selected_analysts).

Definition agent_invoke (agent : StateGraph) (state : AgentState)
  : M AgentState :=
  emit (EvInvoke agent state);;
  lift (invoke E agent state).

(** [l[-1]] *)
Definition last_item {A} (l : list A) : outcome A :=
  match last l with
  | Some x => Returns x
  | None => raise IndexError "list index out of range"
  end.

Definition initial_state (tickers : list string) (start_date end_date : string)
    (portfolio : Portfolio) (show_reasoning : bool)
    (model_name model_provider : string) : AgentState :=
  {| messages :=
       [HumanMessage
          (PyStr "Make trading decisions based on the provided data.")];
     data := {| data_tickers := tickers;
                data_portfolio := portfolio;
                data_start_date := start_date;
                data_end_date := end_date;
                data_analyst_signals := PyDict [] |};
     metadata := {| show_reasoning := show_reasoning;
                    model_name := model_name;
                    model_provider := model_provider |} |}.

Definition run_hedge_fund (tickers : list string) (start_date end_date : string)
    (portfolio : Portfolio) (show_reasoning : bool)
    (selected_analysts : list string) (model_name model_provider : string)
  : M RunResult :=
  emit EvProgressStart;;
  try_finally
    (agent ←
       match selected_analysts with
       | _ :: _ =>
           workflow ← create_workflow_call (Some selected_analysts);
           workflow_compile workflow
       | [] =>
           workflow ← create_workflow_call None;
           workflow_compile workflow
       end;
     final_state ← agent_invoke agent
       (initial_state tickers start_date end_date portfolio show_reasoning
          model_name model_provider);
     last_message ← lift (last_item (messages final_state));
     decisions ← parse_hedge_fund_response (content last_message);
     mret {| decisions := decisions;
             analyst_signals := data_analyst_signals (data final_state) |})
    (emit EvProgressStop).

Definition default_analysts : list string :=
  ["warren_buffett"; "peter_lynch"; "technical_analyst"].

(** The name of the picture of the graph: the keys joined by ["_"]. *)
Definition graph_file_path (selected_analysts : list string) : string :=
  match selected_analysts with
  | [] => ""
  | _ => foldl (λ file_path selected_analyst,
                  file_path +:+ selected_analyst +:+ "_") "" selected_analysts
         +:+ "graph.png"
  end.

(** [datetime.strptime] where its [ValueError] propagates. *)
Definition strptime_or_raise (s : string) : M date :=
  match strptime E s with
  | Some d => mret d
  | None => throw ValueError
      ("time data '" +:+ s +:+ "' does not match format '%Y-%m-%d'")
  end.

Definition is_empty (s : string) : bool :=
  match s with EmptyString => true | _ => false end.

(** The blocks of [run_hedge_fund_gui], in the order of the source. *)

(** The analysts used: the list passed in or, when it is absent or
    empty, every key of [ANALYST_ORDER]. *)
Definition resolve_selected_analysts (selected_analysts : option (list string))
  : M (list string) :=
  match selected_analysts with
  | Some (k :: l) => mret (k :: l)
  | _ =>
      try_except_of ImportError
        (ANALYST_ORDER ← lift (import_ANALYST_ORDER E);
         mret (ANALYST_ORDER.*2))
        (λ _, mret default_analysts)
  end.

(** The format of the dates that are given. *)
Definition validate_dates (start_date end_date : string) : M () :=
  (if is_empty start_date then mret ()
   else match strptime E start_date with
        | Some _ => mret ()
        | None => throw ValueError "开始日期必须为YYYY-MM-DD格式"
        end);;
  (if is_empty end_date then mret ()
   else match strptime E end_date with
        | Some _ => mret ()
        | None => throw ValueError "结束日期必须为YYYY-MM-DD格式"
        end).

(** The defaults of the dates that are not given: today, and three
    months before the end date. *)
Definition resolve_dates (start_date end_date : string) : M (string * string) :=
  let end_date :=
    if is_empty end_date then strftime E (now E) else end_date in
  start_date ←
    (if is_empty start_date then
       end_date_obj ← strptime_or_raise end_date;
       d ← lift (sub_months E end_date_obj 3);
       mret (strftime E d)
     else mret start_date);
  mret (start_date, end_date).

(** One attempt to build and compile the graph. *)
Definition build (selected_analysts : list string) : M StateGraph :=
  workflow ← create_workflow_call (Some selected_analysts);
  workflow_compile workflow.

(** The graph of the run: built from the selection or, when that fails,
    from the default analysts. *)
Definition build_workflow (selected_analysts : list string)
  : M (StateGraph * list string) :=
  try_except
    (app ← build selected_analysts;
     mret (app, selected_analysts))
    (λ workflow_error,
       emit (EvWorkflowFailed workflow_error);;
       app ← build default_analysts;
       mret (app, default_analysts)).

(** The picture of the graph, when asked for; a failure is only
    reported. *)
Definition save_agent_graph (show_agent_graph : bool) (app : StateGraph)
    (selected_analysts : list string) : M () :=
  if show_agent_graph then
    try_except
      (let file_path := graph_file_path selected_analysts in
       emit (EvSaveGraph file_path);;
       lift (save_graph_as_png E app file_path))
      (λ e, emit (EvGraphFailed e))
  else mret ().

(** What precedes the construction of the graph. *)
Definition prepare (start_date end_date : string)
    (selected_analysts : option (list string))
  : M (list string * (string * string)) :=
  selected_analysts ← resolve_selected_analysts selected_analysts;
  validate_dates start_date end_date;;
  dates ← resolve_dates start_date end_date;
  mret (selected_analysts, dates).

(** What follows it. *)
Definition analyse (tickers : list string) (start_date end_date : string)
    (initial_cash margin_requirement : float) (show_reasoning : bool)
    (selected_analysts : list string) (model_name model_provider : string)
    (show_agent_graph : bool) : M Result :=
  '(app, selected_analysts) ← build_workflow selected_analysts;
  save_agent_graph show_agent_graph app selected_analysts;;
  let portfolio := initial_portfolio tickers initial_cash margin_requirement in
  result ← run_hedge_fund tickers start_date end_date portfolio
             show_reasoning selected_analysts model_name model_provider;
  emit (EvTradingOutput result);;
  lift (print_trading_output E result);;
  mret (Analysis result).

(** The handler of the whole body: the error dictionary is returned, the
    exception is not raised again.  Its three prints (lines 308 to 311)
    are accepted by the console; [Console.error_envelope] has them. *)
Definition error_envelope (e : exn) : M Result :=
  emit (EvRunFailed e);;
  mret (ErrorEnvelope (exn_str e) (format_exc E e)).

(** [run_hedge_fund_gui], for [tickers] a list of strings as annotated
    (the branch splitting a comma-separated string is then not taken).
    The lines it prints, the two of lines 173 and 174 that stand before
    the [try] among them, are accepted by the console and left out of the
    trace; [Console.run_hedge_fund_gui] has them. *)
Definition run_hedge_fund_gui (tickers : list string)
    (start_date end_date : string) (initial_cash margin_requirement : float)
    (show_reasoning : bool) (selected_analysts : option (list string))
    (model_name model_provider : string) (show_agent_graph : bool)
  : M Result :=
  try_except
    ('(selected_analysts, (start_date, end_date)) ←
       prepare start_date end_date selected_analysts;
     analyse tickers start_date end_date initial_cash margin_requirement
       show_reasoning selected_analysts model_name model_provider
       show_agent_graph)
    error_envelope.

(** The keyword arguments [run_from_gui] unpacks: the ten parameters of
    [run_hedge_fund_gui], absent ones taking their defaults, and the keys
    that name no parameter. *)
Record kwargs := mk_kwargs {
  kw_tickers : option (list string);
  kw_start_date : option string;
  kw_end_date : option string;
  kw_initial_cash : option float;
  kw_margin_requirement : option float;
  kw_show_reasoning : option bool;
  kw_selected_analysts : option (list string);
  kw_model_name : option string;
  kw_model_provider : option string;
  kw_show_agent_graph : option bool;
  kw_others : list string;
}.

(** The call of [run_hedge_fund_gui] on the unpacked dictionary: a key
    that names no parameter, or a missing required argument, is a
    [TypeError] of the call. *)
Definition call_run_hedge_fund_gui (args_dict : kwargs) : M Result :=
  match kw_others args_dict with
  | k :: _ =>
      throw TypeError
        ("run_hedge_fund_gui() got an unexpected keyword argument '"
           +:+ k +:+ "'")
  | [] =>
      match kw_tickers args_dict, kw_start_date args_dict,
            kw_end_date args_dict with
      | Some tickers, Some start_date, Some end_date =>
          run_hedge_fund_gui tickers start_date end_date
            (default 100000%float (kw_initial_cash args_dict))
            (default 0%float (kw_margin_requirement args_dict))
            (default false (kw_show_reasoning args_dict))
            (kw_selected_analysts args_dict)
            (default "gpt-4o" (kw_model_name args_dict))
            (default "OpenAI" (kw_model_provider args_dict))
            (default false (kw_show_agent_graph args_dict))
      | _, _, _ =>
          throw TypeError
            "run_hedge_fund_gui() missing required positional arguments"
      end
  end.

Definition run_from_gui (args_dict : kwargs) : M Result :=
  try_except (call_run_hedge_fund_gui args_dict)
    (λ e, mret (ErrorEnvelope (exn_str e) (format_exc E e))).

(** The date check passes exactly when each date is empty or accepted
    by [strptime]. *)
Definition date_ok (s : string) : bool :=
  is_empty s || bool_decide (is_Some (strptime E s)).

End WithEnv.

(** The clause of the parser that handles an exception. *)
Definition diagnostic_of (e : exn) : parse_diagnostic :=
  if is_instance e JSONDecodeError then JSON_decoding_error
  else if is_instance e TypeError then Invalid_response_type
  else Unexpected_error.

(** The argument [run_hedge_fund] gives to [create_workflow]. *)
Definition selection (selected_analysts : list string) : option (list string) :=
  match selected_analysts with
  | [] => None
  | _ :: _ => Some selected_analysts
  end.

(** The stages of a run all return: the graph is built and compiled, its
    execution ends in [final_state], whose last message is [msg]. *)
Definition stages_return (E : Env) (selected_analysts : list string)
    (state : AgentState) (workflow : StateGraph) (final_state : AgentState)
    (msg : message) : Prop :=
  create_workflow (get_analyst_nodes E) (selection selected_analysts)
  = Returns workflow
  ∧ compile E workflow = Returns ()
  ∧ invoke E workflow state = Returns final_state
  ∧ last (messages final_state) = Some msg.

(** The report of a failed construction of the graph marks a fallback. *)
Definition is_fallback (ev : event) : bool :=
  match ev with EvWorkflowFailed _ => true | _ => false end.

(** The number of fallbacks in a trace. *)
Definition fallbacks (t : list event) : nat :=
  length (List.filter is_fallback t).

End Engine.
Export Engine.

(** ** The form validation of [gui_launcher.py] *)

Module Launcher.

(** The variables of the form that [validate_inputs] reads. *)
Record Form := mk_form {
  ticker_var : string;
  analyst_vars : list (string * bool);
  initial_cash_var : string;
  margin_requirement_var : string;
  start_date_var : string;
  end_date_var : string;
}.

(** [validate_inputs] returns [True], or shows an error box and returns
    [False]; the message is the English one. *)
Inductive validation :=
| Valid
| Rejected (message : string).

Section WithEnv.
Context (E : Env).

Definition check_date (var : string) (message : string) (rest : validation)
  : validation :=
  if is_empty (str_strip E var) then rest
  else match strptime E (str_strip E var) with
       | Some _ => rest
       | None => Rejected message
       end.

Definition validate_inputs (form : Form) : validation :=
  if is_empty (str_strip E (ticker_var form)) then
    Rejected "Please enter stock ticker(s)."
  else
    let selected_analysts := (filter (λ kv, kv.2 = true) (analyst_vars form)).*1 in
    match selected_analysts with
    | [] => Rejected "Please select at least one analyst."
    | _ :: _ =>
        match float_of_str E (initial_cash_var form) with
        | None => Rejected "Invalid initial cash format."
        | Some cash =>
            if (cash <=? 0)%float then
              Rejected "Initial cash must be greater than 0."
            else
              match float_of_str E (margin_requirement_var form) with
              | None => Rejected "Invalid margin requirement format."
              | Some margin =>
                  if (margin <? 0)%float || (1 <? margin)%float then
                    Rejected "Margin requirement must be between 0 and 1."
                  else
                    check_date (start_date_var form)
                      "Invalid start date format. Please use YYYY-MM-DD."
                      (check_date (end_date_var form)
                         "Invalid end date format. Please use YYYY-MM-DD."
                         Valid)
              end
        end
    end.

End WithEnv.

End Launcher.
Export Launcher.

(** ** A sample of the JSON decoder *)

Module Json.

Definition is_empty_string (s : string) : bool :=
  match s with EmptyString => true | _ => false end.

Definition is_ws (c : ascii) : bool :=
  match c with
  | " "%char | "009"%char | "010"%char | "013"%char => true
  | _ => false
  end.

Fixpoint skip_ws (s : string) : string :=
  match s with
  | String c r => if is_ws c then skip_ws r else s
  | EmptyString => s
  end.

Fixpoint drop_prefix (p s : string) : option string :=
  match p, s with
  | EmptyString, _ => Some s
  | String a p', String b s' => if Ascii.eqb a b then drop_prefix p' s' else None
  | String _ _, EmptyString => None
  end.

Definition digit_of (c : ascii) : option Z :=
  let n := Z.of_N (N_of_ascii c) in
  if (48 <=? n) && (n <=? 57) then Some (n - 48) else None.

(** The longest prefix of digits, most significant first. *)
Fixpoint span_digits (s : string) : list Z * string :=
  match s with
  | String c r =>
      match digit_of c with
      | Some d => let '(ds, r') := span_digits r in (d :: ds, r')
      | None => ([], s)
      end
  | EmptyString => ([], s)
  end.

Definition number_of (ds : list Z) : Z := foldl (λ n d, 10 * n + d) 0 ds.

Definition float_of_Z (z : Z) : float := PrimFloat.of_uint63 (Uint63.of_Z z).

(** A decimal [m / 10^k] as the nearest float: the division of two exactly
    represented numbers, which is the case when [m < 2^53] and [k <= 22]. *)
Definition decimal (negative : bool) (m : Z) (k : nat) : option float :=
  if (m <? 2 ^ 53) && (Nat.leb k 22) then
    let f := (float_of_Z m / float_of_Z (10 ^ Z.of_nat k))%float in
    Some (if negative then (- f)%float else f)
  else None.

(** An optional sign, an integer part without leading zero and an
    optional fraction; exponents are outside the fragment. *)
Definition parse_number (s : string) : option (pyval * string) :=
  let '(negative, s) :=
    match s with
    | String "-"%char r => (true, r)
    | _ => (false, s)
    end in
  let '(ip, r) := span_digits s in
  match ip with
  | [] => None
  | d :: ip' =>
      if (d =? 0) && negb (bool_decide (ip' = [])) then None
      else
        match r with
        | String "."%char r' =>
            let '(fp, r'') := span_digits r' in
            match fp with
            | [] => None
            | _ =>
                f ← decimal negative (number_of (ip ++ fp)) (length fp);
                Some (PyFloat f, r'')
            end
        | _ => Some (PyInt (if negative then - number_of ip else number_of ip), r)
        end
  end.

Definition unescape (c : ascii) : option ascii :=
  match c with
  | "034"%char => Some "034"%char
  | "\"%char => Some "\"%char
  | "/"%char => Some "/"%char
  | "b"%char => Some "008"%char
  | "f"%char => Some "012"%char
  | "n"%char => Some "010"%char
  | "r"%char => Some "013"%char
  | "t"%char => Some "009"%char
  | _ => None
  end.

(** The characters after an opening quote, up to the closing one. *)
Fixpoint parse_string (s : string) : option (string * string) :=
  match s with
  | EmptyString => None
  | String c r =>
      if Ascii.eqb c "034"%char then Some (EmptyString, r)
      else if Ascii.eqb c "\"%char then
        match r with
        | String e r' =>
            c' ← unescape e;
            '(str, rest) ← parse_string r';
            Some (String c' str, rest)
        | EmptyString => None
        end
      else if (N_of_ascii c <? 32)%N then None
      else
        '(str, rest) ← parse_string r;
        Some (String c str, rest)
  end.

Fixpoint parse_value (fuel : nat) (s : string) : option (pyval * string) :=
  match fuel with
  | O => None
  | S fuel =>
      let s := skip_ws s in
      match s with
      | String "034"%char r =>
          '(str, rest) ← parse_string r; Some (PyStr str, rest)
      | String "["%char r =>
          match skip_ws r with
          | String "]"%char rest => Some (PyList [], rest)
          | r => '(l, rest) ← parse_elements fuel r; Some (PyList l, rest)
          end
      | String "{"%char r =>
          match skip_ws r with
          | String "}"%char rest => Some (PyDict [], rest)
          | r => '(d, rest) ← parse_members fuel r; Some (PyDict d, rest)
          end
      | _ =>
          match drop_prefix "null" s, drop_prefix "true" s,
                drop_prefix "false" s with
          | Some rest, _, _ => Some (PyNone, rest)
          | _, Some rest, _ => Some (PyBool true, rest)
          | _, _, Some rest => Some (PyBool false, rest)
          | _, _, _ => parse_number s
          end
      end
  end
with parse_elements (fuel : nat) (s : string)
  : option (list pyval * string) :=
  match fuel with
  | O => None
  | S fuel =>
      '(v, r) ← parse_value fuel s;
      match skip_ws r with
      | String ","%char r' =>
          '(l, rest) ← parse_elements fuel r'; Some (v :: l, rest)
      | String "]"%char rest => Some ([v], rest)
      | _ => None
      end
  end
with parse_members (fuel : nat) (s : string)
  : option (list (string * pyval) * string) :=
  match fuel with
  | O => None
  | S fuel =>
      match skip_ws s with
      | String "034"%char r =>
          '(key, r) ← parse_string r;
          match skip_ws r with
          | String ":"%char r =>
              '(v, r) ← parse_value fuel r;
              match skip_ws r with
              | String ","%char r' =>
                  '(d, rest) ← parse_members fuel r'; Some ((key, v) :: d, rest)
              | String "}"%char rest => Some ([(key, v)], rest)
              | _ => None
              end
          | _ => None
          end
      | _ => None
      end
  end.

(** A decoder for a fragment of JSON: no exponents and no [\u] escapes,
    which it rejects like malformed text.  The double quote is the
    character of code 34. *)
Definition decode (s : string) : outcome pyval :=
  match parse_value (2 + String.length s) s with
  | Some (v, rest) =>
      match skip_ws rest with
      | EmptyString => Returns v
      | _ => raise JSONDecodeError "Extra data"
      end
  | None => raise JSONDecodeError "Expecting value"
  end.

(** A JSON text written with apostrophes in place of double quotes. *)
Fixpoint text (s : string) : string :=
  match s with
  | EmptyString => EmptyString
  | String c r =>
      String (if Ascii.eqb c "'"%char then "034"%char else c) (text r)
  end.

End Json.


(** ** A sample of the date functions *)

Module Dates.

Definition is_leap (y : Z) : bool :=
  ((y mod 4 =? 0) && negb (y mod 100 =? 0)) || (y mod 400 =? 0).

Definition days_in_month (y m : Z) : Z :=
  match m with
  | 2 => if is_leap y then 29 else 28
  | 4 | 6 | 9 | 11 => 30
  | _ => 31
  end.

(** The dates a [datetime] can hold. *)
Definition valid_date (d : date) : bool :=
  (1 <=? year d) && (year d <=? 9999) && (1 <=? month d) && (month d <=? 12)
  && (1 <=? day d) && (day d <=? days_in_month (year d) (month d)).

(** [%Y]: four digits. *)
Definition match_year (s : string) : option (Z * string) :=
  match s with
  | String a (String b (String c (String d r))) =>
      a ← Json.digit_of a; b ← Json.digit_of b;
      c ← Json.digit_of c; d ← Json.digit_of d;
      Some (1000 * a + 100 * b + 10 * c + d, r)
  | _ => None
  end.

Definition digit_in (lo hi : Z) (c : ascii) : option Z :=
  d ← Json.digit_of c;
  if (lo <=? d) && (d <=? hi) then Some d else None.

Definition two_digits (tens : Z) (lo hi : Z) (s : string)
  : list (Z * string) :=
  match s with
  | String a (String b r) =>
      match Json.digit_of a, digit_in lo hi b with
      | Some t, Some u => if t =? tens then [(10 * t + u, r)] else []
      | _, _ => []
      end
  | _ => []
  end.

Definition one_digit (s : string) : list (Z * string) :=
  match s with
  | String a r =>
      match digit_in 1 9 a with Some d => [(d, r)] | None => [] end
  | _ => []
  end.

(** [%m] is the pattern [1[0-2]|0[1-9]|[1-9]]: the ways it matches a
    prefix, in the order the alternatives are tried. *)
Definition match_month (s : string) : list (Z * string) :=
  two_digits 1 0 2 s ++ two_digits 0 1 9 s ++ one_digit s.

(** [%d] is the pattern [3[0-1]|[1-2]\d|0[1-9]|[1-9]| [1-9]]. *)
Definition match_day (s : string) : list (Z * string) :=
  two_digits 3 0 1 s ++ two_digits 1 0 9 s ++ two_digits 2 0 9 s
  ++ two_digits 0 1 9 s ++ one_digit s
  ++ match s with String " "%char r => one_digit r | _ => [] end.

(** The first match of month, dash and day. *)
Fixpoint first_match (months : list (Z * string))
  : option (Z * Z * string) :=
  match months with
  | [] => None
  | (m, r) :: months' =>
      match Json.drop_prefix "-" r with
      | Some r' =>
          match match_day r' with
          | (d, rest) :: _ => Some (m, d, rest)
          | [] => first_match months'
          end
      | None => first_match months'
      end
  end.

(** A model of [datetime.strptime(s, "%Y-%m-%d")] on ASCII text: the
    pattern must match a prefix, nothing may remain, and the date must
    exist. *)
Definition strptime (s : string) : option date :=
  '(y, r) ← match_year s;
  r ← Json.drop_prefix "-" r;
  '(m, d, rest) ← first_match (match_month r);
  let dt := mk_date y m d in
  if Json.is_empty_string rest && valid_date dt then Some dt else None.

Definition digit_char (d : Z) : ascii := ascii_of_N (Z.to_N (48 + d mod 10)).

Definition pad2 (n : Z) : string :=
  String (digit_char (n / 10)) (String (digit_char n) EmptyString).

Definition pad4 (n : Z) : string := pad2 (n / 100) +:+ pad2 (n mod 100).

(** [d.strftime("%Y-%m-%d")], the year written with four digits. *)
Definition strftime (d : date) : string :=
  pad4 (year d) +:+ "-" +:+ pad2 (month d) +:+ "-" +:+ pad2 (day d).

(** [d - relativedelta(months=n)]: the month moves back, the day is cut
    to the length of the month reached, a year before 1 is an error. *)
Definition sub_months (d : date) (n : Z) : outcome date :=
  let total := 12 * year d + (month d - 1) - n in
  let y := total / 12 in
  let m := total mod 12 + 1 in
  if (1 <=? y) && (y <=? 9999) then
    Returns (mk_date y m (Z.min (day d) (days_in_month y m)))
  else raise ValueError ("year " +:+ pad4 y +:+ " is out of range").

End Dates.


(** ** [float(s)] on ASCII text

    The conversion of a string to a float, after [PyFloat_FromString]:
    white space is stripped, then comes an optional sign and either
    [nan], [inf] or [infinity] in any case, or a decimal numeral with an
    optional exponent, whose digits may be grouped by single
    underscores.  The numeral is rounded to the nearest float, ties to
    even. *)

Module FloatOfStr.

(** The white space of [Py_ISSPACE]. *)
Definition is_space (c : ascii) : bool :=
  let n := N_of_ascii c in
  ((9 <=? n) && (n <=? 13) || (n =? 32))%N.

Fixpoint lstrip (s : string) : string :=
  match s with
  | String c r => if is_space c then lstrip r else s
  | EmptyString => s
  end.

Definition strip (s : string) : string :=
  String.rev (lstrip (String.rev (lstrip s))).

Definition lower_ascii (c : ascii) : ascii :=
  let n := N_of_ascii c in
  if ((65 <=? n) && (n <=? 90))%N then ascii_of_N (n + 32) else c.

Fixpoint lower (s : string) : string :=
  match s with
  | String c r => String (lower_ascii c) (lower r)
  | EmptyString => EmptyString
  end.

(** A digit followed by digits, each after at most one underscore; the
    digits, most significant first, and what follows them. *)
Fixpoint digitpart (s : string) : list Z * string :=
  match s with
  | String c r =>
      match Json.digit_of c with
      | Some d =>
          match r with
          | String "_"%char r' =>
              match digitpart r' with
              | ([], _) => ([d], r)
              | (ds, rest) => (d :: ds, rest)
              end
          | _ => let '(ds, rest) := digitpart r in (d :: ds, rest)
          end
      | None => ([], s)
      end
  | EmptyString => ([], s)
  end.

(** The float nearest to [num / den] for [num] and [den] above 0, ties to
    even: with [e] the integer part of the binary logarithm of the
    quotient, the quotient is cut at the bit of weight [2^s], where
    [s = e - 52] or, for a subnormal result, [-1074], and rounded there. *)
Definition nearest (num den : Z) : float :=
  let e0 := Z.log2 num - Z.log2 den in
  let reached :=
    if 0 <=? e0 then Z.shiftl den e0 <=? num
    else den <=? Z.shiftl num (- e0) in
  let e := if reached then e0 else e0 - 1 in
  let s := Z.max (e - 52) (-1074) in
  let n := if s <? 0 then Z.shiftl num (- s) else num in
  let d := if s <? 0 then den else Z.shiftl den s in
  let q := n / d in
  let r := n mod d in
  let q' := if (d <? 2 * r) || ((2 * r =? d) && Z.odd q) then q + 1 else q in
  Z.ldexp (Json.float_of_Z q') s.

(** The float nearest to [m * 10^e10], for [m] written with [digits]
    digits.  A numeral of 10^309 or more is beyond the largest float, one
    under 10^-324 is under half the least float above 0. *)
Definition of_decimal (m : Z) (digits : nat) (e10 : Z) : float :=
  if m =? 0 then 0%float
  else if 309 <=? e10 then infinity
  else if Z.of_nat digits + e10 <=? -324 then 0%float
  else if 0 <=? e10 then nearest (m * 10 ^ e10) 1
  else nearest m (10 ^ (- e10)).

(** The exponent that follows the digits: none, or [e] or [E], an
    optional sign and digits up to the end of the text. *)
Definition exponent (s : string) : option Z :=
  match s with
  | EmptyString => Some 0
  | String c r =>
      if Ascii.eqb c "e" || Ascii.eqb c "E" then
        let '(negative, r) :=
          match r with
          | String "-"%char r' => (true, r')
          | String "+"%char r' => (false, r')
          | _ => (false, r)
          end in
        match digitpart r with
        | ((_ :: _) as ds, EmptyString) =>
            Some (if negative then - Json.number_of ds else Json.number_of ds)
        | _ => None
        end
      else None
  end.

(** The numeral without its sign: an integer part, a point and a
    fraction, one of the two parts at least, and an exponent. *)
Definition absfloatvalue (s : string) : option float :=
  if bool_decide (lower s = "nan") then Some nan
  else if bool_decide (lower s = "inf") || bool_decide (lower s = "infinity")
  then Some infinity
  else
    let '(ip, r) := digitpart s in
    let '(fp, r) :=
      match r with
      | String "."%char r' => digitpart r'
      | _ => ([], r)
      end in
    match ip ++ fp with
    | [] => None
    | _ :: _ =>
        e ← exponent r;
        Some (of_decimal (Json.number_of (ip ++ fp)) (length (ip ++ fp))
                (e - Z.of_nat (length fp)))
    end.

(** [float(s)]; [None] stands for the [ValueError]. *)
Definition float (s : string) : option float :=
  let s := strip s in
  let '(negative, s) :=
    match s with
    | String "-"%char r => (true, r)
    | String "+"%char r => (false, r)
    | _ => (false, s)
    end in
  f ← absfloatvalue s;
  Some (if negative then (- f)%float else f).

End FloatOfStr.

(** ** A sample environment

    An instance of [Env] on which the engine can be run: the analysts of
    the launcher's table, the checks of the graph library's compilation,
    the decoder and date functions above, a scheduler given as parameter,
    and the first steps of the report writer of [display.py]. *)

Module Sample.

(** [analysts_config] of [gui_launcher.py], with the English names. *)
Definition analysts_config : list (string * string) :=
  [("aswath_damodaran", "Aswath Damodaran");
   ("ben_graham", "Benjamin Graham");
   ("bill_ackman", "Bill Ackman");
   ("cathie_wood", "Cathie Wood");
   ("charlie_munger", "Charlie Munger");
   ("michael_burry", "Michael Burry");
   ("peter_lynch", "Peter Lynch");
   ("phil_fisher", "Philip Fisher");
   ("stanley_druckenmiller", "Stanley Druckenmiller");
   ("warren_buffett", "Warren Buffett");
   ("technical_analyst", "Technical Analyst");
   ("fundamentals_analyst", "Fundamentals Analyst");
   ("sentiment_analyst", "Sentiment Analyst");
   ("valuation_analyst", "Valuation Analyst")].

(** A registry over these keys, the node of key [k] being named
    [k_agent]. *)
Definition analyst_nodes : gmap string (string * node_func) :=
  list_to_map
    ((λ kd, (kd.1, (kd.1 +:+ "_agent", analyst_agent kd.1)))
       <$> analysts_config).

Definition ANALYST_ORDER : list (string * string) :=
  (λ kd, (kd.2, kd.1)) <$> analysts_config.

(** The checks of [compile()], as [validate]: every edge starts at a node or at [START],
    some edge starts at [START], every edge ends at a node or at [END]. *)
Definition validate (g : StateGraph) : outcome unit :=
  let all_edges := elements (edges g) in
  let known (sentinel : string) (n : string) : bool :=
    bool_decide (n ∈ dom (nodes g)) || bool_decide (n = sentinel) in
  if negb (forallb (known START) all_edges.*1) then
    raise ValueError "Found edge starting at unknown node"
  else if negb (existsb (λ n, bool_decide (n = START)) all_edges.*1) then
    raise ValueError "Graph must have an entrypoint"
  else if negb (forallb (known END) all_edges.*2) then
    raise ValueError "Found edge ending at unknown node"
  else Returns ().

(** The final state of a run whose portfolio stage emits [payload] and
    whose analysts have produced [signals]. *)
Definition final_state (payload signals : pyval) (state : AgentState)
  : AgentState :=
  {| messages := messages state ++ [HumanMessage payload];
     data := {| data_tickers := data_tickers (data state);
                data_portfolio := data_portfolio (data state);
                data_start_date := data_start_date (data state);
                data_end_date := data_end_date (data state);
                data_analyst_signals := signals |};
     metadata := metadata state |}.

(** The scheduler of such a run. *)
Definition scheduler (payload signals : pyval) (agent : StateGraph)
    (state : AgentState) : outcome AgentState :=
  Returns (final_state payload signals state).


Definition truthy (v : pyval) : bool :=
  match v with
  | PyNone => false
  | PyBool b => b
  | PyInt z => negb (z =? 0)
  | PyFloat f => negb (f =? 0)%float
  | PyStr s => negb (is_empty s)
  | PyList l => match l with [] => false | _ => true end
  | PyDict d => match d with [] => false | _ => true end
  end.

(** The first steps of [save_trading_output_html]: no decisions give the
    short page; otherwise [decisions.items()] is iterated and [.get] is
    called on every decision. *)
Definition save_trading_output_html (r : RunResult) : outcome unit :=
  if negb (truthy (decisions r)) then Returns ()
  else
    match decisions r with
    | PyDict d =>
        for_each d (λ item _,
          match item.2 with
          | PyDict _ => Returns ()
          | v => raise AttributeError
                   ("'" +:+ type_name v +:+ "' object has no attribute 'get'")
          end) ()
    | v => raise AttributeError
             ("'" +:+ type_name v +:+ "' object has no attribute 'items'")
    end.

Definition is_space (c : ascii) : bool :=
  let n := N_of_ascii c in
  ((9 <=? n) && (n <=? 13) || (28 <=? n) && (n <=? 32))%N.

Fixpoint lstrip (s : string) : string :=
  match s with
  | String c r => if is_space c then lstrip r else s
  | EmptyString => s
  end.

(** [s.strip()] on ASCII text. *)
Definition strip (s : string) : string :=
  String.rev (lstrip (String.rev (lstrip s))).

Definition env (today : date)
    (run : StateGraph → AgentState → outcome AgentState) : Env :=
  {| get_analyst_nodes := analyst_nodes;
     import_ANALYST_ORDER := Returns ANALYST_ORDER;
     compile := validate;
     invoke := run;
     json_decode := Json.decode;
     strptime := Dates.strptime;
     strftime := Dates.strftime;
     now := today;
     sub_months := Dates.sub_months;
     save_graph_as_png := λ _ _, Returns ();
     print_trading_output := save_trading_output_html;
     format_exc := λ e, "Traceback (most recent call last): " +:+ exn_str e;
     str_strip := strip;
     float_of_str := FloatOfStr.float |}.

End Sample.

(** Sample data for the evaluation of the theorems. *)
Module Data.
Definition today : date := mk_date 2026 11 4.
Definition signals : pyval :=
  PyDict [("warren_buffett_agent",
           PyDict [("AAPL", PyDict [("signal", PyStr "bullish");
                                    ("confidence", PyInt 80)])])].
Definition well_formed : string :=
  Json.text
    "{'AAPL': {'action': 'buy', 'quantity': 10, 'confidence': 85.5, 'reasoning': 'moat'}}".
Definition a_list : string := Json.text "[1, 'sell', null]".
Definition a_string : string := Json.text "'hold'".
Definition other_keys : string := Json.text "{'TSLA': -5}".
Definition env_with (payload : pyval) : Env :=
  Sample.env today (Sample.scheduler payload signals).

(** An environment whose registry is empty. *)
Definition without_analysts (E : Env) : Env :=
  {| get_analyst_nodes := ∅;
     import_ANALYST_ORDER := import_ANALYST_ORDER E;
     compile := compile E;
     invoke := invoke E;
     json_decode := json_decode E;
     strptime := strptime E;
     strftime := strftime E;
     now := now E;
     sub_months := sub_months E;
     save_graph_as_png := save_graph_as_png E;
     print_trading_output := print_trading_output E;
     format_exc := format_exc E;
     str_strip := str_strip E;
     float_of_str := float_of_str E |}.
End Data.

(** * Further definitions: the picture of the graph, the callers of the
    engine, the order of the report and the file of API keys *)

(** The events of the picture of the graph. *)
Definition is_graph_event (ev : event) : bool :=
  match ev with
  | EvSaveGraph _ | EvGraphFailed _ => true
  | _ => false
  end.

(** A trace without the events of the picture. *)
Definition without_picture (t : list event) : list event :=
  List.filter (λ ev, negb (is_graph_event ev)) t.

(** ** The callers of the engine *)

(** [s.split(sep)] for a separator of one character. *)
Fixpoint split_on (sep : ascii) (s : string) : list string :=
  match s with
  | EmptyString => [EmptyString]
  | String c r =>
      if Ascii.eqb c sep then EmptyString :: split_on sep r
      else match split_on sep r with
           | w :: ws => String c w :: ws
           | [] => [String c EmptyString]
           end
  end.

(** The analysis thread of [gui_launcher.py]. *)
Module LauncherRun.

(** The variables of the window that [run_analysis] reads besides those
    of the form. *)
Record Options := mk_options {
  model_provider_var : string;
  model_name_var : string;
  show_reasoning_var : bool;
  show_graph_var : bool;
  language_var : string;
}.

(** What the thread tells the user: the error dialog with the message of
    the error dictionary, or the dialog of a completed analysis. *)
Inductive report :=
| AnalysisFailed (error_msg : string)
| AnalysisComplete.

Section WithEnv.
Context (E : Env).

(** The dictionary the thread passes to [run_from_gui]: the ten
    parameters of [run_hedge_fund_gui] and the key ["language"]. *)
Definition args_dict (stock_codes : string) (initial_cash margin_req : float)
    (start_date end_date : string) (selected_analysts : list string)
    (o : Options) : kwargs :=
  {| kw_tickers := Some (str_strip E <$> split_on "," stock_codes);
     kw_start_date := Some start_date;
     kw_end_date := Some end_date;
     kw_initial_cash := Some initial_cash;
     kw_margin_requirement := Some margin_req;
     kw_show_reasoning := Some (show_reasoning_var o);
     kw_selected_analysts := Some selected_analysts;
     kw_model_name := Some (model_name_var o);
     kw_model_provider := Some (model_provider_var o);
     kw_show_agent_graph := Some (show_graph_var o);
     kw_others := ["language"] |}.

(** [run_analysis_thread], once [run_from_gui] is imported: the call and
    the test [isinstance(result, dict) and "error" in result]. *)
Definition run_analysis_thread (stock_codes : string)
    (initial_cash margin_req : float) (start_date end_date : string)
    (selected_analysts : list string) (o : Options) : M report :=
  result ← run_from_gui E
              (args_dict stock_codes initial_cash margin_req start_date
                 end_date selected_analysts o);
  match result with
  | ErrorEnvelope error_msg _ => mret (AnalysisFailed error_msg)
  | Analysis _ => mret AnalysisComplete
  end.

End WithEnv.

End LauncherRun.

(** The command line of [main.py]. *)
Module Cli.

(** The arguments of the command line; a date that is not given is
    [None]. *)
Record Args := mk_args {
  arg_initial_cash : float;
  arg_margin_requirement : float;
  arg_tickers : string;
  arg_start_date : option string;
  arg_end_date : option string;
  arg_show_reasoning : bool;
  arg_show_agent_graph : bool;
}.

(** How the script ends when nothing is raised: [sys.exit(0)], or the
    result it has printed. *)
Inductive ending :=
| Exited (code : Z)
| Printed (r : RunResult).

Section WithEnv.
Context (E : Env).

(** The format of the dates that are given; a date that is [None] and an
    empty one are skipped alike. *)
Definition check_dates (start_date end_date : string) : M () :=
  (if is_empty start_date then mret ()
   else match strptime E start_date with
        | Some _ => mret ()
        | None => throw ValueError "Start date must be in YYYY-MM-DD format"
        end);;
  (if is_empty end_date then mret ()
   else match strptime E end_date with
        | Some _ => mret ()
        | None => throw ValueError "End date must be in YYYY-MM-DD format"
        end).

(** The script, from the answer [choices] to the prompt of the analysts
    on, for the model chosen at the prompts that follow.  No exception
    is handled. *)
Definition main (args : Args) (choices : list string)
    (model_name model_provider : string) : M ending :=
  let tickers := str_strip E <$> split_on "," (arg_tickers args) in
  match choices with
  | [] => mret (Exited 0)
  | _ :: _ =>
      let selected_analysts := choices in
      workflow ← create_workflow_call E (Some selected_analysts);
      app ← workflow_compile E workflow;
      (if arg_show_agent_graph args then
         let file_path := graph_file_path selected_analysts in
         emit (EvSaveGraph file_path);;
         lift (save_graph_as_png E app file_path)
       else mret ());;
      let start_date := default "" (arg_start_date args) in
      let end_date := default "" (arg_end_date args) in
      check_dates start_date end_date;;
      '(start_date, end_date) ← resolve_dates E start_date end_date;
      let portfolio :=
        initial_portfolio tickers (arg_initial_cash args)
          (arg_margin_requirement args) in
      result ← run_hedge_fund E tickers start_date end_date portfolio
                 (arg_show_reasoning args) selected_analysts model_name
                 model_provider;
      emit (EvTradingOutput result);;
      lift (print_trading_output E result);;
      mret (Printed result)
  end.

End WithEnv.

End Cli.

(** ** The order of the rows of the report, [src/utils/display.py] *)

Module Display.

(** [enumerate(l)], counting from [n]. *)
Fixpoint enumerate_from {A} (n : nat) (l : list A) : list (nat * A) :=
  match l with
  | [] => []
  | x :: l => (n, x) :: enumerate_from (S n) l
  end.

(** The dictionary [analyst_order]: the comprehension stores the index
    of every display name, a later entry replacing an earlier one of the
    same name, then ["Risk Management"] is stored with the length. *)
Definition analyst_order (ANALYST_ORDER : list (string * string))
  : gmap string nat :=
  <["Risk Management" := length ANALYST_ORDER]>
    (foldl (λ d ie, <[ie.2.1 := ie.1]> d) ∅ (enumerate_from 0 ANALYST_ORDER)).

(** The key of a row: [analyst_order.get(x[0], 999)]. *)
Definition sort_key {A} (ANALYST_ORDER : list (string * string))
    (x : string * A) : nat :=
  default 999%nat (analyst_order ANALYST_ORDER !! x.1).

(** [sorted(l, key=key)]: the builtin is a stable sort, here by
    insertion; a row goes before the first row whose key is not
    smaller. *)
Fixpoint insert_by {A} (key : A → nat) (x : A) (l : list A) : list A :=
  match l with
  | [] => [x]
  | y :: l' =>
      if (key x <=? key y)%nat then x :: l else y :: insert_by key x l'
  end.

Definition sorted {A} (key : A → nat) (l : list A) : list A :=
  foldr (insert_by key) [] l.

(** [sort_agent_signals]; a row is a tuple whose first component is the
    name of the agent. *)
Definition sort_agent_signals {A} (ANALYST_ORDER : list (string * string))
    (signals : list (string * A)) : list (string * A) :=
  sorted (sort_key ANALYST_ORDER) signals.

End Display.

(** ** The file of API keys, [create_env_file] of [gui_launcher.py] *)

Module EnvFile.

(** A Python dictionary from strings to strings, in insertion order. *)
Abbreviation dict := (list (string * string)).

(** [d[k]] when [k in d] *)
Fixpoint dict_get (d : dict) (k : string) : option string :=
  match d with
  | [] => None
  | (k', v) :: d' => if String.eqb k' k then Some v else dict_get d' k
  end.

(** [d[k] = v]: the value of a key that is present is replaced where it
    stands, a new key is added at the end. *)
Fixpoint dict_set (d : dict) (k v : string) : dict :=
  match d with
  | [] => [(k, v)]
  | (k', v') :: d' =>
      if String.eqb k' k then (k', v) :: d' else (k', v') :: dict_set d' k v
  end.

(** [c in s] for a character [c] *)
Fixpoint contains (c : ascii) (s : string) : bool :=
  match s with
  | EmptyString => false
  | String c' r => Ascii.eqb c' c || contains c r
  end.

(** [s.split(c, 1)] when [c in s] *)
Fixpoint split_first (c : ascii) (s : string) : string * string :=
  match s with
  | EmptyString => (EmptyString, EmptyString)
  | String c' r =>
      if Ascii.eqb c' c then (EmptyString, r)
      else let '(key, value) := split_first c r in (String c' key, value)
  end.

(** [s.lower()] on ASCII text *)
Definition lower_char (c : ascii) : ascii :=
  let n := N_of_ascii c in
  if ((65 <=? n) && (n <=? 90))%N then ascii_of_N (n + 32) else c.

Fixpoint lower (s : string) : string :=
  match s with
  | EmptyString => EmptyString
  | String c r => String (lower_char c) (lower r)
  end.

(** The line feed and the carriage return. *)
Definition LF : string := String "010"%char EmptyString.
Definition CR : string := String "013"%char EmptyString.

(** [sep.join(lines)] *)
Fixpoint join (sep : string) (lines : list string) : string :=
  match lines with
  | [] => EmptyString
  | [line] => line
  | line :: lines => line +:+ sep +:+ join sep lines
  end.

(** The platform gives [os.linesep]. *)
Inductive platform := Posix | Windows.

Definition linesep (p : platform) : string :=
  match p with
  | Posix => LF
  | Windows => CR +:+ LF
  end.

(** What a file opened with [open(path, 'w')] holds after [f.write(text)]:
    in text mode every line feed is written as [os.linesep]. *)
Fixpoint written (p : platform) (text : string) : string :=
  match text with
  | EmptyString => EmptyString
  | String c r =>
      if Ascii.eqb c "010" then linesep p +:+ written p r
      else String c (written p r)
  end.

(** [for line in f] on a file opened with [open(path, 'r')]: in text mode
    a line ends at a line feed, at a carriage return or at a carriage
    return followed by a line feed, and is yielded with a line feed in
    its place; the last line is yielded as it is when nothing ends it. *)
Fixpoint file_lines (file : string) : list string :=
  match file with
  | EmptyString => []
  | String c r =>
      if Ascii.eqb c "010" then LF :: file_lines r
      else if Ascii.eqb c "013" then
        match r with
        | String "010"%char r' => LF :: file_lines r'
        | _ => LF :: file_lines r
        end
      else
        match file_lines r with
        | [] => [String c EmptyString]
        | line :: lines => String c line :: lines
        end
  end.

(** The values of the six entry fields of the window. *)
Record ApiKeys := mk_keys {
  openai_key_var : string;
  groq_key_var : string;
  anthropic_key_var : string;
  deepseek_key_var : string;
  google_key_var : string;
  financial_datasets_key_var : string;
}.

(** A value that is used: not empty and not a template value. *)
Definition is_valid (value : string) : bool :=
  negb (is_empty value) && negb (String.prefix "your_" value).

(** The template value [f"your_{key.lower()}_here"] *)
Definition placeholder (key : string) : string :=
  "your_" +:+ lower key +:+ "_here".

Definition api_key_names : list string :=
  ["OPENAI_API_KEY"; "GROQ_API_KEY"; "ANTHROPIC_API_KEY"; "DEEPSEEK_API_KEY";
   "GOOGLE_API_KEY"; "FINANCIAL_DATASETS_API_KEY"].

Definition priority_keys : list string :=
  api_key_names ++ ["OLLAMA_BASE_URL"].

(** One step of the merge: the value of the window when it is valid,
    otherwise the value of the file when that is valid, otherwise the
    template value. *)
Definition merge_key (existing_env : dict) (item : string * string) : dict :=
  let '(key, gui_value) := item in
  if is_valid gui_value then dict_set existing_env key gui_value
  else
    match dict_get existing_env key with
    | Some value =>
        if is_valid value then existing_env
        else dict_set existing_env key (placeholder key)
    | None => dict_set existing_env key (placeholder key)
    end.

(** What a key holds after the merge of one key. *)
Definition merged_value (d : dict) (key gui_value : string) : string :=
  if is_valid gui_value then gui_value
  else match dict_get d key with
       | Some value => if is_valid value then value else placeholder key
       | None => placeholder key
       end.

(** The lines of the file, for the language [lang] of the window. *)
Definition env_content (lang : string) (existing_env : dict) : list string :=
  (if String.eqb lang "en" then
     ["# AI Hedge Fund Analysis Software - Environment Configuration";
      "# Automatically generated and updated by GUI"]
   else
     ["# AI对冲基金分析软件 - 环境配置";
      "# 由GUI自动生成和更新"])
  ++ [""]
  ++ omap (λ key, (λ value, key +:+ "=" +:+ value) <$> dict_get existing_env key)
       priority_keys
  ++ ((λ item, item.1 +:+ "=" +:+ item.2)
        <$> filter (λ item, item.1 ∉ priority_keys) existing_env).

(** The entries of a dictionary in the order in which they are written:
    the known keys that are present, then the others. *)
Definition entries (d : dict) : dict :=
  omap (λ key, (λ value, (key, value)) <$> dict_get d key) priority_keys
  ++ filter (λ item, item.1 ∉ priority_keys) d.

(** The keys reported as valid after the file is written; the warning
    is shown when there is none. *)
Definition valid_keys (existing_env : dict) : list string :=
  List.filter (λ key, match dict_get existing_env key with
                      | Some value => is_valid value
                      | None => false
                      end) api_key_names.

Section WithEnv.
Context (E : Env).

(** An entry that is read back as it is written: [strip] leaves its key
    and its value as they are, and the key is not empty, does not start a
    comment and holds no ["="]. *)
Definition clean (item : string * string) : Prop :=
  str_strip E item.1 = item.1 ∧ str_strip E item.2 = item.2
  ∧ is_empty item.1 = false ∧ String.prefix "#" item.1 = false
  ∧ contains "=" item.1 = false.

(** A line that is written and read as one line: it holds no line feed
    and no carriage return, and [strip] removes the line feed that ends it
    in the file and nothing else. *)
Definition one_line (line : string) : Prop :=
  contains "010" line = false ∧ contains "013" line = false
  ∧ str_strip E line = line ∧ str_strip E (line +:+ LF) = line.

(** One line of the file that is read. *)
Definition read_line (existing_env : dict) (line : string) : dict :=
  let line := str_strip E line in
  if negb (is_empty line) && negb (String.prefix "#" line) && contains "=" line then
    let '(key, value) := split_first "=" line in
    dict_set existing_env (str_strip E key) (str_strip E value)
  else existing_env.

(** The dictionary read from the lines of a file. *)
Definition read_lines (lines : list string) : dict :=
  foldl read_line [] lines.

(** The dictionary read from the file that holds [file], line by line;
    a file that does not exist is read as the empty one. *)
Definition read_env (file : string) : dict :=
  read_lines (file_lines file).

(** The dictionary [gui_api_keys] *)
Definition gui_api_keys (keys : ApiKeys) : list (string * string) :=
  [("OPENAI_API_KEY", str_strip E (openai_key_var keys));
   ("GROQ_API_KEY", str_strip E (groq_key_var keys));
   ("ANTHROPIC_API_KEY", str_strip E (anthropic_key_var keys));
   ("DEEPSEEK_API_KEY", str_strip E (deepseek_key_var keys));
   ("GOOGLE_API_KEY", str_strip E (google_key_var keys));
   ("FINANCIAL_DATASETS_API_KEY", str_strip E (financial_datasets_key_var keys))].

(** The dictionary that is written: the merge of the six keys, then the
    address of Ollama when the file gave none; [ollama_base_url] is what
    [get_ollama_base_url()] returns. *)
Definition merge (existing_env : dict) (keys : ApiKeys)
    (ollama_base_url : string) : dict :=
  let existing_env := foldl merge_key existing_env (gui_api_keys keys) in
  match dict_get existing_env "OLLAMA_BASE_URL" with
  | Some _ => existing_env
  | None => dict_set existing_env "OLLAMA_BASE_URL" ollama_base_url
  end.

(** [create_env_file], from what the file holds before to what it holds
    once [f.write('\n'.join(env_content))] has written it, on the
    platform [p].  The messages printed on the way are not part of the
    model. *)
Definition create_env_file (p : platform) (file : string) (keys : ApiKeys)
    (ollama_base_url lang : string) : string :=
  written p
    (join LF (env_content lang (merge (read_env file) keys ollama_base_url))).

End WithEnv.

End EnvFile.

(** ** The console

    [main.py] writes to the console with [print], which raises when the
    console refuses the text (a closed stream, an encoding that lacks a
    character).  The definitions of [Engine] are the functions on a
    console that accepts every line; here every [print] is a call that
    can raise.  Whether a line is refused depends on the line alone: on
    its characters and on the console of the run. *)

Module Console.

(** The lines [main.py] prints, each with the values it shows; the
    comment gives the line of the source. *)
Inductive line :=
| LStarted                                     (* 173 *)
| LRule                                        (* 174, 302 *)
| LTickers (tickers : list string)             (* 181 *)
| LDefaultAnalysts                             (* 190 *)
| LAnalystCount (n : nat)                      (* 194 *)
| LModel (model_provider model_name : string)  (* 197 *)
| LOllamaMode                                  (* 202 *)
| LOllamaModel (model_name : string)           (* 203 *)
| LPeriod (start_date end_date : string)       (* 228 *)
| LCash (initial_cash : float)                 (* 229 *)
| LCreating                                    (* 232 *)
| LWorkflowFailed (e : exn)                    (* 239 *)
| LTryingDefaults                              (* 240 *)
| LGraphSaved (file_path : string)             (* 257 *)
| LGraphFailed (e : exn)                       (* 259 *)
| LRunning                                     (* 285 *)
| LDashes                                      (* 286 *)
| LBlankRule                                   (* 300 *)
| LCompleted                                   (* 301 *)
| LRunFailed (e : exn)                         (* 308 *)
| LDetails                                     (* 310 *)
| LTraceback (traceback : string)              (* 311 *)
| LParse (d : parse_diagnostic) (e : exn) (response : pyval). (* 54, 57, 60 *)

Section WithConsole.
Context (E : Env).
(** [print(line)] on the console of the run *)
Context (print : line → outcome ()).

Definition say (l : line) : M () := lift (print l).

(** [parse_hedge_fund_response]: the diagnostic is printed in the clause
    that handles the exception; when the [print] raises, the parser
    raises. *)
Definition parse_hedge_fund_response (response : pyval) : M pyval :=
  try_except (lift (json_loads E response)) (λ e,
    if is_instance e JSONDecodeError then
      say (LParse JSON_decoding_error e response);;
      emit (EvParseDiagnostic JSON_decoding_error e);; mret PyNone
    else if is_instance e TypeError then
      say (LParse Invalid_response_type e response);;
      emit (EvParseDiagnostic Invalid_response_type e);; mret PyNone
    else
      say (LParse Unexpected_error e response);;
      emit (EvParseDiagnostic Unexpected_error e);; mret PyNone).

Definition run_hedge_fund (tickers : list string) (start_date end_date : string)
    (portfolio : Portfolio) (show_reasoning : bool)
    (selected_analysts : list string) (model_name model_provider : string)
  : M RunResult :=
  emit EvProgressStart;;
  try_finally
    (agent ←
       match selected_analysts with
       | _ :: _ =>
           workflow ← create_workflow_call E (Some selected_analysts);
           workflow_compile E workflow
       | [] =>
           workflow ← create_workflow_call E None;
           workflow_compile E workflow
       end;
     final_state ← agent_invoke E agent
       (initial_state tickers start_date end_date portfolio show_reasoning
          model_name model_provider);
     last_message ← lift (last_item (messages final_state));
     decisions ← parse_hedge_fund_response (content last_message);
     mret {| decisions := decisions;
             analyst_signals := data_analyst_signals (data final_state) |})
    (emit EvProgressStop).

Definition resolve_selected_analysts (selected_analysts : option (list string))
  : M (list string) :=
  match selected_analysts with
  | Some (k :: l) => mret (k :: l)
  | _ =>
      try_except_of ImportError
        (ANALYST_ORDER ← lift (import_ANALYST_ORDER E);
         mret (ANALYST_ORDER.*2))
        (λ _, say LDefaultAnalysts;; mret default_analysts)
  end.

(** Lines 181 to 232: what precedes the construction of the graph. *)
Definition prepare (tickers : list string) (start_date end_date : string)
    (initial_cash : float) (selected_analysts : option (list string))
    (model_name model_provider : string)
  : M (list string * (string * string)) :=
  say (LTickers tickers);;
  selected_analysts ← resolve_selected_analysts selected_analysts;
  say (LAnalystCount (length selected_analysts));;
  say (LModel model_provider model_name);;
  (if String.eqb model_provider "Ollama" then
     say LOllamaMode;; say (LOllamaModel model_name)
   else mret ());;
  validate_dates E start_date end_date;;
  dates ← resolve_dates E start_date end_date;
  say (LPeriod dates.1 dates.2);;
  say (LCash initial_cash);;
  say LCreating;;
  mret (selected_analysts, dates).

Definition build_workflow (selected_analysts : list string)
  : M (StateGraph * list string) :=
  try_except
    (app ← build E selected_analysts;
     mret (app, selected_analysts))
    (λ workflow_error,
       say (LWorkflowFailed workflow_error);;
       emit (EvWorkflowFailed workflow_error);;
       say LTryingDefaults;;
       app ← build E default_analysts;
       mret (app, default_analysts)).

Definition save_agent_graph (show_agent_graph : bool) (app : StateGraph)
    (selected_analysts : list string) : M () :=
  if show_agent_graph then
    try_except
      (let file_path := graph_file_path selected_analysts in
       emit (EvSaveGraph file_path);;
       lift (save_graph_as_png E app file_path);;
       say (LGraphSaved file_path))
      (λ e, say (LGraphFailed e);; emit (EvGraphFailed e))
  else mret ().

(** Lines 235 to 305: what follows it. *)
Definition analyse (tickers : list string) (start_date end_date : string)
    (initial_cash margin_requirement : float) (show_reasoning : bool)
    (selected_analysts : list string) (model_name model_provider : string)
    (show_agent_graph : bool) : M Result :=
  '(app, selected_analysts) ← build_workflow selected_analysts;
  save_agent_graph show_agent_graph app selected_analysts;;
  let portfolio := initial_portfolio tickers initial_cash margin_requirement in
  say LRunning;;
  say LDashes;;
  result ← run_hedge_fund tickers start_date end_date portfolio
             show_reasoning selected_analysts model_name model_provider;
  say LBlankRule;;
  say LCompleted;;
  say LRule;;
  emit (EvTradingOutput result);;
  lift (print_trading_output E result);;
  mret (Analysis result).

(** The handler, lines 307 to 317: three prints stand before the
    [return]. *)
Definition error_envelope (e : exn) : M Result :=
  say (LRunFailed e);;
  emit (EvRunFailed e);;
  say LDetails;;
  say (LTraceback (format_exc E e));;
  mret (ErrorEnvelope (exn_str e) (format_exc E e)).

(** The body of the [try] of [run_hedge_fund_gui]. *)
Definition body (tickers : list string) (start_date end_date : string)
    (initial_cash margin_requirement : float) (show_reasoning : bool)
    (selected_analysts : option (list string))
    (model_name model_provider : string) (show_agent_graph : bool)
  : M Result :=
  '(selected_analysts, (start_date, end_date)) ←
    prepare tickers start_date end_date initial_cash selected_analysts
      model_name model_provider;
  analyse tickers start_date end_date initial_cash margin_requirement
    show_reasoning selected_analysts model_name model_provider
    show_agent_graph.

(** [run_hedge_fund_gui]: the two prints of lines 173 and 174 stand
    before the [try]. *)
Definition run_hedge_fund_gui (tickers : list string)
    (start_date end_date : string) (initial_cash margin_requirement : float)
    (show_reasoning : bool) (selected_analysts : option (list string))
    (model_name model_provider : string) (show_agent_graph : bool)
  : M Result :=
  say LStarted;;
  say LRule;;
  try_except
    (body tickers start_date end_date initial_cash margin_requirement
       show_reasoning selected_analysts model_name model_provider
       show_agent_graph)
    error_envelope.

Definition call_run_hedge_fund_gui (args_dict : kwargs) : M Result :=
  match kw_others args_dict with
  | k :: _ =>
      throw TypeError
        ("run_hedge_fund_gui() got an unexpected keyword argument '"
           +:+ k +:+ "'")
  | [] =>
      match kw_tickers args_dict, kw_start_date args_dict,
            kw_end_date args_dict with
      | Some tickers, Some start_date, Some end_date =>
          run_hedge_fund_gui tickers start_date end_date
            (default 100000%float (kw_initial_cash args_dict))
            (default 0%float (kw_margin_requirement args_dict))
            (default false (kw_show_reasoning args_dict))
            (kw_selected_analysts args_dict)
            (default "gpt-4o" (kw_model_name args_dict))
            (default "OpenAI" (kw_model_provider args_dict))
            (default false (kw_show_agent_graph args_dict))
      | _, _, _ =>
          throw TypeError
            "run_hedge_fund_gui() missing required positional arguments"
      end
  end.

(** [run_from_gui]: its handler prints nothing. *)
Definition run_from_gui (args_dict : kwargs) : M Result :=
  try_except (call_run_hedge_fund_gui args_dict)
    (λ e, mret (ErrorEnvelope (exn_str e) (format_exc E e))).

End WithConsole.

(** A console that accepts every line. *)
Definition accepting (l : line) : outcome () := Returns ().

(** A console whose encoding has no emoji, as the consoles of code page
    936 (gbk): it refuses the lines that hold one with a
    [UnicodeEncodeError], which is a [ValueError]. *)
Definition no_emoji (l : line) : outcome () :=
  match l with
  | LRule | LTryingDefaults | LDashes | LBlankRule | LDetails
  | LTraceback _ | LParse _ _ _ => Returns ()
  | _ => raise ValueError "'gbk' codec can't encode character"
  end.

End Console.

(** The form [YYYY-MM-DD] as the specification words it: four digits, a
    dash, two digits, a dash, two digits. *)
Definition yyyy_mm_dd (s : string) : bool :=
  match list_ascii_of_string s with
  | [y1; y2; y3; y4; dash1; m1; m2; dash2; d1; d2] =>
      forallb (λ c, bool_decide (is_Some (Json.digit_of c)))
        [y1; y2; y3; y4; m1; m2; d1; d2]
      && Ascii.eqb dash1 "-" && Ascii.eqb dash2 "-"
  | _ => false
  end.

(** * Properties *)

#[local] Set Warnings "-clear-no-such-hyp".

(** ** The error monad *)

Lemma bind_Returns {A B} (m : outcome A) (f : A → outcome B) b :
  m ≫= f = Returns b ↔ ∃ a, m = Returns a ∧ f a = Returns b.
Proof.
  destruct m as [a|e]; simpl; split.
  - intros H. by exists a.
  - by intros (a' & [= <-] & H).
  - discriminate.
  - by intros (a' & [=] & _).
Qed.

Lemma getitem_Returns {V} (d : gmap string V) k v :
  getitem d k = Returns v ↔ d !! k = Some v.
Proof.
  unfold getitem, raise. destruct (d !! k); split; intros H;
    try discriminate; by injection H as ->.
Qed.

(** ** The graph builder *)

Lemma add_node_Returns n f g g' :
  add_node n f g = Returns g' ↔
  (n ∉ dom (nodes g)) ∧ n ≠ END ∧ n ≠ START
  ∧ g' = mk_graph (<[n := f]> (nodes g)) (edges g).
Proof.
  unfold add_node, raise. split.
  - intros H. destruct (decide (n ∈ dom (nodes g))); [discriminate|].
    destruct (decide (n = END ∨ n = START)) as [|Hn]; [discriminate|].
    injection H as <-.
    repeat split; [done|intros ->; apply Hn; by left|intros ->; apply Hn; by right].
  - intros (H1 & H2 & H3 & ->). rewrite decide_False by done.
    rewrite decide_False; [done|]. by intros [?|?].
Qed.

Lemma add_edge_Returns a b g g' :
  add_edge a b g = Returns g' ↔
  a ≠ END ∧ b ≠ START ∧ g' = mk_graph (nodes g) ({[ (a, b) ]} ∪ edges g).
Proof.
  unfold add_edge, raise. split.
  - intros H. destruct (decide (a = END)); [discriminate|].
    destruct (decide (b = START)); [discriminate|]. by injection H as <-.
  - intros (H1 & H2 & ->). by rewrite !decide_False by done.
Qed.

Section GraphFacts.
Variable reg : gmap string (string * node_func).

#[local] Abbreviation entry := (entry reg).
#[local] Abbreviation node_names := (node_names reg).
#[local] Abbreviation registered := (λ k : string, is_Some (reg !! k)).

Lemma node_names_entries sel : (entry <$> sel).*1 = node_names sel.
Proof. unfold Graph.node_names. by rewrite <- list_fmap_compose. Qed.

Lemma node_names_cons k sel :
  node_names (k :: sel) = (entry k).1 :: node_names sel.
Proof. reflexivity. Qed.

Lemma entry_lookup k e : reg !! k = Some e → entry k = e.
Proof. unfold Graph.entry. by intros ->. Qed.

Lemma add_analyst_node_Returns k g g' :
  add_analyst_node reg k g = Returns g' ↔
  registered k ∧ ((entry k).1 ∉ dom (nodes g))
  ∧ (entry k).1 ≠ END ∧ (entry k).1 ≠ START
  ∧ g' = mk_graph (<[(entry k).1 := (entry k).2]> (nodes g))
           ({[ ("start_node", (entry k).1) ]} ∪ edges g).
Proof.
  unfold add_analyst_node. rewrite bind_Returns. split.
  - intros ([n f] & Hk%getitem_Returns & H).
    rewrite (entry_lookup _ _ Hk). cbn [fst snd].
    apply bind_Returns in H as (g1 & H1 & H2).
    apply add_node_Returns in H1 as (? & ? & ? & ->).
    apply add_edge_Returns in H2 as (? & ? & ->). by eauto 6.
  - intros ([[n f] Hk] & H). rewrite (entry_lookup _ _ Hk) in H.
    cbn [fst snd] in H. destruct H as (? & ? & ? & ->).
    exists (n, f). split; [by apply getitem_Returns|].
    apply bind_Returns. eexists.
    split; [by apply add_node_Returns|by apply add_edge_Returns].
Qed.

Lemma connect_to_risk_Returns k g g' :
  connect_to_risk reg k g = Returns g' ↔
  registered k ∧ (entry k).1 ≠ END
  ∧ g' = mk_graph (nodes g)
           ({[ ((entry k).1, "risk_management_agent") ]} ∪ edges g).
Proof.
  unfold connect_to_risk. rewrite bind_Returns. split.
  - intros (e & Hk%getitem_Returns & H). rewrite (entry_lookup _ _ Hk).
    apply add_edge_Returns in H as (? & ? & ->). by eauto.
  - intros ([e Hk] & H). rewrite (entry_lookup _ _ Hk) in H.
    destruct H as (? & ->).
    exists e. split; [by apply getitem_Returns|by apply add_edge_Returns].
Qed.

(** The first loop returns exactly when every key is registered and the
    node names are fresh, pairwise distinct and not reserved. *)
Lemma first_loop_Returns sel : ∀ g g',
  for_each sel (add_analyst_node reg) g = Returns g' ↔
  Forall registered sel ∧ NoDup (node_names sel)
  ∧ Forall (λ n, (n ∉ dom (nodes g)) ∧ n ≠ END ∧ n ≠ START) (node_names sel)
  ∧ g' = mk_graph (list_to_map (entry <$> sel) ∪ nodes g)
           (list_to_set ((λ n, ("start_node", n)) <$> node_names sel)
              ∪ edges g).
Proof.
  assert (Hmap : ∀ k sel' (m : gmap string node_func),
    (entry k).1 ∉ node_names sel' →
    list_to_map (entry <$> sel') ∪ <[(entry k).1 := (entry k).2]> m
    = list_to_map (entry <$> k :: sel') ∪ m).
  { intros k sel' m Hnot. rewrite fmap_cons.
    destruct (entry k) as [n f] eqn:Hek. cbn [fst snd list_to_map foldr] in *.
    rewrite <- insert_union_l, insert_union_r; [done|].
    apply not_elem_of_list_to_map_1. by rewrite node_names_entries. }
  induction sel as [|k sel IH]; intros g g'.
  - cbn [for_each fmap list_fmap list_to_map list_to_set foldr Graph.node_names].
    rewrite (left_id_L ∅ (∪)), (left_id_L ∅ (∪)). destruct g.
    split; [intros [= <-]|intros (_ & _ & _ & ->)]; repeat split; constructor.
  - cbn [for_each]. rewrite bind_Returns.
    setoid_rewrite add_analyst_node_Returns. setoid_rewrite IH.
    rewrite !node_names_cons, !fmap_cons, !Forall_cons, NoDup_cons.
    split.
    + intros (g1 & (Hk & Hfresh & HE & HS & ->) & Hsel & Hnd & Hall & ->).
      cbn [nodes edges] in *. rewrite Forall_forall in Hall.
      assert (Hnot : (entry k).1 ∉ node_names sel).
      { intros Hin. destruct (Hall _ Hin) as [Hd _]. apply Hd.
        rewrite dom_insert_L. set_solver. }
      repeat split; try done.
      * apply Forall_forall. intros n Hn. destruct (Hall _ Hn) as (Hd & ? & ?).
        repeat split; try done. intros ?. apply Hd.
        rewrite dom_insert_L. set_solver.
      * f_equal; [by apply Hmap|]. cbn [list_to_set]. set_solver.
    + intros ((Hk & Hsel) & (Hnot & Hnd) & ((Hfresh & HE & HS) & Hall) & ->).
      eexists. split; [repeat split; try done|]. cbn [nodes edges].
      rewrite Forall_forall in Hall.
      repeat split; try done.
      * apply Forall_forall. intros n Hn. destruct (Hall _ Hn) as (Hd & ? & ?).
        repeat split; try done. rewrite dom_insert_L. set_solver.
      * f_equal; [symmetry; by apply Hmap|]. cbn [list_to_set]. set_solver.
Qed.

Lemma second_loop_Returns sel : ∀ g g',
  for_each sel (connect_to_risk reg) g = Returns g' ↔
  Forall registered sel ∧ Forall (λ n, n ≠ END) (node_names sel)
  ∧ g' = mk_graph (nodes g)
           (list_to_set ((λ n, (n, "risk_management_agent")) <$> node_names sel)
              ∪ edges g).
Proof.
  induction sel as [|k sel IH]; intros g g'.
  - cbn [for_each fmap list_fmap list_to_set Graph.node_names].
    rewrite (left_id_L ∅ (∪)). destruct g.
    split; [intros [= <-]|intros (_ & _ & ->)]; repeat split; constructor.
  - cbn [for_each]. rewrite bind_Returns.
    setoid_rewrite connect_to_risk_Returns. setoid_rewrite IH.
    rewrite !node_names_cons, !fmap_cons, !Forall_cons. split.
    + intros (g1 & (Hk & HE & ->) & Hsel & Hall & ->). cbn [nodes edges].
      repeat split; try done. f_equal. cbn [list_to_set]. set_solver.
    + intros ((Hk & Hsel) & (HE & Hall) & ->).
      eexists. split; [repeat split; try done|]. cbn [nodes edges].
      repeat split; try done. f_equal. cbn [list_to_set]. set_solver.
Qed.


Lemma not_fixed_name n :
  n ∉ fixed_names ↔
  n ≠ "start_node" ∧ n ≠ "risk_management_agent" ∧ n ≠ "portfolio_manager"
  ∧ n ≠ START ∧ n ≠ END.
Proof.
  unfold fixed_names. rewrite !not_elem_of_cons. split.
  - by intros (? & ? & ? & ? & ? & _).
  - intros (? & ? & ? & ? & ?). repeat split; try done. apply not_elem_of_nil.
Qed.

Lemma start_graph :
  add_node "start_node" start new_graph
  = Returns (mk_graph (<["start_node" := start]> ∅) ∅).
Proof. reflexivity. Qed.

(** [create_workflow] returns exactly on the selections whose keys are
    all registered and whose node names are pairwise distinct and not
    fixed names; the graph is then [plan_of] the entries. *)
Lemma create_workflow_Returns sel g :
  create_workflow reg (Some sel) = Returns g ↔
  Forall registered sel ∧ NoDup (node_names sel)
  ∧ Forall (λ n, n ∉ fixed_names) (node_names sel)
  ∧ g = plan_of (entry <$> sel).
Proof.
  unfold create_workflow. rewrite start_graph.
  change (Returns ?a ≫= ?f) with (f a). cbv beta.
  rewrite bind_Returns. setoid_rewrite first_loop_Returns.
  split.
  - intros (g1 & (Hreg & Hnd & Hfresh & ->) & H).
    apply bind_Returns in H as (g2 & H2 & H).
    apply add_node_Returns in H2 as (Hr & _ & _ & ->).
    apply bind_Returns in H as (g3 & H3 & H).
    apply add_node_Returns in H3 as (Hp & _ & _ & ->).
    apply bind_Returns in H as (g4 & H4 & H).
    apply second_loop_Returns in H4 as (_ & HE & ->).
    apply bind_Returns in H as (g5 & H5 & H).
    apply add_edge_Returns in H5 as (_ & _ & ->).
    apply bind_Returns in H as (g6 & H6 & H).
    apply add_edge_Returns in H6 as (_ & _ & ->).
    apply add_edge_Returns in H as (_ & _ & ->).
    cbn [nodes edges] in *.
    rewrite !dom_insert_L, dom_union_L, dom_list_to_map_L, node_names_entries,
      dom_insert_L, dom_empty_L in Hp.
    rewrite dom_union_L, dom_list_to_map_L, node_names_entries,
      dom_insert_L, dom_empty_L in Hr.
    repeat split; try done.
    + rewrite Forall_forall in Hfresh, HE. apply Forall_forall. intros n Hn.
      destruct (Hfresh _ Hn) as (Hd & ? & ?).
      rewrite dom_insert_L, dom_empty_L in Hd.
      apply not_fixed_name. repeat split; try done; set_solver.
    + unfold plan_of. by rewrite node_names_entries.
  - intros (Hreg & Hnd & Hfix & ->).
    rewrite Forall_forall in Hfix.
    assert (Hfix' : ∀ n, n ∈ node_names sel →
       n ≠ "start_node" ∧ n ≠ "risk_management_agent" ∧ n ≠ "portfolio_manager"
       ∧ n ≠ START ∧ n ≠ END).
    { intros n Hn. by apply not_fixed_name, Hfix. }
    eexists. split.
    { repeat split; try done. apply Forall_forall. intros n Hn.
      destruct (Hfix' _ Hn) as (? & ? & ? & ? & ?). cbn [nodes edges].
      rewrite dom_insert_L, dom_empty_L. repeat split; try done. set_solver. }
    apply bind_Returns. eexists. split.
    { apply add_node_Returns. cbn [nodes edges]. repeat split; try done.
      rewrite dom_union_L, dom_list_to_map_L, node_names_entries,
        dom_insert_L, dom_empty_L.
      intros [Hin%elem_of_list_to_set|Hin]%elem_of_union; [|set_solver].
      by destruct (Hfix' _ Hin) as (? & ? & ? & ? & ?). }
    apply bind_Returns. eexists. split.
    { apply add_node_Returns. cbn [nodes edges]. repeat split; try done.
      rewrite dom_insert_L, dom_union_L, dom_list_to_map_L, node_names_entries,
        dom_insert_L, dom_empty_L.
      intros [Hin|[Hin%elem_of_list_to_set|Hin]%elem_of_union]%elem_of_union;
        [set_solver| |set_solver].
      by destruct (Hfix' _ Hin) as (? & ? & ? & ? & ?). }
    apply bind_Returns. eexists. split.
    { apply second_loop_Returns. repeat split; try done.
      apply Forall_forall. intros n Hn.
      by destruct (Hfix' _ Hn) as (? & ? & ? & ? & ?). }
    cbn [nodes edges]. unfold plan_of. rewrite node_names_entries. reflexivity.
Qed.

(** The default selection is the list of all registered keys. *)
Lemma create_workflow_default :
  create_workflow reg None = create_workflow reg (Some (map_to_list reg).*1).
Proof. reflexivity. Qed.

Lemma NoDup_fmap_eq {A B} (f : A → B) (l : list A) x y :
  NoDup (f <$> l) → x ∈ l → y ∈ l → f x = f y → x = y.
Proof.
  induction l as [|a l IH]; [by intros _ ?%elem_of_nil|].
  rewrite fmap_cons, NoDup_cons, !elem_of_cons.
  intros [Ha Hl] [->|Hx] [->|Hy] Hf; try done.
  - exfalso. apply Ha. rewrite Hf. by apply list_elem_of_fmap_2.
  - exfalso. apply Ha. rewrite <- Hf. by apply list_elem_of_fmap_2.
  - by apply IH.
Qed.

Lemma registered_name k e :
  reg !! k = Some e → e.1 ∈ registry_names reg.
Proof.
  intros Hk. unfold registry_names.
  apply list_elem_of_fmap. exists e. split; [done|].
  apply list_elem_of_fmap. exists (k, e). split; [done|].
  by apply elem_of_map_to_list.
Qed.

(** In a well-formed registry, distinct registered keys have distinct
    node names, none of which is a fixed name. *)
Lemma registry_wf_names sel :
  registry_wf reg → NoDup sel → Forall registered sel →
  NoDup (node_names sel) ∧ Forall (λ n, n ∉ fixed_names) (node_names sel).
Proof.
  intros [Hnd Hfix] Hsel Hreg. rewrite Forall_forall in Hreg, Hfix. split.
  - apply NoDup_fmap_2_strong; [|done].
    intros k1 k2 [e1 H1]%Hreg [e2 H2]%Hreg.
    rewrite (entry_lookup _ _ H1), (entry_lookup _ _ H2). intros Heq.
    unfold registry_names in Hnd. rewrite <- list_fmap_compose in Hnd.
    assert (Hpair : (k1, e1) = (k2, e2)); [|congruence].
    eapply (NoDup_fmap_eq _ _ _ _ Hnd); [by apply elem_of_map_to_list..|done].
  - apply Forall_forall. intros n (k & -> & [e Hk]%Hreg)%list_elem_of_fmap.
    rewrite (entry_lookup _ _ Hk). by eapply Hfix, registered_name.
Qed.

End GraphFacts.

(** ** The shape of the plan (claims C4, C5, C6) *)

Lemma plan_of_dom (pairs : list (string * node_func)) :
  dom (nodes (plan_of pairs))
  = {["start_node"]} ∪ list_to_set pairs.*1
    ∪ {["risk_management_agent"; "portfolio_manager"]}.
Proof.
  unfold plan_of. cbn [nodes].
  rewrite !dom_insert_L, dom_union_L, dom_list_to_map_L, dom_insert_L,
    dom_empty_L.
  set_solver.
Qed.

Lemma plan_of_size (pairs : list (string * node_func)) :
  NoDup pairs.*1 → Forall (λ n, n ∉ fixed_names) pairs.*1 →
  size (nodes (plan_of pairs)) = (1 + length pairs + 2)%nat.
Proof.
  intros Hnd Hfix. rewrite Forall_forall in Hfix.
  assert (Hfix' : ∀ n, n ∈ pairs.*1 →
     n ≠ "start_node" ∧ n ≠ "risk_management_agent" ∧ n ≠ "portfolio_manager"
     ∧ n ≠ START ∧ n ≠ END).
  { intros n Hn. by apply not_fixed_name, Hfix. }
  unfold plan_of. cbn [nodes].
  rewrite map_size_insert_None.
  2:{ apply not_elem_of_dom.
      rewrite dom_insert_L, dom_union_L, dom_list_to_map_L, dom_insert_L,
        dom_empty_L.
      intros [Hin|[Hin%elem_of_list_to_set|Hin]%elem_of_union]%elem_of_union;
        [set_solver| |set_solver].
      by destruct (Hfix' _ Hin) as (? & ? & ? & ? & ?). }
  rewrite map_size_insert_None.
  2:{ apply not_elem_of_dom.
      rewrite dom_union_L, dom_list_to_map_L, dom_insert_L, dom_empty_L.
      intros [Hin%elem_of_list_to_set|Hin]%elem_of_union; [|set_solver].
      by destruct (Hfix' _ Hin) as (? & ? & ? & ? & ?). }
  rewrite map_size_disj_union.
  2:{ apply map_disjoint_dom. rewrite dom_list_to_map_L, dom_insert_L, dom_empty_L.
      intros n Hin%elem_of_list_to_set Hs.
      destruct (Hfix' _ Hin) as (? & ? & ? & ? & ?). set_solver. }
  rewrite map_size_list_to_map by done.
  rewrite map_size_insert_None by apply lookup_empty.
  rewrite map_size_empty. lia.
Qed.

Lemma plan_of_edges (pairs : list (string * node_func)) :
  Forall (λ n, n ∉ fixed_names) pairs.*1 →
  plan_edges (plan_of pairs)
  = list_to_set ((λ n, ("start_node", n)) <$> pairs.*1)
    ∪ list_to_set ((λ n, (n, "risk_management_agent")) <$> pairs.*1)
    ∪ {[ ("risk_management_agent", "portfolio_manager") ]}.
Proof.
  intros Hfix. rewrite Forall_forall in Hfix.
  assert (Hfix' : ∀ n, n ∈ pairs.*1 →
     n ≠ "start_node" ∧ n ≠ "risk_management_agent" ∧ n ≠ "portfolio_manager"
     ∧ n ≠ START ∧ n ≠ END).
  { intros n Hn. by apply not_fixed_name, Hfix. }
  unfold plan_edges. rewrite plan_of_dom.
  apply set_eq. intros [a b]. rewrite elem_of_filter. cbn [fst snd plan_of edges].
  set (names := pairs.*1) in *. clearbody names.
  rewrite !elem_of_union, !elem_of_list_to_set, !list_elem_of_fmap,
    !elem_of_singleton.
  split.
  - intros [[Ha Hb] He].
    destruct He as [[= -> ->]|[[= -> ->]|[[= -> ->]|[(n & [= -> ->] & Hn)|[(n & [= -> ->] & Hn)|He]]]]].
    + exfalso. destruct Ha as [[[=]|Ha]|[[=]|[=]]].
      by destruct (Hfix' _ Ha) as (? & ? & ? & ? & ?).
    + exfalso. destruct Hb as [[[=]|Hb]|[[=]|[=]]].
      by destruct (Hfix' _ Hb) as (? & ? & ? & ? & ?).
    + by right.
    + left. right. by exists n.
    + left. left. by exists n.
    + by apply elem_of_empty in He.
  - intros [[(n & [= -> ->] & Hn)|(n & [= -> ->] & Hn)]|[= -> ->]].
    + split; [split; [by left; left|by left; right]|]. do 4 right. left. by exists n.
    + split; [split; [by left; right|by right; left]|]. do 3 right. left. by exists n.
    + split; [split; [by right; left|by right; right]|]. do 2 right. by left.
Qed.

Lemma plan_of_all_edges (pairs : list (string * node_func)) :
  Forall (λ n, n ∉ fixed_names) pairs.*1 →
  edges (plan_of pairs)
  = plan_edges (plan_of pairs)
    ∪ {[ (START, "start_node"); ("portfolio_manager", END) ]}.
Proof.
  intros Hfix. rewrite plan_of_edges by done. unfold plan_of. cbn [edges].
  set_solver.
Qed.

(** C5: for every list of [N] pairwise distinct registered keys (of a
    well-formed registry), [create_workflow] returns a plan with exactly
    [1 + N + 2] nodes: the start node, the [N] analyst nodes, the risk
    node and the portfolio node.  The edges between its nodes are exactly
    start to each analyst node, each analyst node to the risk node, and
    the risk node to the portfolio node; the edge set holds besides them
    only the two marks of the entry and finish points; no edge joins two
    analyst nodes. *)
Theorem build_plan_shape (reg : gmap string (string * node_func))
    (sel : list string) :
  registry_wf reg → NoDup sel → Forall (λ k, k ∈ dom reg) sel →
  ∃ g, create_workflow reg (Some sel) = Returns g
    ∧ size (nodes g) = (1 + length sel + 2)%nat
    ∧ dom (nodes g)
      = {["start_node"]} ∪ list_to_set (node_names reg sel)
        ∪ {["risk_management_agent"; "portfolio_manager"]}
    ∧ plan_edges g
      = list_to_set ((λ n, ("start_node", n)) <$> node_names reg sel)
        ∪ list_to_set ((λ n, (n, "risk_management_agent")) <$> node_names reg sel)
        ∪ {[ ("risk_management_agent", "portfolio_manager") ]}
    ∧ edges g
      = plan_edges g ∪ {[ (START, "start_node"); ("portfolio_manager", END) ]}
    ∧ ∀ a b, a ∈ node_names reg sel → b ∈ node_names reg sel →
        (a, b) ∉ edges g.
Proof.
  intros Hwf Hnd Hreg.
  assert (Hreg' : Forall (λ k, is_Some (reg !! k)) sel).
  { eapply Forall_impl; [exact Hreg|]. intros k. apply elem_of_dom. }
  destruct (registry_wf_names reg sel Hwf Hnd Hreg') as [Hnames Hfix].
  exists (plan_of (entry reg <$> sel)).
  pose proof (node_names_entries reg sel) as Hent.
  split; [by apply create_workflow_Returns|].
  split; [rewrite plan_of_size, ?length_fmap; by rewrite ?Hent|].
  split; [by rewrite plan_of_dom, Hent|].
  split; [rewrite plan_of_edges; by rewrite Hent|].
  split; [apply plan_of_all_edges; by rewrite Hent|].
  intros a b Ha Hb. rewrite plan_of_all_edges, plan_of_edges, Hent by (by rewrite Hent).
  rewrite Forall_forall in Hfix.
  apply Hfix, not_fixed_name in Ha as (? & ? & ? & ? & ?).
  apply Hfix, not_fixed_name in Hb as (? & ? & ? & ? & ?).
  set (names := node_names reg sel) in *. clearbody names.
  rewrite !elem_of_union, !elem_of_list_to_set, !list_elem_of_fmap,
    !elem_of_singleton.
  intros [[[(n & [= -> ->] & _)|(n & [= -> ->] & _)]|[= -> ->]]|[[= -> ->]|[= -> ->]]];
    done.
Qed.

Lemma build_plan_shape_witness :
  let reg := Sample.analyst_nodes in
  let sel := ["warren_buffett"; "technical_analyst"] in
  ∃ g, create_workflow reg (Some sel) = Returns g
    ∧ size (nodes g) = 5%nat
    ∧ dom (nodes g)
      = {["start_node"]} ∪ list_to_set (node_names reg sel)
        ∪ {["risk_management_agent"; "portfolio_manager"]}
    ∧ plan_edges g
      = list_to_set ((λ n, ("start_node", n)) <$> node_names reg sel)
        ∪ list_to_set ((λ n, (n, "risk_management_agent")) <$> node_names reg sel)
        ∪ {[ ("risk_management_agent", "portfolio_manager") ]}
    ∧ edges g
      = plan_edges g ∪ {[ (START, "start_node"); ("portfolio_manager", END) ]}
    ∧ ∀ a b, a ∈ node_names reg sel → b ∈ node_names reg sel →
        (a, b) ∉ edges g.
Proof.
  apply (build_plan_shape Sample.analyst_nodes
           ["warren_buffett"; "technical_analyst"]).
  - split; apply (bool_decide_unpack _); vm_compute; exact I.
  - apply (bool_decide_unpack _); vm_compute; exact I.
  - apply (bool_decide_unpack _); vm_compute; exact I.
Defined.

(** C6: two selections made of the same pairwise distinct keys give the
    same plan, whatever their order: if [create_workflow] returns a graph
    on one, it returns on the other a graph with the same nodes, hence the
    same number of nodes, and the same edge set. *)
Theorem build_order_insensitive (reg : gmap string (string * node_func))
    (l1 l2 : list string) (g1 : StateGraph) :
  NoDup l1 → NoDup l2 → (∀ k, k ∈ l1 ↔ k ∈ l2) →
  create_workflow reg (Some l1) = Returns g1 →
  ∃ g2, create_workflow reg (Some l2) = Returns g2
    ∧ size (nodes g2) = size (nodes g1)
    ∧ edges g2 = edges g1
    ∧ nodes g2 = nodes g1.
Proof.
  intros Hnd1 Hnd2 Hsame (Hreg & Hnames & Hfix & ->)%create_workflow_Returns.
  assert (Hperm : l1 ≡ₚ l2) by by apply NoDup_Permutation.
  assert (Hpairs : entry reg <$> l1 ≡ₚ entry reg <$> l2) by by rewrite Hperm.
  assert (Hg : plan_of (entry reg <$> l2) = plan_of (entry reg <$> l1)).
  { assert (Hn : (entry reg <$> l2).*1 ≡ₚ (entry reg <$> l1).*1)
      by by rewrite Hpairs.
    unfold plan_of.
    rewrite (list_to_map_proper (entry reg <$> l2) (entry reg <$> l1));
      [|by rewrite Hn, node_names_entries|done].
    rewrite (list_to_set_perm_L
               ((λ n, (n, "risk_management_agent")) <$> (entry reg <$> l2).*1)
               ((λ n, (n, "risk_management_agent")) <$> (entry reg <$> l1).*1))
      by by rewrite Hn.
    rewrite (list_to_set_perm_L
               ((λ n, ("start_node", n)) <$> (entry reg <$> l2).*1)
               ((λ n, ("start_node", n)) <$> (entry reg <$> l1).*1))
      by by rewrite Hn.
    reflexivity. }
  exists (plan_of (entry reg <$> l2)). split.
  - apply create_workflow_Returns.
    split; [by rewrite <- Hperm|].
    split; [by rewrite <- node_names_entries, <- Hpairs, node_names_entries|].
    split; [by rewrite <- node_names_entries, <- Hpairs, node_names_entries|].
    reflexivity.
  - rewrite Hg. repeat split; reflexivity.
Qed.

Lemma build_order_insensitive_witness :
  ∃ g2, create_workflow Sample.analyst_nodes
          (Some ["technical_analyst"; "warren_buffett"; "peter_lynch"])
        = Returns g2
    ∧ size (nodes g2) = size (nodes (plan_of (entry Sample.analyst_nodes <$> ["peter_lynch"; "technical_analyst"; "warren_buffett"])))
    ∧ edges g2 = edges (plan_of (entry Sample.analyst_nodes <$> ["peter_lynch"; "technical_analyst"; "warren_buffett"]))
    ∧ nodes g2 = nodes (plan_of (entry Sample.analyst_nodes <$> ["peter_lynch"; "technical_analyst"; "warren_buffett"])).
Proof.
  apply (build_order_insensitive Sample.analyst_nodes
           ["peter_lynch"; "technical_analyst"; "warren_buffett"]
           ["technical_analyst"; "warren_buffett"; "peter_lynch"]).
  - apply (bool_decide_unpack _); vm_compute; exact I.
  - apply (bool_decide_unpack _); vm_compute; exact I.
  - intros k. rewrite !elem_of_cons, !elem_of_nil. tauto.
  - vm_compute. reflexivity.
Defined.

(** C4, the claim as stated fails: on the empty selection the builder
    raises nothing. *)
Lemma empty_selection_raises_nothing :
  ¬ ∃ e, create_workflow Sample.analyst_nodes (Some []) = Raises e.
Proof. intros [e H]. vm_compute in H. discriminate H. Qed.

(** ** The effect monad *)

Section MonadFacts.
Context {A B : Type}.
Implicit Types (m : M A) (f : A → M B) (h : exn → M A).

Lemma result_bind m f :
  result (m ≫= f)
  = match result m with
    | Returns a => result (f a)
    | Raises e => Raises e
    end.
Proof. destruct m as [t [a|e]]; [|done]. simpl. by destruct (f a). Qed.

Lemma trace_bind m f :
  trace (m ≫= f)
  = trace m ++ match result m with
               | Returns a => trace (f a)
               | Raises _ => []
               end.
Proof.
  destruct m as [t [a|e]]; simpl.
  - by destruct (f a).
  - by rewrite app_nil_r.
Qed.

Lemma result_try_except m h :
  result (try_except m h)
  = match result m with
    | Returns a => Returns a
    | Raises e => result (h e)
    end.
Proof. destruct m as [t [a|e]]; [done|]. simpl. by destruct (h e). Qed.

Lemma trace_try_except m h :
  trace (try_except m h)
  = trace m ++ match result m with
               | Returns _ => []
               | Raises e => trace (h e)
               end.
Proof.
  destruct m as [t [a|e]]; simpl.
  - by rewrite app_nil_r.
  - by destruct (h e).
Qed.

Lemma elem_of_trace_bind x m f :
  x ∈ trace (m ≫= f) ↔
  x ∈ trace m ∨ ∃ a, result m = Returns a ∧ x ∈ trace (f a).
Proof.
  rewrite trace_bind, elem_of_app. destruct (result m) as [a|e]; split.
  - intros [?|?]; [by left|right; by exists a].
  - intros [?|(a' & [= <-] & ?)]; [by left|by right].
  - intros [?|[]%elem_of_nil]. by left.
  - intros [?|(a' & [=] & _)]. by left.
Qed.

Lemma elem_of_trace_try_except x m h :
  x ∈ trace (try_except m h) ↔
  x ∈ trace m ∨ ∃ e, result m = Raises e ∧ x ∈ trace (h e).
Proof.
  rewrite trace_try_except, elem_of_app. destruct (result m) as [a|e]; split.
  - intros [?|[]%elem_of_nil]. by left.
  - intros [?|(e' & [=] & _)]. by left.
  - intros [?|?]; [by left|right; by exists e].
  - intros [?|(e' & [= <-] & ?)]; [by left|by right].
Qed.

End MonadFacts.

Lemma M_eta {A} (m : M A) : m = (trace m, result m).
Proof. by destruct m. Qed.

Lemma result_try_finally {A} (m : M A) (ev : event) :
  result (try_finally m (emit ev)) = result m.
Proof. by destruct m. Qed.

Lemma trace_try_finally {A} (m : M A) (ev : event) :
  trace (try_finally m (emit ev)) = trace m ++ [ev].
Proof. by destruct m. Qed.

Lemma result_lift {A} (o : outcome A) : result (lift o) = o.
Proof. done. Qed.
Lemma trace_lift {A} (o : outcome A) : trace (lift o) = [].
Proof. done. Qed.
Lemma result_emit ev : result (emit ev) = Returns ().
Proof. done. Qed.
Lemma trace_emit ev : trace (emit ev) = [ev].
Proof. done. Qed.
Lemma result_mret {A} (a : A) : result (mret a) = Returns a.
Proof. done. Qed.
Lemma trace_mret {A} (a : A) : trace (mret a : M A) = [].
Proof. done. Qed.
Lemma result_throw {A} c msg : result (throw c msg : M A) = raise c msg.
Proof. done. Qed.
Lemma trace_throw {A} c msg : trace (throw c msg : M A) = [].
Proof. done. Qed.

(** Evaluation of the result and of the trace of a computation, one
    step at a time. *)
Ltac effects_step :=
  progress
    (rewrite ?result_bind, ?trace_bind, ?result_try_except, ?trace_try_except,
       ?result_try_finally, ?trace_try_finally, ?result_lift, ?trace_lift,
       ?result_emit, ?trace_emit, ?result_mret, ?trace_mret,
       ?result_throw, ?trace_throw;
     cbv beta iota).
Ltac effects := repeat effects_step.

(** ** The decision payload parser (claims C1 and C10) *)

Section ParserFacts.
Context (E : Env).



Lemma parse_Raises (response : pyval) (e : exn) :
  json_loads E response = Raises e →
  parse_hedge_fund_response E response
  = ([EvParseDiagnostic (diagnostic_of e) e], Returns PyNone).
Proof.
  intros H. unfold parse_hedge_fund_response, diagnostic_of, lift. rewrite H.
  cbn [try_except]. by destruct (is_instance e JSONDecodeError), (is_instance e TypeError).
Qed.

Lemma parse_Returns (response v : pyval) :
  json_loads E response = Returns v →
  parse_hedge_fund_response E response = ([], Returns v).
Proof. intros H. unfold parse_hedge_fund_response, lift. by rewrite H. Qed.

(** The parser never raises. *)
Lemma parse_total (response : pyval) :
  result (parse_hedge_fund_response E response)
  = Returns match json_loads E response with
            | Returns v => v
            | Raises _ => PyNone
            end.
Proof.
  destruct (json_loads E response) as [v|e] eqn:H.
  - by rewrite (parse_Returns _ _ H).
  - by rewrite (parse_Raises _ _ H).
Qed.

Lemma parse_trace (response : pyval) :
  trace (parse_hedge_fund_response E response)
  = match json_loads E response with
    | Returns _ => []
    | Raises e => [EvParseDiagnostic (diagnostic_of e) e]
    end.
Proof.
  destruct (json_loads E response) as [v|e] eqn:H.
  - by rewrite (parse_Returns _ _ H).
  - by rewrite (parse_Raises _ _ H).
Qed.

End ParserFacts.

(** Case analysis of the membership of an event in an explicit trace. *)
Ltac trace_cases H :=
  repeat first
    [ apply elem_of_app in H as [H|H]
    | apply elem_of_cons in H as [H|H]
    | apply elem_of_nil in H as [] ];
  try discriminate H.

(** ** The runner *)


Section RunnerFacts.
Context (E : Env).
Context (tickers : list string) (start_date end_date : string)
  (portfolio : Portfolio) (show_reasoning : bool)
  (model_name model_provider : string).

#[local] Abbreviation state0 :=
  (initial_state tickers start_date end_date portfolio show_reasoning
     model_name model_provider).
#[local] Abbreviation run sel :=
  (run_hedge_fund E tickers start_date end_date portfolio show_reasoning sel
     model_name model_provider).

Lemma run_hedge_fund_unfold sel :
  run sel
  = (emit EvProgressStart;;
     try_finally
       (agent ← (workflow ← create_workflow_call E (selection sel);
                 workflow_compile E workflow);
        final_state ← agent_invoke E agent state0;
        last_message ← lift (last_item (messages final_state));
        decisions ← parse_hedge_fund_response E (content last_message);
        mret {| decisions := decisions;
                analyst_signals := data_analyst_signals (data final_state) |})
       (emit EvProgressStop)).
Proof. by destruct sel. Qed.

(** When its stages return, the runner returns: the decisions are what
    the parser makes of the last message, the signals are those of the
    final state. *)
Lemma run_hedge_fund_Returns sel workflow final_state msg :
  stages_return E sel state0 workflow final_state msg →
  run sel
  = ([EvProgressStart; EvCreateWorkflow (selection sel); EvCompile workflow;
      EvInvoke workflow state0]
       ++ trace (parse_hedge_fund_response E (content msg))
       ++ [EvProgressStop],
     Returns {| decisions := match json_loads E (content msg) with
                             | Returns v => v
                             | Raises _ => PyNone
                             end;
                analyst_signals := data_analyst_signals (data final_state) |}).
Proof.
  intros (Hwf & Hc & Hi & Hl). rewrite run_hedge_fund_unfold.
  rewrite (M_eta (_ ≫= _)).
  unfold create_workflow_call, workflow_compile, agent_invoke, last_item.
  f_equal.
  - repeat (effects_step || rewrite Hwf || rewrite Hc || rewrite Hi || rewrite Hl
            || rewrite parse_total).
    cbn [app]. by rewrite app_nil_r.
  - repeat (effects_step || rewrite Hwf || rewrite Hc || rewrite Hi || rewrite Hl
            || rewrite parse_total).
    done.
Qed.

(** Every execution the runner starts is given the initial state. *)
Lemma run_hedge_fund_invoke sel agent state :
  EvInvoke agent state ∈ trace (run sel) → state = state0.
Proof.
  rewrite run_hedge_fund_unfold.
  unfold create_workflow_call, workflow_compile, agent_invoke, last_item.
  effects.
  destruct (create_workflow _ _) as [wf|?]; effects;
    [destruct (compile E wf) as [[]|?]; effects;
     [destruct (invoke E wf state0) as [fs|?]; effects;
      [destruct (last (messages fs)) as [msg|]; effects;
       [rewrite parse_total, parse_trace; effects;
        destruct (json_loads E (content msg))|]|]|]|];
    intros H; trace_cases H; by injection H.
Qed.

End RunnerFacts.

(** ** The blocks of the GUI entry point *)

Section FacadeFacts.
Context (E : Env).

Lemma trace_resolve_selected_analysts sel :
  trace (resolve_selected_analysts E sel) = [].
Proof.
  unfold resolve_selected_analysts, try_except_of.
  destruct sel as [[|k l]|]; try done;
    effects; destruct (import_ANALYST_ORDER E) as [?|e]; effects; try done;
    destruct (is_instance e ImportError); by effects.
Qed.

(** A selection that is given and not empty is used as it is. *)
Lemma resolve_selected_analysts_given k l :
  resolve_selected_analysts E (Some (k :: l)) = mret (k :: l).
Proof. done. Qed.

(** An absent and an empty selection are resolved alike. *)
Lemma resolve_selected_analysts_empty :
  resolve_selected_analysts E (Some []) = resolve_selected_analysts E None.
Proof. done. Qed.

Lemma resolve_selected_analysts_default order :
  import_ANALYST_ORDER E = Returns order →
  resolve_selected_analysts E None = mret (order.*2).
Proof.
  intros H. unfold resolve_selected_analysts, try_except_of, lift. by rewrite H.
Qed.

Lemma trace_validate_dates sd ed : trace (validate_dates E sd ed) = [].
Proof.
  unfold validate_dates. effects.
  destruct (is_empty sd), (strptime E sd), (is_empty ed), (strptime E ed);
    by effects.
Qed.


Lemma result_validate_dates sd ed :
  result (validate_dates E sd ed)
  = if date_ok E sd then
      if date_ok E ed then Returns ()
      else raise ValueError "结束日期必须为YYYY-MM-DD格式"
    else raise ValueError "开始日期必须为YYYY-MM-DD格式".
Proof.
  unfold validate_dates, date_ok. effects.
  destruct (is_empty sd), (strptime E sd), (is_empty ed), (strptime E ed);
    by effects.
Qed.

Lemma trace_resolve_dates sd ed : trace (resolve_dates E sd ed) = [].
Proof.
  unfold resolve_dates, strptime_or_raise. effects.
  destruct (is_empty sd); effects; [|done].
  destruct (strptime E _); effects; [|done].
  destruct (sub_months E _ _); by effects.
Qed.

Lemma trace_prepare sd ed sel : trace (prepare E sd ed sel) = [].
Proof.
  unfold prepare. effects. rewrite trace_resolve_selected_analysts.
  destruct (result (resolve_selected_analysts E sel)); effects; [|done].
  rewrite trace_validate_dates.
  destruct (result (validate_dates E sd ed)); effects; [|done].
  rewrite trace_resolve_dates.
  by destruct (result (resolve_dates E sd ed)); effects.
Qed.

(** What [prepare] returns: the resolved selection and dates, after the
    date check. *)
Lemma result_prepare sd ed sel :
  result (prepare E sd ed sel)
  = match result (resolve_selected_analysts E sel) with
    | Returns l =>
        match result (validate_dates E sd ed) with
        | Returns _ =>
            match result (resolve_dates E sd ed) with
            | Returns dates => Returns (l, dates)
            | Raises e => Raises e
            end
        | Raises e => Raises e
        end
    | Raises e => Raises e
    end.
Proof.
  unfold prepare. effects.
  destruct (result (resolve_selected_analysts E sel)); effects; [|done].
  destruct (result (validate_dates E sd ed)); effects; [|done].
  by destruct (result (resolve_dates E sd ed)); effects.
Qed.

(** One attempt: its trace and its result. *)
Lemma trace_build sel :
  trace (build E sel)
  = EvCreateWorkflow (Some sel)
    :: match create_workflow (get_analyst_nodes E) (Some sel) with
       | Returns workflow => [EvCompile workflow]
       | Raises _ => []
       end.
Proof.
  unfold build, create_workflow_call, workflow_compile. effects.
  destruct (create_workflow _ _) as [wf|?]; effects; [|done].
  by destruct (compile E wf).
Qed.

Lemma result_build sel :
  result (build E sel)
  = (workflow ← create_workflow (get_analyst_nodes E) (Some sel);
     compile E workflow;; Returns workflow).
Proof.
  unfold build, create_workflow_call, workflow_compile. effects.
  destruct (create_workflow _ _) as [wf|?]; effects; [|done].
  cbn [mbind outcome_bind]. by destruct (compile E wf) as [[]|?]; effects.
Qed.

(** The graph of the run, without and with the fallback. *)
Lemma build_workflow_first sel app :
  result (build E sel) = Returns app →
  build_workflow E sel = (trace (build E sel), Returns (app, sel)).
Proof.
  intros H. rewrite (M_eta (build_workflow _ _)). unfold build_workflow.
  effects. rewrite H. effects. by rewrite !app_nil_r.
Qed.

Lemma build_workflow_fallback sel e :
  result (build E sel) = Raises e →
  build_workflow E sel
  = (trace (build E sel) ++ EvWorkflowFailed e :: trace (build E default_analysts),
     match result (build E default_analysts) with
     | Returns app => Returns (app, default_analysts)
     | Raises e' => Raises e'
     end).
Proof.
  intros H. rewrite (M_eta (build_workflow _ _)). unfold build_workflow.
  effects. rewrite H. effects.
  destruct (result (build E default_analysts)); effects;
    by rewrite !app_nil_r.
Qed.

Lemma build_workflow_invoke sel agent state :
  EvInvoke agent state ∉ trace (build_workflow E sel).
Proof.
  destruct (result (build E sel)) as [app|e] eqn:H.
  - rewrite (build_workflow_first _ _ H). cbn [trace fst]. rewrite trace_build.
    destruct (create_workflow _ _); intros Hin; trace_cases Hin.
  - rewrite (build_workflow_fallback _ _ H). cbn [trace fst]. rewrite !trace_build.
    destruct (create_workflow _ (Some sel)),
      (create_workflow _ (Some default_analysts));
      intros Hin; trace_cases Hin.
Qed.

Lemma save_agent_graph_invoke show app sel agent state :
  EvInvoke agent state ∉ trace (save_agent_graph E show app sel).
Proof.
  unfold save_agent_graph. destruct show; effects;
    [destruct (save_graph_as_png E _ _); effects|];
    intros Hin; trace_cases Hin.
Qed.

Section Analyse.
Context (tickers : list string) (start_date end_date : string)
  (initial_cash margin_requirement : float) (show_reasoning : bool)
  (model_name model_provider : string) (show_agent_graph : bool).

(** Every execution started by the GUI entry point is given the
    tickers, the initial portfolio and the resolved dates. *)
Lemma analyse_invoke sd ed sel agent state :
  EvInvoke agent state
    ∈ trace (analyse E tickers sd ed initial_cash margin_requirement
               show_reasoning sel model_name model_provider show_agent_graph) →
  state = initial_state tickers sd ed
            (initial_portfolio tickers initial_cash margin_requirement)
            show_reasoning model_name model_provider.
Proof.
  unfold analyse. rewrite elem_of_trace_bind.
  intros [H|([app sel'] & _ & H)]; [by apply build_workflow_invoke in H|].
  apply elem_of_trace_bind in H as [H|(_ & _ & H)];
    [by apply save_agent_graph_invoke in H|].
  apply elem_of_trace_bind in H as [H|(r & _ & H)];
    [by apply run_hedge_fund_invoke in H|].
  revert H. effects. destruct (print_trading_output E r); effects;
    intros H; trace_cases H.
Qed.

Lemma run_hedge_fund_gui_invoke sd ed sel agent state :
  EvInvoke agent state
    ∈ trace (run_hedge_fund_gui E tickers sd ed initial_cash margin_requirement
               show_reasoning sel model_name model_provider show_agent_graph) →
  ∃ sd' ed',
    result (resolve_dates E sd ed) = Returns (sd', ed')
    ∧ date_ok E sd = true ∧ date_ok E ed = true
    ∧ state = initial_state tickers sd' ed'
                (initial_portfolio tickers initial_cash margin_requirement)
                show_reasoning model_name model_provider.
Proof.
  unfold run_hedge_fund_gui. rewrite elem_of_trace_try_except.
  intros [H|(e & _ & H)].
  2:{ revert H. unfold error_envelope. effects. intros H. trace_cases H. }
  apply elem_of_trace_bind in H as [H|([l [sd' ed']] & Hp & H)].
  { rewrite trace_prepare in H. by apply elem_of_nil in H. }
  apply analyse_invoke in H. exists sd', ed'.
  rewrite result_prepare, result_validate_dates in Hp.
  destruct (result (resolve_selected_analysts E sel)); [|done].
  destruct (date_ok E sd); [|done]. destruct (date_ok E ed); [|done].
  destruct (result (resolve_dates E sd ed)) as [[? ?]|]; [|done].
  by injection Hp as -> -> ->.
Qed.

End Analyse.

End FacadeFacts.

(** ** The GUI entry point as a whole *)


Section EntryFacts.
Context (E : Env).
Context (tickers : list string) (start_date end_date : string)
  (initial_cash margin_requirement : float) (show_reasoning : bool)
  (selected_analysts : option (list string))
  (model_name model_provider : string) (show_agent_graph : bool).

#[local] Abbreviation gui :=
  (run_hedge_fund_gui E tickers start_date end_date initial_cash
     margin_requirement show_reasoning selected_analysts model_name
     model_provider show_agent_graph).
#[local] Abbreviation body sel sd ed :=
  (analyse E tickers sd ed initial_cash margin_requirement show_reasoning sel
     model_name model_provider show_agent_graph).

Lemma result_error_envelope e :
  result (error_envelope E e)
  = Returns (ErrorEnvelope (exn_str e) (format_exc E e)).
Proof. done. Qed.

(** The entry point returns: the analysis when its body returns, the
    error dictionary of the exception when its body raises. *)
Lemma run_hedge_fund_gui_total :
  (∃ r, result gui = Returns (Analysis r))
  ∨ (∃ e, result gui = Returns (ErrorEnvelope (exn_str e) (format_exc E e))).
Proof.
  unfold run_hedge_fund_gui. rewrite result_try_except.
  destruct (result (_ ≫= _)) as [[r|err tb]|e] eqn:H.
  - left. by exists r.
  - exfalso. revert H. effects.
    destruct (result (prepare _ _ _ _)) as [[sel [sd ed]]|]; [|done].
    unfold analyse. effects.
    destruct (result (build_workflow _ _)) as [[app sel']|]; effects; [|done].
    destruct (result (save_agent_graph _ _ _ _)); effects; [|done].
    destruct (result (run_hedge_fund _ _ _ _ _ _ _ _ _)) as [r|]; effects; [|done].
    by destruct (print_trading_output E r); effects.
  - right. by exists e.
Qed.

(** A failure before the graph is built: nothing else happens. *)
Lemma run_hedge_fund_gui_prepare_Raises e :
  result (prepare E start_date end_date selected_analysts) = Raises e →
  gui = ([EvRunFailed e],
         Returns (ErrorEnvelope (exn_str e) (format_exc E e))).
Proof.
  intros H. rewrite (M_eta gui). unfold run_hedge_fund_gui, error_envelope.
  effects. rewrite trace_prepare, H. by effects.
Qed.

(** A failure of the construction of the graph, fallback included. *)
Lemma run_hedge_fund_gui_build_Raises sel dates e :
  result (prepare E start_date end_date selected_analysts)
  = Returns (sel, dates) →
  result (build_workflow E sel) = Raises e →
  gui = (trace (build_workflow E sel) ++ [EvRunFailed e],
         Returns (ErrorEnvelope (exn_str e) (format_exc E e))).
Proof.
  intros Hp Hb. rewrite (M_eta gui).
  unfold run_hedge_fund_gui, error_envelope, analyse. destruct dates as [sd ed].
  effects. rewrite trace_prepare, Hp. effects. rewrite Hb. effects.
  by rewrite !app_nil_r.
Qed.


Lemma result_save_agent_graph app sel :
  result (save_agent_graph E show_agent_graph app sel) = Returns ().
Proof.
  unfold save_agent_graph. destruct show_agent_graph; effects; [|done].
  by destruct (save_graph_as_png E _ _) as [[]|]; effects.
Qed.

End EntryFacts.

(** ** Counting fallbacks *)

Lemma fallbacks_app t1 t2 : fallbacks (t1 ++ t2) = (fallbacks t1 + fallbacks t2)%nat.
Proof. unfold fallbacks. by rewrite List.filter_app, length_app. Qed.

Lemma fallbacks_none t :
  (∀ e, EvWorkflowFailed e ∉ t) → fallbacks t = 0%nat.
Proof.
  unfold fallbacks. induction t as [|ev t IH]; [done|]. intros H.
  cbn [List.filter]. destruct ev; cbn [is_fallback];
    try (apply IH; intros e' Hin; apply (H e'); by right).
  exfalso. apply (H e). by left.
Qed.

Section FallbackFacts.
Context (E : Env).

Lemma build_fallbacks sel : fallbacks (trace (build E sel)) = 0%nat.
Proof.
  rewrite trace_build. by destruct (create_workflow _ _).
Qed.

Lemma build_workflow_fallbacks sel :
  fallbacks (trace (build_workflow E sel))
  = match result (build E sel) with Returns _ => 0 | Raises _ => 1 end%nat.
Proof.
  destruct (result (build E sel)) as [app|e] eqn:H.
  - rewrite (build_workflow_first _ _ _ H). apply build_fallbacks.
  - rewrite (build_workflow_fallback _ _ _ H). cbn [trace fst].
    rewrite fallbacks_app, build_fallbacks.
    change (fallbacks (EvWorkflowFailed e :: ?t)) with (S (fallbacks t)).
    by rewrite build_fallbacks.
Qed.

Lemma run_hedge_fund_fallbacks tickers sd ed p sr sel mn mp :
  fallbacks (trace (run_hedge_fund E tickers sd ed p sr sel mn mp)) = 0%nat.
Proof.
  apply fallbacks_none. intros e. rewrite run_hedge_fund_unfold.
  unfold create_workflow_call, workflow_compile, agent_invoke, last_item.
  effects.
  destruct (create_workflow _ _) as [wf|?]; effects;
    [destruct (compile E wf) as [[]|?]; effects;
     [destruct (invoke E wf _) as [fs|?]; effects;
      [destruct (last (messages fs)) as [msg|]; effects;
       [rewrite parse_total, parse_trace; effects;
        destruct (json_loads E (content msg))|]|]|]|];
    intros H; trace_cases H.
Qed.

Lemma save_agent_graph_fallbacks show app sel :
  fallbacks (trace (save_agent_graph E show app sel)) = 0%nat.
Proof.
  unfold save_agent_graph. destruct show; effects; [|done].
  by destruct (save_graph_as_png E _ _).
Qed.

Lemma analyse_fallbacks tickers sd ed cash margin sr sel mn mp sg :
  fallbacks (trace (analyse E tickers sd ed cash margin sr sel mn mp sg))
  = match result (build E sel) with Returns _ => 0 | Raises _ => 1 end%nat.
Proof.
  unfold analyse. effects. rewrite fallbacks_app, build_workflow_fallbacks.
  destruct (result (build_workflow E sel)) as [[app sel']|]; effects;
    [|by rewrite Nat.add_0_r].
  rewrite fallbacks_app, save_agent_graph_fallbacks.
  destruct (result (save_agent_graph _ _ _ _)); effects; [|by rewrite Nat.add_0_r].
  rewrite fallbacks_app, run_hedge_fund_fallbacks.
  destruct (result (run_hedge_fund _ _ _ _ _ _ _ _ _)) as [r|]; effects;
    [|by rewrite Nat.add_0_r].
  destruct (print_trading_output E r); effects; by rewrite Nat.add_0_r.
Qed.

Lemma run_hedge_fund_gui_fallbacks tickers sd ed cash margin sr sel mn mp sg :
  (fallbacks (trace (run_hedge_fund_gui E tickers sd ed cash margin sr sel mn
                       mp sg)) ≤ 1)%nat.
Proof.
  unfold run_hedge_fund_gui, error_envelope. effects. rewrite trace_prepare.
  rewrite fallbacks_app. cbn [app].
  destruct (result (prepare _ _ _ _)) as [[l [sd' ed']]|]; effects.
  2:{ cbn. lia. }
  rewrite analyse_fallbacks.
  assert (Hh : ∀ A (o : outcome A) e,
    fallbacks match o with Returns _ => [] | Raises e => [EvRunFailed e] ++ [] end
    = 0%nat) by (by intros ? [] ?).
  destruct (result (analyse _ _ _ _ _ _ _ _ _ _ _)); cbn [app fallbacks];
    destruct (result (build E l)); cbn; lia.
Qed.

End FallbackFacts.

(** ** Portfolio construction (claims C3 and C7) *)

Lemma foldl_insert_lookup {V} (v : V) (keys : list string) :
  ∀ (d : gmap string V) k,
    foldl (λ d k, <[k := v]> d) d keys !! k
    = if decide (k ∈ keys) then Some v else d !! k.
Proof.
  induction keys as [|k0 keys IH]; intros d k; cbn [foldl].
  - rewrite decide_False; [done|apply not_elem_of_nil].
  - rewrite IH. destruct (decide (k ∈ keys)) as [Hin|Hin].
    + rewrite decide_True; [done|by right].
    + destruct (decide (k = k0)) as [->|Hne].
      * rewrite lookup_insert_eq, decide_True; [done|by left].
      * rewrite lookup_insert_ne by done. rewrite decide_False; [done|].
        by intros [?|?]%elem_of_cons.
Qed.

Lemma dict_comprehension_lookup {V} (v : V) keys k :
  dict_comprehension v keys !! k = if decide (k ∈ keys) then Some v else None.
Proof. unfold dict_comprehension. by rewrite foldl_insert_lookup, lookup_empty. Qed.

Lemma dict_comprehension_dom {V} (v : V) keys :
  dom (dict_comprehension v keys) = list_to_set keys.
Proof.
  apply set_eq. intros k.
  rewrite elem_of_dom, dict_comprehension_lookup, elem_of_list_to_set.
  by destruct (decide (k ∈ keys)); split.
Qed.

(** C7: the portfolio built from the tickers, the initial cash and the
    margin requirement holds that cash, no margin used, and for exactly
    the requested tickers a position and realized gains that are all
    zero; every execution the entry point starts is given this portfolio
    and these tickers, unchanged.  For AAPL and MSFT with 100000 and 0.0
    this is cash 100000, margin used 0, and the two tickers. *)
Theorem portfolio_construction (tickers : list string)
    (initial_cash margin_requirement : float) :
  let p := initial_portfolio tickers initial_cash margin_requirement in
  cash p = initial_cash
  ∧ Portfolio.margin_requirement p = margin_requirement
  ∧ margin_used p = 0%float
  ∧ dom (positions p) = list_to_set tickers
  ∧ dom (realized_gains p) = list_to_set tickers
  ∧ (∀ t, t ∈ tickers →
       positions p !! t = Some (mk_position 0 0 0 0 0)
       ∧ realized_gains p !! t = Some (mk_gains 0 0))
  ∧ (∀ t, t ∉ tickers →
       positions p !! t = None ∧ realized_gains p !! t = None)
  ∧ (∀ E sd ed sr sel mn mp sg agent state,
       EvInvoke agent state
         ∈ trace (run_hedge_fund_gui E tickers sd ed initial_cash
                    margin_requirement sr sel mn mp sg) →
       data_portfolio (data state) = p ∧ data_tickers (data state) = tickers)
  ∧ (let q := initial_portfolio ["AAPL"; "MSFT"] 100000 0 in
     cash q = 100000%float ∧ margin_used q = 0%float
     ∧ map_to_list (positions q)
       = [("MSFT", mk_position 0 0 0 0 0); ("AAPL", mk_position 0 0 0 0 0)]
     ∧ map_to_list (realized_gains q)
       = [("MSFT", mk_gains 0 0); ("AAPL", mk_gains 0 0)]).
Proof.
  cbv zeta. cbn [initial_portfolio cash Portfolio.margin_requirement margin_used
                 positions realized_gains].
  rewrite !dict_comprehension_dom.
  do 5 (split; [done|]).
  split; [intros t Ht; rewrite !dict_comprehension_lookup; by rewrite !decide_True|].
  split; [intros t Ht; rewrite !dict_comprehension_lookup; by rewrite !decide_False|].
  split; [|by vm_compute].
  intros E sd ed sr sel mn mp sg agent state H.
  by apply run_hedge_fund_gui_invoke in H as (sd' & ed' & _ & _ & _ & ->).
Qed.

(** ** The claims on the parser and on the entry points *)



(** C10: the parser checks nothing beyond the decoding.  Whatever value
    the decoder returns on the text, the parser returns that value and
    the runner returns it as the decisions; so the decisions of a run
    that succeeds need not be a dictionary from tickers to decisions: on
    the text of a JSON list they are that list. *)
Theorem parser_checks_no_schema :
  (∀ E s v, json_decode E s = Returns v →
     parse_hedge_fund_response E (PyStr s) = ([], Returns v))
  ∧ (∀ E tickers sd ed portfolio sr sel mn mp workflow final_state msg s v,
       stages_return E sel (initial_state tickers sd ed portfolio sr mn mp)
         workflow final_state msg →
       content msg = PyStr s →
       json_decode E s = Returns v →
       result (run_hedge_fund E tickers sd ed portfolio sr sel mn mp)
       = Returns {| decisions := v;
                    analyst_signals := data_analyst_signals (data final_state) |})
  ∧ result (run_hedge_fund (Data.env_with (PyStr Data.a_list))
              ["AAPL"] "2024-01-01" "2024-05-31"
              (initial_portfolio ["AAPL"] 100000 0) false ["warren_buffett"]
              "gpt-4o" "OpenAI")
    = Returns {| decisions := PyList [PyInt 1; PyStr "sell"; PyNone];
                 analyst_signals := Data.signals |}.
Proof.
  split; [|split].
  - intros E s v H. by apply parse_Returns.
  - intros * Hst Hc Hj.
    rewrite (run_hedge_fund_Returns _ _ _ _ _ _ _ _ _ _ _ _ Hst).
    cbn [result snd]. by rewrite Hc; cbn [json_loads]; rewrite Hj.
  - by vm_compute.
Qed.

Lemma parser_checks_no_schema_witness :
  let E := Data.env_with (PyStr Data.other_keys) in
  parse_hedge_fund_response E (PyStr "7") = ([], Returns (PyInt 7))
  ∧ parse_hedge_fund_response E (PyStr Data.a_string) = ([], Returns (PyStr "hold"))
  ∧ result (run_hedge_fund E ["AAPL"] "2024-01-01" "2024-05-31"
              (initial_portfolio ["AAPL"] 100000 0) false ["warren_buffett"]
              "gpt-4o" "OpenAI")
    = Returns {| decisions := PyDict [("TSLA", PyInt (-5))];
                 analyst_signals := Data.signals |}.
Proof.
  cbv zeta. pose (E := Data.env_with (PyStr Data.other_keys)).
  destruct parser_checks_no_schema as (Hparse & Hrun & _).
  split; [apply (Hparse E); by vm_compute|].
  split; [apply (Hparse E); by vm_compute|].
  pose (state := initial_state ["AAPL"] "2024-01-01" "2024-05-31"
                   (initial_portfolio ["AAPL"] 100000 0) false "gpt-4o" "OpenAI").
  refine (Hrun E ["AAPL"] "2024-01-01" "2024-05-31"
    (initial_portfolio ["AAPL"] 100000 0) false ["warren_buffett"] "gpt-4o"
    "OpenAI" (plan_of (entry Sample.analyst_nodes <$> ["warren_buffett"]))
    (Sample.final_state (PyStr Data.other_keys) Data.signals state)
    (HumanMessage (PyStr Data.other_keys)) Data.other_keys
    (PyDict [("TSLA", PyInt (-5))]) _ _ _).
  - repeat split; by vm_compute.
  - done.
  - by vm_compute.
Defined.

(** C2: when the first construction of the graph fails, which an
    unknown analyst key makes it do, the entry point reports it and
    builds once more, from the three default analysts; when that fails
    too the run ends with the error dictionary of the second failure,
    before any stage runs; no run holds more than one fallback. *)
Theorem one_fallback (E : Env) (sel : list string) :
  default_analysts = ["warren_buffett"; "peter_lynch"; "technical_analyst"]
  ∧ (∀ k, k ∈ sel → get_analyst_nodes E !! k = None →
       ∃ e, result (build E sel) = Raises e)
  ∧ (∀ app, result (build E sel) = Returns app →
       build_workflow E sel = (trace (build E sel), Returns (app, sel)))
  ∧ (∀ e, result (build E sel) = Raises e →
       build_workflow E sel
       = (trace (build E sel)
            ++ EvWorkflowFailed e :: trace (build E default_analysts),
          match result (build E default_analysts) with
          | Returns app => Returns (app, default_analysts)
          | Raises e' => Raises e'
          end))
  ∧ (∀ tickers sd ed cash margin sr sel0 mn mp sg dates e e',
       result (prepare E sd ed sel0) = Returns (sel, dates) →
       result (build E sel) = Raises e →
       result (build E default_analysts) = Raises e' →
       run_hedge_fund_gui E tickers sd ed cash margin sr sel0 mn mp sg
       = (trace (build E sel)
            ++ EvWorkflowFailed e :: trace (build E default_analysts)
            ++ [EvRunFailed e'],
          Returns (ErrorEnvelope (exn_str e') (format_exc E e'))))
  ∧ (∀ tickers sd ed cash margin sr sel0 mn mp sg,
       (fallbacks (trace (run_hedge_fund_gui E tickers sd ed cash margin sr
                            sel0 mn mp sg)) ≤ 1)%nat).
Proof.
  split; [done|]. split; [|split; [|split; [|split]]].
  - intros k Hk Hnone. rewrite result_build.
    destruct (create_workflow _ _) as [g|e] eqn:Hg; [|by exists e].
    apply create_workflow_Returns in Hg as (Hreg & _).
    rewrite Forall_forall in Hreg. destruct (Hreg _ Hk) as [? Hsome].
    by rewrite Hnone in Hsome.
  - apply build_workflow_first.
  - apply build_workflow_fallback.
  - intros * Hp He He'.
    rewrite (run_hedge_fund_gui_build_Raises _ _ _ _ _ _ _ _ _ _ _ sel dates e' Hp).
    + rewrite (build_workflow_fallback _ _ _ He). cbn [trace fst].
      by rewrite <- app_assoc.
    + by rewrite (build_workflow_fallback _ _ _ He), He'.
  - intros. apply run_hedge_fund_gui_fallbacks.
Qed.

Lemma one_fallback_witness :
  let E := Data.env_with (PyStr Data.well_formed) in
  (∃ e, result (build E ["ray_dalio"; "warren_buffett"]) = Raises e)
  ∧ fallbacks (trace (run_hedge_fund_gui E ["AAPL"] "2024-01-01" "2024-05-31"
                        100000 0 false (Some ["ray_dalio"; "warren_buffett"])
                        "gpt-4o" "OpenAI" false)) = 1%nat
  ∧ result (run_hedge_fund_gui (Data.without_analysts E) ["AAPL"]
              "2024-01-01" "2024-05-31" 100000 0 false
              (Some ["ray_dalio"; "warren_buffett"]) "gpt-4o" "OpenAI" false)
    = Returns (ErrorEnvelope "'warren_buffett'"
                 "Traceback (most recent call last): 'warren_buffett'").
Proof.
  cbv zeta. pose (E := Data.env_with (PyStr Data.well_formed)).
  split; [|split].
  - apply (proj1 (proj2 (one_fallback E ["ray_dalio"; "warren_buffett"]))
             "ray_dalio"); [by left|by vm_compute].
  - by vm_compute.
  - pose proof (proj1 (proj2 (proj2 (proj2 (proj2
      (one_fallback (Data.without_analysts E) ["ray_dalio"; "warren_buffett"])))))
      ["AAPL"] "2024-01-01" "2024-05-31" 100000%float 0%float false
      (Some ["ray_dalio"; "warren_buffett"]) "gpt-4o" "OpenAI" false
      ("2024-01-01", "2024-05-31")
      (mk_exn KeyError "'ray_dalio'") (mk_exn KeyError "'warren_buffett'")) as H.
    refine (f_equal result (H _ _ _)); by vm_compute.
Defined.

(** The launcher passes a key, [language], that names no parameter of
    [run_hedge_fund_gui]: such a call ends in the error dictionary of the
    [TypeError] before the entry point is entered. *)
Lemma run_from_gui_unexpected_keyword (E : Env) (args_dict : kwargs) k l :
  kw_others args_dict = k :: l →
  ∃ e, exn_cls e = TypeError
       ∧ run_from_gui E args_dict
         = ([], Returns (ErrorEnvelope (exn_str e) (format_exc E e))).
Proof.
  intros H. unfold run_from_gui, call_run_hedge_fund_gui. rewrite H.
  by eexists (mk_exn TypeError _).
Qed.

(** ** When the stages are reached *)

Section Reach.
Context (E : Env).

(** The runner starts the execution exactly when its graph is built and
    compiled. *)
Lemma run_hedge_fund_reaches tickers sd ed p sr sel mn mp :
  (∃ agent state,
     EvInvoke agent state ∈ trace (run_hedge_fund E tickers sd ed p sr sel mn mp))
  ↔ ∃ wf, create_workflow (get_analyst_nodes E) (selection sel) = Returns wf
          ∧ compile E wf = Returns ().
Proof.
  rewrite run_hedge_fund_unfold.
  unfold create_workflow_call, workflow_compile, agent_invoke, last_item.
  effects. split.
  - intros (agent & state & H).
    destruct (create_workflow _ _) as [wf|?]; effects;
      [|revert H; effects; intros H; trace_cases H].
    revert H; effects. exists wf. split; [done|].
    destruct (compile E wf) as [[]|?]; [done|].
    revert H; effects. intros H; trace_cases H.
  - intros (wf & -> & Hc). effects. rewrite Hc. effects.
    exists wf, (initial_state tickers sd ed p sr mn mp).
    rewrite !elem_of_app, !elem_of_cons. tauto.
Qed.

(** The GUI entry point reaches the stages exactly when the preparation
    returns and the graph is built, by it and again by the runner:
    neither the cash nor the margin requirement has a part in it. *)
Lemma run_hedge_fund_gui_reaches tickers sd ed cash margin sr sel0 mn mp sg :
  (∃ agent state,
     EvInvoke agent state
       ∈ trace (run_hedge_fund_gui E tickers sd ed cash margin sr sel0 mn mp sg))
  ↔ ∃ sel dates app sel' wf,
      result (prepare E sd ed sel0) = Returns (sel, dates)
      ∧ result (build_workflow E sel) = Returns (app, sel')
      ∧ create_workflow (get_analyst_nodes E) (selection sel') = Returns wf
      ∧ compile E wf = Returns ().
Proof.
  split.
  - intros (agent & state & H). unfold run_hedge_fund_gui in H.
    apply elem_of_trace_try_except in H as [H|(e & _ & H)].
    2:{ revert H. unfold error_envelope. effects. intros H. trace_cases H. }
    apply elem_of_trace_bind in H as [H|([sel [sd' ed']] & Hp & H)].
    { rewrite trace_prepare in H. by apply elem_of_nil in H. }
    unfold analyse in H.
    apply elem_of_trace_bind in H as [H|([app sel'] & Hb & H)];
      [by apply build_workflow_invoke in H|].
    apply elem_of_trace_bind in H as [H|(_ & _ & H)];
      [by apply save_agent_graph_invoke in H|].
    apply elem_of_trace_bind in H as [H|(r & _ & H)].
    + assert (Hr : ∃ agent state, EvInvoke agent state
        ∈ trace (run_hedge_fund E tickers sd' ed'
                   (initial_portfolio tickers cash margin) sr sel' mn mp))
        by eauto.
      apply run_hedge_fund_reaches in Hr as (wf & ? & ?).
      by exists sel, (sd', ed'), app, sel', wf.
    + revert H. effects. destruct (print_trading_output E r); effects;
        intros H; trace_cases H.
  - intros (sel & [sd' ed'] & app & sel' & wf & Hp & Hb & Hwf & Hc).
    assert (Hr : ∃ agent state, EvInvoke agent state
      ∈ trace (run_hedge_fund E tickers sd' ed'
                 (initial_portfolio tickers cash margin) sr sel' mn mp)).
    { apply run_hedge_fund_reaches. by exists wf. }
    destruct Hr as (agent & state & Hr). exists agent, state.
    unfold run_hedge_fund_gui. apply elem_of_trace_try_except. left.
    apply elem_of_trace_bind. right. exists (sel, (sd', ed')). split; [done|].
    unfold analyse.
    apply elem_of_trace_bind. right. exists (app, sel'). split; [done|].
    apply elem_of_trace_bind. right. exists ().
    split; [apply result_save_agent_graph|].
    apply elem_of_trace_bind. by left.
Qed.

End Reach.

(** C3, the claim as stated fails: with an initial cash of 0 and a margin
    requirement of 1.5 the run completes and returns its analysis. *)
Lemma zero_cash_run_completes :
  result (run_hedge_fund_gui (Data.env_with (PyStr Data.well_formed))
            ["AAPL"] "2024-01-01" "2024-05-31" 0 1.5 false
            (Some ["warren_buffett"]) "gpt-4o" "OpenAI" false)
  = Returns (Analysis
      {| decisions :=
           PyDict [("AAPL", PyDict [("action", PyStr "buy");
                                    ("quantity", PyInt 10);
                                    ("confidence", PyFloat 85.5);
                                    ("reasoning", PyStr "moat")])];
         analyst_signals := Data.signals |})
  ∧ cash (initial_portfolio ["AAPL"] 0 1.5) = 0%float
  ∧ margin_requirement (initial_portfolio ["AAPL"] 0 1.5) = 1.5%float.
Proof. split; [by vm_compute|done]. Qed.

(** C3, as amended: the construction of the portfolio checks nothing and
    cannot fail: whatever the initial cash and the margin requirement, the
    portfolio holds them as given, and the entry point and the runner
    reach the stages for one portfolio exactly when they do for any
    other.  The launcher's form, which the engine does not call, has
    bounds: [validate_inputs] accepts a form exactly when its ticker field
    is not blank, an analyst is selected, its cash is a float that is not
    [<= 0], its margin requirement a float that is neither [< 0] nor
    [> 1], and its dates are blank or accepted by [strptime]; the float
    [nan], of which no comparison holds, passes both tests. *)
Theorem portfolio_is_not_validated :
  (∀ tickers initial_cash margin,
     cash (initial_portfolio tickers initial_cash margin) = initial_cash
     ∧ margin_requirement (initial_portfolio tickers initial_cash margin)
       = margin)
  ∧ (∀ E tickers sd ed cash1 margin1 cash2 margin2 sr sel mn mp sg,
       (∃ agent state, EvInvoke agent state
          ∈ trace (run_hedge_fund_gui E tickers sd ed cash1 margin1 sr sel mn
                     mp sg)) →
       ∃ agent state, EvInvoke agent state
          ∈ trace (run_hedge_fund_gui E tickers sd ed cash2 margin2 sr sel mn
                     mp sg)
         ∧ data_portfolio (data state) = initial_portfolio tickers cash2 margin2)
  ∧ (∀ E tickers sd ed portfolio1 portfolio2 sr sel mn mp,
       (∃ agent state, EvInvoke agent state
          ∈ trace (run_hedge_fund E tickers sd ed portfolio1 sr sel mn mp)) →
       ∃ agent state, EvInvoke agent state
          ∈ trace (run_hedge_fund E tickers sd ed portfolio2 sr sel mn mp)
         ∧ data_portfolio (data state) = portfolio2)
  ∧ (∀ E form,
       validate_inputs E form = Valid
       ↔ is_empty (str_strip E (ticker_var form)) = false
         ∧ (∃ key, (key, true) ∈ analyst_vars form)
         ∧ (∃ c m, float_of_str E (initial_cash_var form) = Some c
                 ∧ float_of_str E (margin_requirement_var form) = Some m
                 ∧ (c <=? 0)%float = false
                 ∧ (m <? 0)%float = false ∧ (1 <? m)%float = false)
         ∧ date_ok E (str_strip E (start_date_var form)) = true
         ∧ date_ok E (str_strip E (end_date_var form)) = true)
  ∧ (∀ E form key,
       is_empty (str_strip E (ticker_var form)) = false →
       (key, true) ∈ analyst_vars form →
       float_of_str E (initial_cash_var form) = Some nan →
       float_of_str E (margin_requirement_var form) = Some nan →
       date_ok E (str_strip E (start_date_var form)) = true →
       date_ok E (str_strip E (end_date_var form)) = true →
       validate_inputs E form = Valid).
Proof.
  assert (Hiff : ∀ E form,
    validate_inputs E form = Valid
    ↔ is_empty (str_strip E (ticker_var form)) = false
      ∧ (∃ key, (key, true) ∈ analyst_vars form)
      ∧ (∃ c m, float_of_str E (initial_cash_var form) = Some c
              ∧ float_of_str E (margin_requirement_var form) = Some m
              ∧ (c <=? 0)%float = false
              ∧ (m <? 0)%float = false ∧ (1 <? m)%float = false)
      ∧ date_ok E (str_strip E (start_date_var form)) = true
      ∧ date_ok E (str_strip E (end_date_var form)) = true).
  { intros E form. unfold validate_inputs, check_date, date_ok.
    destruct (is_empty (str_strip E (ticker_var form)));
      [split; [done|by intros [? _]]|].
    assert (Hsel : (∃ key, (key, true) ∈ analyst_vars form)
                   ↔ (filter (λ kv, kv.2 = true) (analyst_vars form)).*1 ≠ []).
    { split.
      - intros [key Hin] Hnil.
        assert (Hk : key ∈ (filter (λ kv : string * bool, kv.2 = true)
                              (analyst_vars form)).*1).
        { apply list_elem_of_fmap. exists (key, true). split; [done|].
          by apply list_elem_of_filter. }
        rewrite Hnil in Hk. by apply elem_of_nil in Hk.
      - destruct (filter _ _) as [|[key b] l] eqn:Hf; [done|]. intros _.
        assert (Hin : (key, b) ∈ filter (λ kv : string * bool, kv.2 = true)
                                   (analyst_vars form))
          by (rewrite Hf; by left).
        apply list_elem_of_filter in Hin as [Hb Hin]. cbn in Hb. subst b.
        by exists key. }
    rewrite Hsel.
    destruct ((filter _ _).*1) as [|k l];
      [split; [done|by intros (_ & ? & _)]|].
    destruct (float_of_str E (initial_cash_var form)) as [c|].
    2:{ split; [done|]. by intros (_ & _ & (? & ? & ? & _) & _). }
    destruct (c <=? 0)%float eqn:Hc.
    { split; [done|].
      intros (_ & _ & (? & ? & [= <-] & _ & ? & _) & _). congruence. }
    destruct (float_of_str E (margin_requirement_var form)) as [m|].
    2:{ split; [done|]. by intros (_ & _ & (? & ? & _ & ? & _) & _). }
    destruct (m <? 0)%float eqn:Hm0; cbn [orb].
    { split; [done|].
      intros (_ & _ & (? & ? & _ & [= <-] & _ & ? & _) & _). congruence. }
    destruct (1 <? m)%float eqn:Hm1.
    { split; [done|].
      intros (_ & _ & (? & ? & _ & [= <-] & _ & _ & ?) & _). congruence. }
    assert (Hd : ∀ s, is_empty s || bool_decide (is_Some (strptime E s)) = true
                      ↔ (is_empty s = true ∨ is_Some (strptime E s))).
    { intros s. rewrite orb_true_iff, bool_decide_eq_true. done. }
    rewrite !Hd.
    destruct (is_empty (str_strip E (start_date_var form))).
    - destruct (is_empty (str_strip E (end_date_var form))).
      + split; [|done]. intros _. repeat split; try done; eauto 10.
      + destruct (strptime E (str_strip E (end_date_var form))) as [d|].
        * split; [|done]. intros _. repeat split; try done; eauto 10.
        * split; [done|]. intros (_ & _ & _ & _ & [?|[? ?]]); done.
    - destruct (strptime E (str_strip E (start_date_var form))) as [d|].
      2:{ split; [done|]. intros (_ & _ & _ & [?|[? ?]] & _); done. }
      destruct (is_empty (str_strip E (end_date_var form))).
      + split; [|done]. intros _. repeat split; try done; eauto 10.
      + destruct (strptime E (str_strip E (end_date_var form))) as [d'|].
        * split; [|done]. intros _. repeat split; try done; eauto 10.
        * split; [done|]. intros (_ & _ & _ & _ & [?|[? ?]]); done. }
  split; [done|]. split; [|split; [|split; [done|]]].
  - intros * H. apply run_hedge_fund_gui_reaches in H.
    apply (proj2 (run_hedge_fund_gui_reaches E tickers sd ed cash2 margin2
                    sr sel mn mp sg)) in H as (agent & state & H).
    exists agent, state. split; [done|].
    by apply run_hedge_fund_gui_invoke in H as (? & ? & _ & _ & _ & ->).
  - intros * H. apply run_hedge_fund_reaches in H.
    apply (proj2 (run_hedge_fund_reaches E tickers sd ed portfolio2 sr sel mn
                    mp)) in H as (agent & state & H).
    exists agent, state. split; [done|].
    by apply run_hedge_fund_invoke in H as ->.
  - intros E form key Ht Hk Hc Hm Hs He. apply Hiff.
    repeat split; try done; [by exists key|].
    exists nan, nan. repeat split; done.
Qed.

Lemma portfolio_is_not_validated_witness :
  let E := Data.env_with (PyStr Data.well_formed) in
  validate_inputs E
    (mk_form "AAPL" [("warren_buffett", true)] "nan" "NaN" "" "")
  = Valid
  ∧ validate_inputs E
      (mk_form "AAPL" [("warren_buffett", true)] "100000.0" "0.5" "" "")
    = Valid
  ∧ validate_inputs E
      (mk_form "AAPL" [("warren_buffett", true)] "0" "0.5" "" "")
    = Rejected "Initial cash must be greater than 0."
  ∧ validate_inputs E
      (mk_form "AAPL" [("warren_buffett", true)] "100000.0" "1.5" "" "")
    = Rejected "Margin requirement must be between 0 and 1."
  ∧ (∃ agent state,
       EvInvoke agent state
         ∈ trace (run_hedge_fund_gui E ["AAPL"] "2024-01-01" "2024-05-31" 0
                    1.5 false (Some ["warren_buffett"]) "gpt-4o" "OpenAI"
                    false)
       ∧ data_portfolio (data state) = initial_portfolio ["AAPL"] 0 1.5)
  ∧ ∃ agent state,
      EvInvoke agent state
        ∈ trace (run_hedge_fund E ["AAPL"] "2024-01-01" "2024-05-31"
                   (initial_portfolio ["AAPL"] 0 1.5) false
                   ["warren_buffett"] "gpt-4o" "OpenAI")
      ∧ data_portfolio (data state) = initial_portfolio ["AAPL"] 0 1.5.
Proof.
  cbv zeta.
  destruct portfolio_is_not_validated as (_ & Hgui & Hrun & _ & Hnan).
  split.
  { apply (Hnan (Data.env_with (PyStr Data.well_formed))
             (mk_form "AAPL" [("warren_buffett", true)] "nan" "NaN" "" "")
             "warren_buffett"); try (vm_compute; reflexivity).
    by left. }
  split; [vm_compute; reflexivity|]. split; [vm_compute; reflexivity|].
  split; [vm_compute; reflexivity|]. split.
  - apply (Hgui (Data.env_with (PyStr Data.well_formed)) ["AAPL"] "2024-01-01"
             "2024-05-31" 100000%float 0%float).
    apply run_hedge_fund_gui_reaches.
    exists ["warren_buffett"], ("2024-01-01", "2024-05-31"),
      (plan_of (entry Sample.analyst_nodes <$> ["warren_buffett"])),
      ["warren_buffett"],
      (plan_of (entry Sample.analyst_nodes <$> ["warren_buffett"])).
    repeat split; by vm_compute.
  - apply (Hrun (Data.env_with (PyStr Data.well_formed)) ["AAPL"] "2024-01-01"
             "2024-05-31" (initial_portfolio ["AAPL"] 100000 0)).
    apply run_hedge_fund_reaches.
    exists (plan_of (entry Sample.analyst_nodes <$> ["warren_buffett"])).
    split; by vm_compute.
Defined.

(** ** The dates (claim C8) *)

Section DateFacts.
Context (E : Env).

Lemma date_ok_false s :
  date_ok E s = false ↔ is_empty s = false ∧ strptime E s = None.
Proof.
  unfold date_ok. destruct (is_empty s); cbn [orb].
  - split; [done|by intros [? _]].
  - rewrite bool_decide_eq_false. destruct (strptime E s) as [d|].
    + split; [intros H; destruct H; by exists d|by intros [_ ?]].
    + split; [done|]. by intros _ [? ?].
Qed.

(** A date that is given and refused by [strptime] stops the
    preparation. *)
Lemma prepare_rejects sd ed sel0 :
  date_ok E sd = false ∨ date_ok E ed = false →
  ∃ e, result (prepare E sd ed sel0) = Raises e
       ∧ ∀ l, result (resolve_selected_analysts E sel0) = Returns l →
              exn_cls e = ValueError
              ∧ (exn_str e = "开始日期必须为YYYY-MM-DD格式"
                 ∨ exn_str e = "结束日期必须为YYYY-MM-DD格式").
Proof.
  intros H. rewrite result_prepare, result_validate_dates.
  destruct (result (resolve_selected_analysts E sel0)) as [l|e].
  2:{ exists e. split; [done|]. by intros l [=]. }
  destruct (date_ok E sd).
  - destruct (date_ok E ed); [by destruct H|].
    eexists (mk_exn ValueError _). split; [done|]. intros _ _. split; [done|by right].
  - eexists (mk_exn ValueError _). split; [done|]. intros _ _. split; [done|by left].
Qed.

End DateFacts.

(** C8, the claim as stated fails: the start date [2024-1-5] is not in
    the form [YYYY-MM-DD], and the run is not refused: the stages run, on
    this date as it was typed, and the analysis is returned. *)
Lemma short_date_reaches_the_stages :
  yyyy_mm_dd "2024-1-5" = false
  ∧ yyyy_mm_dd "2024-01-05" = true
  ∧ EvInvoke (plan_of (entry Sample.analyst_nodes <$> ["warren_buffett"]))
      (initial_state ["AAPL"] "2024-1-5" "2024-05-31"
         (initial_portfolio ["AAPL"] 100000 0) false "gpt-4o" "OpenAI")
    ∈ trace (run_hedge_fund_gui (Data.env_with (PyStr Data.well_formed))
               ["AAPL"] "2024-1-5" "2024-05-31" 100000 0 false
               (Some ["warren_buffett"]) "gpt-4o" "OpenAI" false)
  ∧ ∃ r, result (run_hedge_fund_gui (Data.env_with (PyStr Data.well_formed))
                   ["AAPL"] "2024-1-5" "2024-05-31" 100000 0 false
                   (Some ["warren_buffett"]) "gpt-4o" "OpenAI" false)
         = Returns (Analysis r).
Proof.
  split; [by vm_compute|]. split; [by vm_compute|]. split.
  - apply (list_elem_of_lookup_2 _ 5%nat). vm_compute. reflexivity.
  - eexists {| decisions := _; analyst_signals := Data.signals |}.
    vm_compute. reflexivity.
Qed.

(** C8, as amended: the end date that is not given is today's date; the
    start date that is not given is the date three months before the end
    date; the dates that are given are kept as they are typed.  The
    stages only run on dates that passed the check of [strptime] and
    receive the dates so resolved; a date that is given and that
    [strptime] refuses ends the run with the error dictionary before
    anything else happens. *)
Theorem dates_are_resolved (E : Env) (sd ed : string) :
  let end_date := if is_empty ed then strftime E (now E) else ed in
  (is_empty sd = false →
     result (resolve_dates E sd ed) = Returns (sd, end_date))
  ∧ (is_empty sd = true → ∀ d d',
       strptime E end_date = Some d → sub_months E d 3 = Returns d' →
       result (resolve_dates E sd ed) = Returns (strftime E d', end_date))
  ∧ (∀ tickers cash margin sr sel0 mn mp sg agent state,
       EvInvoke agent state
         ∈ trace (run_hedge_fund_gui E tickers sd ed cash margin sr sel0 mn mp
                    sg) →
       date_ok E sd = true ∧ date_ok E ed = true
       ∧ result (resolve_dates E sd ed)
         = Returns (data_start_date (data state), data_end_date (data state)))
  ∧ (∀ tickers cash margin sr sel0 mn mp sg,
       (is_empty sd = false ∧ strptime E sd = None)
       ∨ (is_empty ed = false ∧ strptime E ed = None) →
       ∃ e,
         run_hedge_fund_gui E tickers sd ed cash margin sr sel0 mn mp sg
         = ([EvRunFailed e],
            Returns (ErrorEnvelope (exn_str e) (format_exc E e)))
         ∧ ∀ l, result (resolve_selected_analysts E sel0) = Returns l →
                exn_cls e = ValueError
                ∧ (exn_str e = "开始日期必须为YYYY-MM-DD格式"
                   ∨ exn_str e = "结束日期必须为YYYY-MM-DD格式")).
Proof.
  cbv zeta. split; [|split; [|split]].
  - intros Hs. unfold resolve_dates. effects. rewrite Hs. by effects.
  - intros Hs d d' Hd Hd'. unfold resolve_dates, strptime_or_raise. effects.
    rewrite Hs. effects. rewrite Hd. effects. rewrite Hd'. by effects.
  - intros * H.
    apply run_hedge_fund_gui_invoke in H as (sd' & ed' & Hr & ? & ? & ->).
    by rewrite Hr.
  - intros * H.
    destruct (prepare_rejects E sd ed sel0) as (e & He & Hmsg).
    { rewrite !date_ok_false. tauto. }
    exists e. split; [|done]. by apply run_hedge_fund_gui_prepare_Raises.
Qed.

Lemma dates_are_resolved_witness :
  let E := Data.env_with (PyStr Data.well_formed) in
  result (resolve_dates E "" "") = Returns ("2026-08-04", "2026-11-04")
  ∧ result (resolve_dates E "" "2024-05-31")
    = Returns ("2024-02-29", "2024-05-31")
  ∧ result (resolve_dates E "2024-01-15" "") = Returns ("2024-01-15", "2026-11-04")
  ∧ ∃ e,
      run_hedge_fund_gui E ["AAPL"] "05/31/2024" "" 100000 0 false
        (Some ["warren_buffett"]) "gpt-4o" "OpenAI" false
      = ([EvRunFailed e], Returns (ErrorEnvelope (exn_str e) (format_exc E e)))
      ∧ ∀ l, result (resolve_selected_analysts E (Some ["warren_buffett"]))
             = Returns l →
             exn_cls e = ValueError
             ∧ (exn_str e = "开始日期必须为YYYY-MM-DD格式"
                ∨ exn_str e = "结束日期必须为YYYY-MM-DD格式").
Proof.
  cbv zeta. pose (E := Data.env_with (PyStr Data.well_formed)).
  split.
  { apply (proj1 (proj2 (dates_are_resolved E "" "")) eq_refl
             (mk_date 2026 11 4) (mk_date 2026 8 4)); by vm_compute. }
  split.
  { apply (proj1 (proj2 (dates_are_resolved E "" "2024-05-31")) eq_refl
             (mk_date 2024 5 31) (mk_date 2024 2 29)); by vm_compute. }
  split.
  { apply (proj1 (dates_are_resolved E "2024-01-15" "")). by vm_compute. }
  apply (proj2 (proj2 (proj2 (dates_are_resolved E "05/31/2024" "")))).
  left. split; by vm_compute.
Defined.

(** ** The empty selection (claim C4) *)

(** C4, as amended: on an empty selection the builder raises nothing and
    returns the plan made of the start, risk and portfolio nodes alone,
    whose only edge between nodes goes from the risk node to the portfolio
    node.  The entry points do not hand it an empty selection: the runner
    then asks for the default of the builder, which is every registered
    analyst, and the GUI entry point resolves an empty selection like an
    absent one, to the keys of [ANALYST_ORDER]. *)
Theorem empty_selection_is_built :
  (∀ reg, create_workflow reg (Some []) = Returns (plan_of [])
          ∧ dom (nodes (plan_of []))
            = {["start_node"; "risk_management_agent"; "portfolio_manager"]}
          ∧ plan_edges (plan_of [])
            = {[ ("risk_management_agent", "portfolio_manager") ]})
  ∧ (∀ reg, create_workflow reg None
            = create_workflow reg (Some (map_to_list reg).*1))
  ∧ (∀ E tickers sd ed p sr mn mp,
       ∃ t, trace (run_hedge_fund E tickers sd ed p sr [] mn mp)
            = EvProgressStart :: EvCreateWorkflow None :: t)
  ∧ (∀ E, resolve_selected_analysts E (Some [])
          = resolve_selected_analysts E None)
  ∧ (∀ E order, import_ANALYST_ORDER E = Returns order →
       resolve_selected_analysts E (Some []) = mret (order.*2)).
Proof.
  split; [|split; [|split; [|split]]].
  - intros reg. split; [|split].
    + apply create_workflow_Returns. repeat split; constructor.
    + rewrite plan_of_dom. cbn [fmap list_fmap list_to_set]. set_solver.
    + rewrite plan_of_edges by constructor.
      cbn [fmap list_fmap list_to_set]. set_solver.
  - intros reg. apply create_workflow_default.
  - intros. rewrite run_hedge_fund_unfold.
    unfold create_workflow_call. effects. cbn [selection app]. by eexists.
  - done.
  - intros E order H. by rewrite <- (resolve_selected_analysts_default E order H).
Qed.

Lemma empty_selection_is_built_witness :
  let E := Data.env_with (PyStr Data.well_formed) in
  resolve_selected_analysts E (Some []) = mret (Sample.analysts_config.*1).
Proof.
  cbv zeta.
  exact (proj2 (proj2 (proj2 (proj2 empty_selection_is_built)))
           (Data.env_with (PyStr Data.well_formed)) Sample.ANALYST_ORDER
           eq_refl).
Defined.


(** * Further properties of the engine *)

(** ** The builder *)




Lemma node_names_registry (reg : gmap string (string * node_func)) :
  node_names reg (map_to_list reg).*1 = registry_names reg.
Proof.
  unfold node_names, registry_names. rewrite <- !list_fmap_compose.
  apply Forall_fmap_ext, Forall_forall. intros [k e] Hin. cbn.
  apply elem_of_map_to_list in Hin. by rewrite (entry_lookup _ _ _ Hin).
Qed.

(** X3: without a selection [create_workflow] takes every registered
    analyst: on a well-formed registry it returns a plan whose nodes are
    the start, risk and portfolio nodes and one node per registered
    analyst. *)
Theorem create_workflow_all_analysts (reg : gmap string (string * node_func)) :
  registry_wf reg →
  ∃ g, create_workflow reg None = Returns g
    ∧ size (nodes g) = (3 + size reg)%nat
    ∧ dom (nodes g)
      = {["start_node"; "risk_management_agent"; "portfolio_manager"]}
        ∪ list_to_set (registry_names reg).
Proof.
  intros Hwf. rewrite create_workflow_default.
  pose proof (NoDup_fst_map_to_list reg) as Hnd.
  assert (Hreg : Forall (λ k, is_Some (reg !! k)) (map_to_list reg).*1).
  { apply Forall_forall. intros k ([k' e] & -> & Hin)%list_elem_of_fmap.
    apply elem_of_map_to_list in Hin. by exists e. }
  destruct (registry_wf_names reg _ Hwf Hnd Hreg) as [Hnames Hfix].
  exists (plan_of (entry reg <$> (map_to_list reg).*1)).
  split; [by apply create_workflow_Returns|].
  pose proof (node_names_entries reg (map_to_list reg).*1) as Hent.
  split.
  - rewrite plan_of_size by by rewrite Hent.
    rewrite !length_fmap, length_map_to_list. lia.
  - rewrite plan_of_dom, Hent, node_names_registry. set_solver.
Qed.

Lemma create_workflow_all_analysts_witness :
  ∃ g, create_workflow Sample.analyst_nodes None = Returns g
    ∧ size (nodes g) = (3 + size Sample.analyst_nodes)%nat
    ∧ dom (nodes g)
      = {["start_node"; "risk_management_agent"; "portfolio_manager"]}
        ∪ list_to_set (registry_names Sample.analyst_nodes).
Proof.
  apply (create_workflow_all_analysts Sample.analyst_nodes).
  split; apply (bool_decide_unpack _); vm_compute; exact I.
Defined.


(** ** The runner *)

Section RunnerMore.
Context (E : Env).
Context (tickers : list string) (start_date end_date : string)
  (portfolio : Portfolio) (show_reasoning : bool)
  (model_name model_provider : string).

#[local] Abbreviation state1 :=
  (initial_state tickers start_date end_date portfolio show_reasoning
     model_name model_provider).
#[local] Abbreviation run1 sel :=
  (run_hedge_fund E tickers start_date end_date portfolio show_reasoning sel
     model_name model_provider).


(** The graph the runner executes is the one it has just built. *)
Lemma run_hedge_fund_invoke_agent sel agent state :
  EvInvoke agent state ∈ trace (run1 sel) →
  create_workflow (get_analyst_nodes E) (selection sel) = Returns agent
  ∧ compile E agent = Returns ().
Proof.
  rewrite run_hedge_fund_unfold.
  unfold create_workflow_call, workflow_compile, agent_invoke, last_item.
  effects.
  destruct (create_workflow _ _) as [wf|?]; effects;
    [destruct (compile E wf) as [[]|?] eqn:Hc; effects;
     [destruct (invoke E wf _) as [fs|?]; effects;
      [destruct (last (messages fs)) as [msg|]; effects;
       [rewrite parse_total, parse_trace; effects;
        destruct (json_loads E (content msg))|]|]|]|];
    intros H; trace_cases H; injection H as ? ?; by subst.
Qed.

End RunnerMore.

(** X4: whatever happens in a run, the progress display is started
    first and stopped last, once each: the trace of [run_hedge_fund]
    begins with the start, ends with the stop, and holds neither in
    between, also when a stage raises. *)
Theorem progress_brackets_the_run (E : Env) (tickers : list string)
    (sd ed : string) (p : Portfolio) (sr : bool) (sel : list string)
    (mn mp : string) :
  ∃ t, trace (run_hedge_fund E tickers sd ed p sr sel mn mp)
       = EvProgressStart :: t ++ [EvProgressStop]
       ∧ (EvProgressStart ∉ t) ∧ (EvProgressStop ∉ t).
Proof.
  rewrite run_hedge_fund_unfold.
  unfold create_workflow_call, workflow_compile, agent_invoke, last_item.
  effects. eexists. split; [reflexivity|].
  destruct (create_workflow _ _) as [wf|?]; effects;
    [destruct (compile E wf) as [[]|?]; effects;
     [destruct (invoke E wf _) as [fs|?]; effects;
      [destruct (last (messages fs)) as [msg|]; effects;
       [rewrite parse_total, parse_trace; effects;
        destruct (json_loads E (content msg))|]|]|]|];
    split; intros H; trace_cases H.
Qed.



(** ** The façade, further *)

Lemma without_picture_app t1 t2 :
  without_picture (t1 ++ t2) = without_picture t1 ++ without_picture t2.
Proof. apply List.filter_app. Qed.

Lemma without_picture_id t :
  (∀ ev, ev ∈ t → is_graph_event ev = false) → without_picture t = t.
Proof.
  induction t as [|ev t IH]; [done|]. intros H. unfold without_picture.
  cbn [List.filter]. rewrite (H ev) by by left. cbn [negb]. f_equal.
  apply IH. intros ev' Hin. apply H. by right.
Qed.

Section FacadeMore.
Context (E : Env).

Lemma trace_build_workflow_picture sel ev :
  ev ∈ trace (build_workflow E sel) → is_graph_event ev = false.
Proof.
  destruct (result (build E sel)) as [app|e] eqn:H.
  - rewrite (build_workflow_first _ _ _ H). cbn [trace fst]. rewrite trace_build.
    destruct (create_workflow _ _); intros Hin; trace_cases Hin; by subst.
  - rewrite (build_workflow_fallback _ _ _ H). cbn [trace fst].
    rewrite !trace_build.
    destruct (create_workflow _ (Some sel)),
      (create_workflow _ (Some default_analysts));
      intros Hin; trace_cases Hin; by subst.
Qed.

Lemma trace_run_hedge_fund_picture tickers sd ed p sr sel mn mp ev :
  ev ∈ trace (run_hedge_fund E tickers sd ed p sr sel mn mp) →
  is_graph_event ev = false.
Proof.
  rewrite run_hedge_fund_unfold.
  unfold create_workflow_call, workflow_compile, agent_invoke, last_item.
  effects.
  destruct (create_workflow _ _) as [wf|?]; effects;
    [destruct (compile E wf) as [[]|?]; effects;
     [destruct (invoke E wf _) as [fs|?]; effects;
      [destruct (last (messages fs)) as [msg|]; effects;
       [rewrite parse_total, parse_trace; effects;
        destruct (json_loads E (content msg))|]|]|]|];
    intros H; trace_cases H; by subst.
Qed.

Lemma without_picture_save_agent_graph show app sel :
  without_picture (trace (save_agent_graph E show app sel)) = [].
Proof.
  unfold save_agent_graph. destruct show; effects; [|done].
  by destruct (save_graph_as_png E _ _).
Qed.

(** The body of the entry point, with and without the picture. *)
Lemma analyse_picture tickers sd ed cash margin sr sel mn mp sg :
  result (analyse E tickers sd ed cash margin sr sel mn mp sg)
  = result (analyse E tickers sd ed cash margin sr sel mn mp false)
  ∧ without_picture (trace (analyse E tickers sd ed cash margin sr sel mn mp sg))
    = trace (analyse E tickers sd ed cash margin sr sel mn mp false).
Proof.
  unfold analyse. effects.
  rewrite without_picture_app,
    (without_picture_id _ (trace_build_workflow_picture sel)).
  destruct (result (build_workflow E sel)) as [[app sel']|]; effects; [|done].
  rewrite !result_save_agent_graph. effects.
  rewrite without_picture_app, without_picture_save_agent_graph.
  replace (trace (save_agent_graph E false app sel')) with (@nil event) by done.
  cbn [Datatypes.app].
  rewrite without_picture_app,
    (without_picture_id _
       (λ ev, trace_run_hedge_fund_picture tickers sd ed _ sr sel' mn mp ev)).
  destruct (result (run_hedge_fund _ _ _ _ _ _ _ _ _)) as [r|]; effects; [|done].
  split; [done|]. f_equal.
  by destruct (print_trading_output E r).
Qed.

End FacadeMore.

(** X6: every graph the GUI entry point executes was built by
    [create_workflow] and accepted by [compile()], from the selection of
    the run (the one given, or the keys of [ANALYST_ORDER]) or from the
    three default analysts; it is given the initial state. *)
Theorem executed_graph_is_built (E : Env) (tickers : list string)
    (sd ed : string) (cash margin : float) (sr : bool)
    (sel0 : option (list string)) (mn mp : string) (sg : bool)
    (agent : StateGraph) (state : AgentState) :
  EvInvoke agent state
    ∈ trace (run_hedge_fund_gui E tickers sd ed cash margin sr sel0 mn mp sg) →
  ∃ sel,
    (result (resolve_selected_analysts E sel0) = Returns sel
     ∨ sel = default_analysts)
    ∧ create_workflow (get_analyst_nodes E) (selection sel) = Returns agent
    ∧ compile E agent = Returns ()
    ∧ messages state
      = [HumanMessage
           (PyStr "Make trading decisions based on the provided data.")].
Proof.
  intros Hin.
  assert (Hst : messages state
      = [HumanMessage
           (PyStr "Make trading decisions based on the provided data.")]).
  { by apply run_hedge_fund_gui_invoke in Hin as (? & ? & _ & _ & _ & ->). }
  revert Hin.
  unfold run_hedge_fund_gui. rewrite elem_of_trace_try_except.
  intros [H|(e & _ & H)].
  2:{ revert H. unfold error_envelope. effects. intros H. trace_cases H. }
  apply elem_of_trace_bind in H as [H|([l [sd' ed']] & Hp & H)].
  { rewrite trace_prepare in H. by apply elem_of_nil in H. }
  rewrite result_prepare in Hp.
  destruct (result (resolve_selected_analysts E sel0)) as [l0|] eqn:Hl0; [|done].
  destruct (result (validate_dates E sd ed)); [|done].
  destruct (result (resolve_dates E sd ed)) as [[? ?]|]; [|done].
  injection Hp as -> -> ->.
  unfold analyse in H. apply elem_of_trace_bind in H as [H|([app sel'] & Hb & H)];
    [by apply build_workflow_invoke in H|].
  apply elem_of_trace_bind in H as [H|(_ & _ & H)];
    [by apply save_agent_graph_invoke in H|].
  apply elem_of_trace_bind in H as [H|(r & _ & H)].
  - apply run_hedge_fund_invoke_agent in H as [Hwf Hc]. exists sel'.
    split; [|done].
    destruct (result (build E l)) as [app'|e] eqn:Hbl.
    + rewrite (build_workflow_first _ _ _ Hbl) in Hb.
      injection Hb as _ <-. by left.
    + rewrite (build_workflow_fallback _ _ _ Hbl) in Hb. cbn [result snd] in Hb.
      destruct (result (build E default_analysts)); [|done].
      injection Hb as _ <-. by right.
  - revert H. effects. destruct (print_trading_output E r); effects;
      intros H; trace_cases H.
Qed.

(** X7: asking for the picture of the graph changes nothing else: the
    entry point returns the same result with and without it, whether or
    not the picture can be saved, and the same events happen apart from
    those of the picture. *)
Theorem graph_picture_is_harmless (E : Env) (tickers : list string)
    (sd ed : string) (cash margin : float) (sr : bool)
    (sel0 : option (list string)) (mn mp : string) (sg : bool) :
  result (run_hedge_fund_gui E tickers sd ed cash margin sr sel0 mn mp sg)
  = result (run_hedge_fund_gui E tickers sd ed cash margin sr sel0 mn mp false)
  ∧ without_picture
      (trace (run_hedge_fund_gui E tickers sd ed cash margin sr sel0 mn mp sg))
    = trace (run_hedge_fund_gui E tickers sd ed cash margin sr sel0 mn mp false).
Proof.
  unfold run_hedge_fund_gui, error_envelope. effects.
  rewrite !trace_prepare. cbn [app].
  destruct (result (prepare E sd ed sel0)) as [[l [sd' ed']]|]; effects;
    [|done].
  destruct (analyse_picture E tickers sd' ed' cash margin sr l mn mp sg)
    as [-> Ht].
  split; [done|]. rewrite without_picture_app, Ht. f_equal.
  by destruct (result (analyse _ _ _ _ _ _ _ _ _ _ _)).
Qed.

(** X8: a selection on which the construction of the graph fails gives
    the result of a run asked for the three default analysts. *)
Theorem failed_selection_runs_defaults (E : Env) (tickers : list string)
    (sd ed : string) (cash margin : float) (sr : bool)
    (sel0 : option (list string)) (mn mp : string) (sg : bool)
    (sel : list string) (e : exn) :
  result (resolve_selected_analysts E sel0) = Returns sel →
  result (build E sel) = Raises e →
  result (run_hedge_fund_gui E tickers sd ed cash margin sr sel0 mn mp sg)
  = result (run_hedge_fund_gui E tickers sd ed cash margin sr
              (Some default_analysts) mn mp sg).
Proof.
  intros Hsel Hb. unfold run_hedge_fund_gui. effects.
  rewrite !result_prepare, Hsel.
  change (result (resolve_selected_analysts E (Some default_analysts)))
    with (Returns default_analysts : outcome (list string)).
  destruct (result (validate_dates E sd ed)); [|done].
  destruct (result (resolve_dates E sd ed)) as [[sd' ed']|]; [|done].
  effects. unfold analyse. effects.
  rewrite (build_workflow_fallback _ _ _ Hb). cbn [result snd].
  destruct (result (build E default_analysts)) as [app|e'] eqn:Hd.
  - by rewrite (build_workflow_first _ _ _ Hd).
  - rewrite (build_workflow_fallback _ _ _ Hd). cbn [result snd].
    by rewrite Hd.
Qed.

Lemma failed_selection_runs_defaults_witness :
  let E := Data.env_with (PyStr Data.well_formed) in
  result (run_hedge_fund_gui E ["AAPL"] "2024-01-01" "2024-05-31"
            100000 0 false (Some ["ray_dalio"]) "gpt-4o" "OpenAI" false)
  = result (run_hedge_fund_gui E ["AAPL"] "2024-01-01" "2024-05-31"
              100000 0 false (Some default_analysts) "gpt-4o" "OpenAI" false).
Proof.
  cbv zeta.
  apply (failed_selection_runs_defaults _ _ _ _ _ _ _ _ _ _ _
           ["ray_dalio"] (mk_exn KeyError "'ray_dalio'")); by vm_compute.
Defined.

(** X9: the report is written inside the handler of the entry point: when
    the analysis has run and returned but the report writer raises, the
    entry point returns the error dictionary of that exception, not the
    analysis. *)
Theorem report_failure_hides_analysis (E : Env) (tickers : list string)
    (sd ed : string) (cash margin : float) (sr : bool)
    (sel0 : option (list string)) (mn mp : string) (sg : bool)
    (sel sel' : list string) (sd' ed' : string) (app : StateGraph)
    (r : RunResult) (e : exn) :
  result (prepare E sd ed sel0) = Returns (sel, (sd', ed')) →
  result (build_workflow E sel) = Returns (app, sel') →
  result (run_hedge_fund E tickers sd' ed'
            (initial_portfolio tickers cash margin) sr sel' mn mp)
  = Returns r →
  print_trading_output E r = Raises e →
  result (run_hedge_fund_gui E tickers sd ed cash margin sr sel0 mn mp sg)
  = Returns (ErrorEnvelope (exn_str e) (format_exc E e))
  ∧ EvTradingOutput r
      ∈ trace (run_hedge_fund_gui E tickers sd ed cash margin sr sel0 mn mp sg).
Proof.
  intros Hp Hb Hr Ho. unfold run_hedge_fund_gui, analyse, error_envelope.
  split.
  - effects. rewrite Hp. effects. rewrite Hb. effects.
    rewrite result_save_agent_graph. effects. rewrite Hr. effects.
    rewrite Ho. by effects.
  - effects. rewrite Hp. effects. rewrite Hb. effects.
    rewrite result_save_agent_graph. effects. rewrite Hr. effects.
    rewrite Ho. effects. rewrite !elem_of_app, !elem_of_cons. tauto.
Qed.


Lemma executed_graph_is_built_witness :
  let E := Data.env_with (PyStr Data.well_formed) in
  ∃ sel,
    (result (resolve_selected_analysts E (Some ["warren_buffett"]))
     = Returns sel
     ∨ sel = default_analysts)
    ∧ create_workflow (get_analyst_nodes E) (selection sel)
      = Returns (plan_of (entry Sample.analyst_nodes <$> ["warren_buffett"]))
    ∧ compile E (plan_of (entry Sample.analyst_nodes <$> ["warren_buffett"]))
      = Returns ()
    ∧ messages
        (initial_state ["AAPL"] "2024-01-01" "2024-05-31"
           (initial_portfolio ["AAPL"] 100000 0) false "gpt-4o" "OpenAI")
      = [HumanMessage
           (PyStr "Make trading decisions based on the provided data.")].
Proof.
  cbv zeta.
  apply (executed_graph_is_built (Data.env_with (PyStr Data.well_formed))
           ["AAPL"] "2024-01-01" "2024-05-31" 100000 0 false
           (Some ["warren_buffett"]) "gpt-4o" "OpenAI" false
           (plan_of (entry Sample.analyst_nodes <$> ["warren_buffett"]))
           (initial_state ["AAPL"] "2024-01-01" "2024-05-31"
              (initial_portfolio ["AAPL"] 100000 0) false "gpt-4o" "OpenAI")).
  apply (list_elem_of_lookup_2 _ 5%nat). vm_compute. reflexivity.
Defined.

Lemma report_failure_hides_analysis_witness :
  let E := Data.env_with (PyStr Data.a_list) in
  let r := {| decisions := PyList [PyInt 1; PyStr "sell"; PyNone];
              analyst_signals := Data.signals |} in
  let e := mk_exn AttributeError "'list' object has no attribute 'items'" in
  result (run_hedge_fund_gui E ["AAPL"] "2024-01-01" "2024-05-31" 100000 0
            false (Some ["warren_buffett"]) "gpt-4o" "OpenAI" false)
  = Returns (ErrorEnvelope (exn_str e) (format_exc E e))
  ∧ EvTradingOutput r
      ∈ trace (run_hedge_fund_gui E ["AAPL"] "2024-01-01" "2024-05-31" 100000
                 0 false (Some ["warren_buffett"]) "gpt-4o" "OpenAI" false).
Proof.
  cbv zeta.
  apply (report_failure_hides_analysis (Data.env_with (PyStr Data.a_list))
           ["AAPL"] "2024-01-01" "2024-05-31" 100000 0 false
           (Some ["warren_buffett"]) "gpt-4o" "OpenAI" false
           ["warren_buffett"] ["warren_buffett"] "2024-01-01" "2024-05-31"
           (plan_of (entry Sample.analyst_nodes <$> ["warren_buffett"]))
           {| decisions := PyList [PyInt 1; PyStr "sell"; PyNone];
              analyst_signals := Data.signals |}
           (mk_exn AttributeError "'list' object has no attribute 'items'"));
    vm_compute; reflexivity.
Defined.

(** ** The callers of the engine *)

(** X10: the dictionary the launcher passes to [run_from_gui] holds the
    key ["language"], which names no parameter of [run_hedge_fund_gui]:
    whatever the form holds, the call is refused with a [TypeError] before
    the entry point is entered, nothing of the engine runs, and the thread
    reports a failed analysis. *)
Theorem launcher_call_is_refused (E : Env) (stock_codes : string)
    (initial_cash margin_req : float) (start_date end_date : string)
    (selected_analysts : list string) (o : LauncherRun.Options) :
  LauncherRun.run_analysis_thread E stock_codes initial_cash margin_req
    start_date end_date selected_analysts o
  = ([], Returns
           (LauncherRun.AnalysisFailed
              "run_hedge_fund_gui() got an unexpected keyword argument 'language'")).
Proof. done. Qed.

Section CliFacts.
Context (E : Env).

Lemma result_check_dates sd ed :
  result (Cli.check_dates E sd ed)
  = if date_ok E sd then
      if date_ok E ed then Returns ()
      else raise ValueError "End date must be in YYYY-MM-DD format"
    else raise ValueError "Start date must be in YYYY-MM-DD format".
Proof.
  unfold Cli.check_dates, date_ok. effects.
  destruct (is_empty sd), (strptime E sd), (is_empty ed), (strptime E ed);
    by effects.
Qed.

End CliFacts.

(** X11: the command line and the GUI entry point agree on the runs that
    complete.  The script prints the result [r] exactly when the entry
    point, on the same arguments, returns [r] and did so without the
    fallback and with the picture of the graph, when asked for, saved:
    the two failures the entry point absorbs and the script does not. *)
Theorem cli_agrees_with_gui (E : Env) (args : Cli.Args) (k : string)
    (l : list string) (mn mp : string) (r : RunResult) :
  let tickers := str_strip E <$> split_on "," (Cli.arg_tickers args) in
  let gui :=
    run_hedge_fund_gui E tickers
      (default "" (Cli.arg_start_date args))
      (default "" (Cli.arg_end_date args))
      (Cli.arg_initial_cash args) (Cli.arg_margin_requirement args)
      (Cli.arg_show_reasoning args) (Some (k :: l)) mn mp
      (Cli.arg_show_agent_graph args) in
  result (Cli.main E args (k :: l) mn mp) = Returns (Cli.Printed r)
  ↔ result gui = Returns (Analysis r)
    ∧ ∃ app, result (build E (k :: l)) = Returns app
             ∧ (Cli.arg_show_agent_graph args = true →
                save_graph_as_png E app (graph_file_path (k :: l))
                = Returns ()).
Proof.
  cbv zeta.
  pose proof (result_build E (k :: l)) as Hb.
  unfold Cli.main, run_hedge_fund_gui, analyse, error_envelope,
    create_workflow_call, workflow_compile.
  effects. rewrite result_prepare, result_validate_dates.
  change (result (resolve_selected_analysts E (Some (k :: l))))
    with (Returns (k :: l) : outcome (list string)).
  cbv beta iota.
  destruct (create_workflow _ (Some (k :: l))) as [wf|e1]; effects;
    cbn [mbind outcome_bind] in Hb.
  2:{ rewrite Hb. split; [done|]. by intros (_ & ? & [=] & _). }
  destruct (compile E wf) as [[]|e1]; effects; cbn [mbind outcome_bind] in Hb.
  2:{ rewrite Hb. split; [done|]. by intros (_ & ? & [=] & _). }
  rewrite Hb.
  assert (Hex : ∀ P : Prop,
    P ∧ (Cli.arg_show_agent_graph args = true →
         save_graph_as_png E wf (graph_file_path (k :: l)) = Returns ())
    ↔ P ∧ ∃ app, Returns wf = Returns app
                 ∧ (Cli.arg_show_agent_graph args = true →
                    save_graph_as_png E app (graph_file_path (k :: l))
                    = Returns ())).
  { intros P. split; [intros [? ?]; split; [done|by exists wf]|].
    by intros (? & ? & [= <-] & ?). }
  rewrite <- Hex. clear Hex.
  destruct (Cli.arg_show_agent_graph args); effects.
  - destruct (save_graph_as_png E wf _) as [[]|e1]; effects.
    2:{ split; [done|]. intros [_ H]. by specialize (H eq_refl). }
    rewrite result_check_dates.
    destruct (date_ok E _); [|effects; split; [done|by intros [[=] _]]].
    destruct (date_ok E _); [|effects; split; [done|by intros [[=] _]]].
    destruct (result (resolve_dates E _ _)) as [[sd ed]|e1];
      [|effects; split; [done|by intros [[=] _]]].
    effects. rewrite (build_workflow_first _ _ _ Hb). cbn [result snd].
    effects. rewrite result_save_agent_graph. effects.
    destruct (result (run_hedge_fund _ _ _ _ _ _ _ _ _)) as [r'|e1];
      [|effects; split; [done|by intros [[=] _]]].
    effects.
    destruct (print_trading_output E r') as [[]|e1]; effects;
      [|split; [done|by intros [[=] _]]].
    split; [by intros [= ->]|by intros [[= ->] _]].
  - rewrite result_check_dates.
    destruct (date_ok E _); [|effects; split; [done|by intros [[=] _]]].
    destruct (date_ok E _); [|effects; split; [done|by intros [[=] _]]].
    destruct (result (resolve_dates E _ _)) as [[sd ed]|e1];
      [|effects; split; [done|by intros [[=] _]]].
    effects. rewrite (build_workflow_first _ _ _ Hb). cbn [result snd].
    effects.
    destruct (result (run_hedge_fund _ _ _ _ _ _ _ _ _)) as [r'|e1];
      [|effects; split; [done|by intros [[=] _]]].
    effects.
    destruct (print_trading_output E r') as [[]|e1]; effects;
      [|split; [done|by intros [[=] _]]].
    split; [by intros [= ->]|by intros [[= ->] _]].
Qed.


Lemma cli_agrees_with_gui_witness :
  let E := Data.env_with (PyStr Data.well_formed) in
  let r := {| decisions := match Json.decode Data.well_formed with
                           | Returns v => v
                           | Raises _ => PyNone
                           end;
              analyst_signals := Data.signals |} in
  result (run_hedge_fund_gui E ["AAPL"; "MSFT"] "2024-01-01" "" 100000 0
            false (Some ["warren_buffett"]) "gpt-4o" "OpenAI" true)
  = Returns (Analysis r)
  ∧ ∃ app, result (build E ["warren_buffett"]) = Returns app
           ∧ (true = true →
              save_graph_as_png E app (graph_file_path ["warren_buffett"])
              = Returns ()).
Proof.
  cbv zeta.
  apply (proj1 (cli_agrees_with_gui (Data.env_with (PyStr Data.well_formed))
                  (Cli.mk_args 100000 0 "AAPL, MSFT" (Some "2024-01-01") None
                     false true)
                  "warren_buffett" [] "gpt-4o" "OpenAI"
                  {| decisions := match Json.decode Data.well_formed with
                                  | Returns v => v
                                  | Raises _ => PyNone
                                  end;
                     analyst_signals := Data.signals |})).
  vm_compute. reflexivity.
Defined.


(** ** The order of the rows of the report *)

Section SortFacts.
Context {A : Type} (key : A → nat).
Import Display.

Lemma insert_by_Permutation x l : insert_by key x l ≡ₚ x :: l.
Proof.
  induction l as [|y l IH]; [done|]. cbn [insert_by].
  destruct (key x <=? key y)%nat; [done|]. by rewrite IH, Permutation_swap.
Qed.

Lemma sorted_Permutation l : sorted key l ≡ₚ l.
Proof.
  induction l as [|x l IH]; [done|]. unfold sorted. cbn [foldr].
  rewrite insert_by_Permutation. by f_equiv.
Qed.

Lemma insert_by_Sorted x l :
  Sorted (λ a b, key a ≤ key b)%nat l →
  Sorted (λ a b, key a ≤ key b)%nat (insert_by key x l).
Proof.
  induction 1 as [|y l Hs IH Hhd]; [by repeat constructor|].
  cbn [insert_by]. destruct (key x <=? key y)%nat eqn:Hxy.
  - apply Nat.leb_le in Hxy. by repeat constructor.
  - apply Nat.leb_gt in Hxy. constructor; [done|].
    destruct Hhd as [|z l Hyz]; cbn [insert_by]; [constructor; lia|].
    destruct (key x <=? key z)%nat; constructor; lia.
Qed.

Lemma sorted_Sorted l : Sorted (λ a b, key a ≤ key b)%nat (sorted key l).
Proof.
  induction l as [|x l IH]; [constructor|]. by apply insert_by_Sorted.
Qed.

Lemma insert_by_filter (r : nat) x l :
  filter (λ y, key y = r) (insert_by key x l)
  = filter (λ y, key y = r) (x :: l).
Proof.
  induction l as [|y l IH]; [done|]. cbn [insert_by].
  destruct (key x <=? key y)%nat eqn:Hxy; [done|].
  apply Nat.leb_gt in Hxy. rewrite filter_cons, IH, !filter_cons.
  destruct (decide (key y = r)), (decide (key x = r)); try done. lia.
Qed.

Lemma sorted_filter (r : nat) l :
  filter (λ y, key y = r) (sorted key l) = filter (λ y, key y = r) l.
Proof.
  induction l as [|x l IH]; [done|]. unfold sorted. cbn [foldr].
  rewrite insert_by_filter, !filter_cons. fold (sorted key l).
  by rewrite IH.
Qed.

(** In a list sorted by key, a row of smaller key stands before a row of
    larger key. *)
Lemma Sorted_lookup_lt l i j x y :
  Sorted (λ a b, key a ≤ key b)%nat l →
  l !! i = Some x → l !! j = Some y → (key x < key y)%nat → (i < j)%nat.
Proof.
  intros Hs Hi Hj Hlt. apply Sorted_StronglySorted in Hs; [|intros a b c Hab Hbc; cbv beta in *; lia].
  destruct (decide (i < j)%nat) as [|Hge]; [done|exfalso].
  destruct (decide (i = j)) as [->|Hne]; [rewrite Hi in Hj; injection Hj as ->; lia|].
  assert (j < i)%nat as Hji by lia. clear Hge Hne.
  revert i j Hi Hj Hji. induction Hs as [|z l Hs IH Hall]; intros i j Hi Hj Hji.
  { by rewrite lookup_nil in Hi. }
  destruct j as [|j], i as [|i]; try lia.
  - cbn in Hi, Hj. injection Hj as ->.
    rewrite Forall_forall in Hall.
    assert (x ∈ l) as Hx by by eapply list_elem_of_lookup_2.
    specialize (Hall x Hx). cbv beta in Hall. lia.
  - cbn in Hi, Hj. eapply IH; [done..|lia].
Qed.

End SortFacts.

Section OrderFacts.
Import Display.

Lemma foldl_order_lookup (l : list (string * string)) :
  ∀ (n : nat) (d : gmap string nat) (a : string),
    (a ∉ l.*1 →
       foldl (λ d ie, <[ie.2.1 := ie.1]> d) d (enumerate_from n l) !! a
       = d !! a)
    ∧ (a ∈ l.*1 →
       ∃ i, (n ≤ i < n + length l)%nat
            ∧ foldl (λ d ie, <[ie.2.1 := ie.1]> d) d (enumerate_from n l) !! a
              = Some i
            ∧ l.*1 !! (i - n)%nat = Some a).
Proof.
  induction l as [|[b v] l IH]; intros n d a.
  { split; [done|]. by intros ?%elem_of_nil. }
  cbn [enumerate_from foldl fmap list_fmap fst snd].
  destruct (IH (S n) (<[b := n]> d) a) as [IHout IHin].
  destruct (decide (a ∈ l.*1)) as [Hin|Hout].
  - split; [intros Hn; exfalso; apply Hn; by right|]. intros _.
    destruct (IHin Hin) as (i & Hi & Hl & Hd). exists i.
    split; [cbn [length]; lia|]. split; [done|].
    replace (i - n)%nat with (S (i - S n)) by lia. done.
  - split.
    + intros Hn. rewrite (IHout Hout). apply lookup_insert_ne.
      intros ->. apply Hn. by left.
    + intros [->|?]%elem_of_cons; [|done]. exists n.
      split; [cbn [length]; lia|]. rewrite (IHout Hout).
      rewrite Nat.sub_diag. split; [|done]. apply lookup_insert_eq.
Qed.

Lemma foldl_order_lookup_NoDup (l : list (string * string)) :
  ∀ (n : nat) (d : gmap string nat) (a : string) (i : nat),
    NoDup l.*1 → l.*1 !! i = Some a →
    foldl (λ d ie, <[ie.2.1 := ie.1]> d) d (enumerate_from n l) !! a
    = Some (n + i)%nat.
Proof.
  induction l as [|[b v] l IH]; intros n d a i Hnd Hi; [done|].
  cbn [enumerate_from foldl fmap list_fmap fst snd] in *.
  apply NoDup_cons in Hnd as [Hb Hnd]. destruct i as [|i].
  - injection Hi as ->.
    rewrite (proj1 (foldl_order_lookup l (S n) (<[a := n]> d) a) Hb).
    rewrite Nat.add_0_r. apply lookup_insert_eq.
  - cbn in Hi. rewrite (IH (S n) _ a i Hnd Hi). f_equal. lia.
Qed.

End OrderFacts.


Section KeyFacts.
Import Display.
Context (order : list (string * string)).

Lemma sort_key_risk {A} (x : string * A) :
  x.1 = "Risk Management" → sort_key order x = length order.
Proof.
  intros Hx. unfold sort_key, analyst_order. rewrite Hx.
  by rewrite lookup_insert_eq.
Qed.

Lemma sort_key_listed {A} (x : string * A) :
  x.1 ∈ order.*1 → x.1 ≠ "Risk Management" →
  (sort_key order x < length order)%nat.
Proof.
  intros Hin Hne. unfold sort_key, analyst_order.
  rewrite lookup_insert_ne by done.
  destruct (proj2 (foldl_order_lookup order 0 ∅ x.1) Hin) as (i & Hi & -> & _).
  cbn. lia.
Qed.

Lemma sort_key_unlisted {A} (x : string * A) :
  x.1 ∉ order.*1 → x.1 ≠ "Risk Management" → sort_key order x = 999%nat.
Proof.
  intros Hout Hne. unfold sort_key, analyst_order.
  rewrite lookup_insert_ne by done.
  by rewrite (proj1 (foldl_order_lookup order 0 ∅ x.1) Hout).
Qed.

Lemma sort_key_index {A} (x : string * A) (i : nat) :
  NoDup order.*1 → order.*1 !! i = Some x.1 → x.1 ≠ "Risk Management" →
  sort_key order x = i.
Proof.
  intros Hnd Hi Hne. unfold sort_key, analyst_order.
  rewrite lookup_insert_ne by done.
  by rewrite (foldl_order_lookup_NoDup order 0 ∅ x.1 i Hnd Hi).
Qed.

End KeyFacts.

(** X12: [sort_agent_signals] is a stable sort by the key of the rows:
    it returns the rows it is given, each as often, in the order of their
    keys, and rows of the same key in the order they came in. *)
Theorem sort_agent_signals_stable {A : Type} (order : list (string * string))
    (signals : list (string * A)) :
  let out := Display.sort_agent_signals order signals in
  out ≡ₚ signals
  ∧ Sorted (λ x y, Display.sort_key order x ≤ Display.sort_key order y)%nat out
  ∧ ∀ r : nat,
      filter (λ x, Display.sort_key order x = r) out
      = filter (λ x, Display.sort_key order x = r) signals.
Proof.
  cbv zeta. unfold Display.sort_agent_signals. split; [|split].
  - apply sorted_Permutation.
  - apply sorted_Sorted.
  - intros r. apply sorted_filter.
Qed.

(** X13: the order of the report.  With fewer than 999 entries in
    [ANALYST_ORDER], the rows of the listed analysts come first, then the
    row of the risk manager, then the rows of the agents that are not
    listed; when the display names are pairwise distinct the listed
    analysts come in the order of [ANALYST_ORDER]. *)
Theorem sort_agent_signals_order {A : Type} (order : list (string * string))
    (signals : list (string * A)) (i j : nat) (x y : string * A) :
  let out := Display.sort_agent_signals order signals in
  let listed (n : string) := (n ∈ order.*1) ∧ n ≠ "Risk Management" in
  let unlisted (n : string) := (n ∉ order.*1) ∧ n ≠ "Risk Management" in
  (length order < 999)%nat →
  out !! i = Some x → out !! j = Some y →
  (listed x.1 ∧ y.1 = "Risk Management")
  ∨ (listed x.1 ∧ unlisted y.1)
  ∨ (x.1 = "Risk Management" ∧ unlisted y.1)
  ∨ (listed x.1 ∧ listed y.1 ∧ NoDup order.*1
     ∧ ∃ a b, order.*1 !! a = Some x.1 ∧ order.*1 !! b = Some y.1
              ∧ (a < b)%nat) →
  (i < j)%nat.
Proof.
  cbv zeta. intros Hlen Hi Hj Hcases.
  apply (Sorted_lookup_lt (Display.sort_key order) _ i j x y
           (sorted_Sorted _ signals) Hi Hj).
  destruct Hcases as [[[Hx Hx'] Hy]|[[[Hx Hx'] [Hy Hy']]|[[Hx [Hy Hy']]
    |([Hx Hx'] & [Hy Hy'] & Hnd & a & b & Ha & Hb & Hab)]]].
  - rewrite (sort_key_risk order y Hy). by apply sort_key_listed.
  - rewrite (sort_key_unlisted order y Hy Hy').
    pose proof (sort_key_listed order x Hx Hx'). lia.
  - rewrite (sort_key_risk order x Hx), (sort_key_unlisted order y Hy Hy').
    done.
  - by rewrite (sort_key_index order x a Hnd Ha Hx'),
      (sort_key_index order y b Hnd Hb Hy').
Qed.

Lemma sort_agent_signals_order_witness :
  let signals :=
    [("Portfolio Manager", "HOLD"); ("Risk Management", "NEUTRAL");
     ("Warren Buffett", "BULLISH"); ("Bill Ackman", "BEARISH")] in
  Display.sort_agent_signals Sample.ANALYST_ORDER signals
  = [("Bill Ackman", "BEARISH"); ("Warren Buffett", "BULLISH");
     ("Risk Management", "NEUTRAL"); ("Portfolio Manager", "HOLD")]
  ∧ (1 < 2)%nat.
Proof.
  cbv zeta. split; [by vm_compute|].
  apply (sort_agent_signals_order Sample.ANALYST_ORDER
           [("Portfolio Manager", "HOLD"); ("Risk Management", "NEUTRAL");
            ("Warren Buffett", "BULLISH"); ("Bill Ackman", "BEARISH")]
           1 2 ("Warren Buffett", "BULLISH") ("Risk Management", "NEUTRAL"));
    [vm_compute; lia|by vm_compute|by vm_compute|].
  left. split; [|done]. split; [|done].
  apply (list_elem_of_lookup_2 _ 9%nat). by vm_compute.
Defined.

(** ** The file of API keys *)

Section DictFacts.
Import EnvFile.

Lemma dict_get_set (d : dict) (k v k' : string) :
  dict_get (dict_set d k v) k'
  = if decide (k = k') then Some v else dict_get d k'.
Proof.
  induction d as [|[k0 v0] d IH]; cbn [dict_set dict_get].
  - destruct (String.eqb_spec k k');
      [by rewrite decide_True|by rewrite decide_False].
  - destruct (String.eqb_spec k0 k) as [->|Hne]; cbn [dict_get].
    + destruct (String.eqb_spec k k');
      [by rewrite decide_True|by rewrite decide_False].
    + destruct (String.eqb_spec k0 k') as [->|Hne'].
      * by rewrite decide_False by done.
      * apply IH.
Qed.

Lemma dict_set_same (d : dict) (k v : string) :
  dict_get d k = Some v → dict_set d k v = d.
Proof.
  induction d as [|[k0 v0] d IH]; [done|]. cbn [dict_set dict_get].
  destruct (String.eqb_spec k0 k) as [->|Hne]; [by intros [= ->]|].
  intros H. by rewrite IH.
Qed.

Lemma dict_get_None (d : dict) (k : string) :
  dict_get d k = None ↔ k ∉ d.*1.
Proof.
  induction d as [|[k0 v0] d IH]; cbn [dict_get fmap list_fmap fst].
  - split; [intros _; apply not_elem_of_nil|done].
  - rewrite not_elem_of_cons. destruct (String.eqb_spec k0 k) as [->|Hne].
    + split; [done|]. by intros [? _].
    + rewrite IH. split; [intros ?; split; [congruence|done]|by intros [_ ?]].
Qed.

Lemma dict_set_keys (d : dict) (k v : string) :
  (dict_set d k v).*1 = if decide (k ∈ d.*1) then d.*1 else d.*1 ++ [k].
Proof.
  induction d as [|[k0 v0] d IH]; cbn [dict_set fmap list_fmap fst].
  - by rewrite decide_False by apply not_elem_of_nil.
  - destruct (String.eqb_spec k0 k) as [->|Hne]; cbn [fmap list_fmap fst].
    + by rewrite decide_True by by left.
    + fold (fmap (M:=list) (@fst string string)). rewrite IH.
      destruct (decide (k ∈ d.*1)) as [Hin|Hout].
      * by rewrite decide_True by by right.
      * rewrite decide_False; [done|].
        intros [?|?]%elem_of_cons; [congruence|done].
Qed.

Lemma dict_set_NoDup (d : dict) (k v : string) :
  NoDup d.*1 → NoDup (dict_set d k v).*1.
Proof.
  intros Hnd. rewrite dict_set_keys. destruct (decide (k ∈ d.*1)); [done|].
  apply NoDup_app. split; [done|]. split; [|apply NoDup_singleton].
  by intros x Hx ->%list_elem_of_singleton.
Qed.

(** The entries of other keys are left where they are. *)
Lemma dict_set_filter (d : dict) (k v : string) :
  k ∈ priority_keys →
  filter (λ item, item.1 ∉ priority_keys) (dict_set d k v)
  = filter (λ item, item.1 ∉ priority_keys) d.
Proof.
  intros Hk. induction d as [|[k0 v0] d IH]; cbn [dict_set].
  - rewrite filter_cons, decide_False; [done|]. by intros [].
  - destruct (String.eqb_spec k0 k) as [->|Hne].
    + rewrite !filter_cons, !decide_False; [done|by intros []..].
    + by rewrite !filter_cons, IH.
Qed.

Lemma merge_key_get (d : dict) (key gui_value k : string) :
  dict_get (merge_key d (key, gui_value)) k
  = if decide (key = k) then Some (merged_value d key gui_value)
    else dict_get d k.
Proof.
  unfold merge_key, merged_value. destruct (is_valid gui_value).
  { apply dict_get_set. }
  destruct (dict_get d key) as [value|] eqn:Hv; [|apply dict_get_set].
  destruct (is_valid value); [|apply dict_get_set].
  destruct (decide (key = k)) as [<-|]; done.
Qed.

Lemma merge_key_filter (d : dict) (key gui_value : string) :
  key ∈ priority_keys →
  filter (λ item, item.1 ∉ priority_keys) (merge_key d (key, gui_value))
  = filter (λ item, item.1 ∉ priority_keys) d.
Proof.
  intros Hk. unfold merge_key. destruct (is_valid gui_value).
  { by apply dict_set_filter. }
  destruct (dict_get d key) as [value|]; [|by apply dict_set_filter].
  destruct (is_valid value); [done|by apply dict_set_filter].
Qed.

Lemma merge_key_NoDup (d : dict) (item : string * string) :
  NoDup d.*1 → NoDup (merge_key d item).*1.
Proof.
  intros Hnd. destruct item as [key gui_value]. unfold merge_key.
  destruct (is_valid gui_value); [by apply dict_set_NoDup|].
  destruct (dict_get d key) as [value|]; [|by apply dict_set_NoDup].
  destruct (is_valid value); [done|by apply dict_set_NoDup].
Qed.

Lemma foldl_merge_key_get (items : list (string * string)) :
  ∀ (d : dict) (k : string),
    NoDup items.*1 →
    dict_get (foldl merge_key d items) k
    = match dict_get items k with
      | Some gui_value => Some (merged_value d k gui_value)
      | None => dict_get d k
      end.
Proof.
  induction items as [|[key gui_value] items IH]; intros d k Hnd; [done|].
  cbn [fmap list_fmap fst] in Hnd. apply NoDup_cons in Hnd as [Hkey Hnd].
  cbn [foldl dict_get]. rewrite IH by done.
  destruct (String.eqb_spec key k) as [->|Hne].
  - apply dict_get_None in Hkey. rewrite Hkey, merge_key_get.
    by rewrite decide_True.
  - destruct (dict_get items k) as [g|] eqn:Hg.
    + unfold merged_value. by rewrite merge_key_get, decide_False.
    + by rewrite merge_key_get, decide_False.
Qed.

Lemma foldl_merge_key_filter (items : list (string * string)) :
  ∀ d : dict,
    Forall (λ key, key ∈ priority_keys) items.*1 →
    filter (λ item, item.1 ∉ priority_keys) (foldl merge_key d items)
    = filter (λ item, item.1 ∉ priority_keys) d.
Proof.
  induction items as [|[key gui_value] items IH]; intros d Hall; [done|].
  cbn [fmap list_fmap fst] in Hall. apply Forall_cons in Hall as [Hkey Hall].
  cbn [foldl]. rewrite IH by done. by apply merge_key_filter.
Qed.

Lemma foldl_merge_key_NoDup (items : list (string * string)) :
  ∀ d : dict, NoDup d.*1 → NoDup (foldl merge_key d items).*1.
Proof.
  induction items as [|item items IH]; intros d Hnd; [done|].
  cbn [foldl]. by apply IH, merge_key_NoDup.
Qed.

Lemma foldl_merge_key_fixed (items : list (string * string)) (d : dict) :
  Forall (λ item, merge_key d item = d) items →
  foldl merge_key d items = d.
Proof.
  induction 1 as [|item items Hitem _ IH]; [done|].
  cbn [foldl]. by rewrite Hitem.
Qed.

Lemma is_valid_placeholder (key : string) : is_valid (placeholder key) = false.
Proof.
  unfold is_valid, placeholder. by destruct (lower key +:+ "_here").
Qed.

End DictFacts.


Section MergeFacts.
Import EnvFile.
Context (E : Env).

Lemma gui_api_keys_names keys : (gui_api_keys E keys).*1 = api_key_names.
Proof. done. Qed.

Lemma gui_api_keys_NoDup keys : NoDup (gui_api_keys E keys).*1.
Proof. rewrite gui_api_keys_names. by apply (bool_decide_unpack _). Qed.

Lemma gui_api_keys_ollama keys :
  dict_get (gui_api_keys E keys) "OLLAMA_BASE_URL" = None.
Proof. done. Qed.

Lemma merge_get d keys url key :
  dict_get (merge E d keys url) key
  = match dict_get (gui_api_keys E keys) key with
    | Some gui_value => Some (merged_value d key gui_value)
    | None =>
        if decide (key = "OLLAMA_BASE_URL")
        then Some (default url (dict_get d key))
        else dict_get d key
    end.
Proof.
  unfold merge. pose proof (gui_api_keys_NoDup keys) as Hnd.
  pose proof (foldl_merge_key_get (gui_api_keys E keys) d "OLLAMA_BASE_URL" Hnd)
    as Ho.
  rewrite gui_api_keys_ollama in Ho.
  destruct (dict_get (foldl merge_key d (gui_api_keys E keys))
              "OLLAMA_BASE_URL") as [u|] eqn:Hu.
  - rewrite foldl_merge_key_get by done.
    destruct (dict_get (gui_api_keys E keys) key) as [g|] eqn:Hg; [done|].
    destruct (decide (key = "OLLAMA_BASE_URL")) as [->|]; [|done].
    by rewrite <- Ho.
  - rewrite dict_get_set, foldl_merge_key_get by done.
    destruct (decide ("OLLAMA_BASE_URL" = key)) as [<-|Hne].
    + by rewrite gui_api_keys_ollama, decide_True, <- Ho.
    + destruct (dict_get (gui_api_keys E keys) key) as [g|]; [done|].
      by rewrite decide_False by done.
Qed.

Lemma merge_filter d keys url :
  filter (λ item, item.1 ∉ priority_keys) (merge E d keys url)
  = filter (λ item, item.1 ∉ priority_keys) d.
Proof.
  unfold merge.
  assert (filter (λ item, item.1 ∉ priority_keys)
            (foldl merge_key d (gui_api_keys E keys))
          = filter (λ item, item.1 ∉ priority_keys) d) as Hf.
  { apply foldl_merge_key_filter.
    rewrite gui_api_keys_names. apply Forall_forall. intros key Hkey.
    unfold priority_keys. apply elem_of_app. by left. }
  destruct (dict_get _ "OLLAMA_BASE_URL"); [done|].
  rewrite dict_set_filter; [done|].
  unfold priority_keys. apply elem_of_app. right. by left.
Qed.

End MergeFacts.

(** X14: the merge of [create_env_file].  For each of the six API keys,
    a value typed in the window that is neither empty nor a template
    value is the one written; otherwise the value of the file is kept when
    it is neither empty nor a template value; otherwise the template value
    is written.  The address of Ollama of the file is kept, the default
    is written when the file has none, and every other key keeps what it
    had.  A key is reported as valid exactly when the window or the file
    gave it a usable value. *)
Theorem env_merge_semantics (E : Env) (d : list (string * string))
    (keys : EnvFile.ApiKeys) (url key : string) :
  let merged := EnvFile.merge E d keys url in
  EnvFile.dict_get merged key
  = match EnvFile.dict_get (EnvFile.gui_api_keys E keys) key with
    | Some gui_value =>
        Some (if EnvFile.is_valid gui_value then gui_value
              else match EnvFile.dict_get d key with
                   | Some value =>
                       if EnvFile.is_valid value then value
                       else EnvFile.placeholder key
                   | None => EnvFile.placeholder key
                   end)
    | None =>
        if decide (key = "OLLAMA_BASE_URL")
        then Some (default url (EnvFile.dict_get d key))
        else EnvFile.dict_get d key
    end
  ∧ (key ∈ EnvFile.valid_keys merged ↔
     ∃ gui_value,
       EnvFile.dict_get (EnvFile.gui_api_keys E keys) key = Some gui_value
       ∧ (EnvFile.is_valid gui_value = true
          ∨ ∃ value, EnvFile.dict_get d key = Some value
                     ∧ EnvFile.is_valid value = true)).
Proof.
  cbv zeta. split; [apply merge_get|].
  unfold EnvFile.valid_keys. rewrite list_elem_of_In, List.filter_In.
  rewrite <- list_elem_of_In, merge_get.
  rewrite <- (gui_api_keys_names E keys).
  split.
  - intros [Hin Hv].
    destruct (EnvFile.dict_get (EnvFile.gui_api_keys E keys) key)
      as [g|] eqn:Hg.
    2:{ apply dict_get_None in Hg. done. }
    exists g. split; [done|]. unfold EnvFile.merged_value in Hv.
    destruct (EnvFile.is_valid g); [by left|right].
    destruct (EnvFile.dict_get d key) as [v|];
      [|by rewrite is_valid_placeholder in Hv].
    destruct (EnvFile.is_valid v) eqn:Hvv;
      [by exists v|by rewrite is_valid_placeholder in Hv].
  - intros (g & Hg & Hv). rewrite Hg. split.
    + destruct (decide (key ∈ (EnvFile.gui_api_keys E keys).*1)); [done|].
      apply dict_get_None in n. congruence.
    + unfold EnvFile.merged_value.
      destruct (EnvFile.is_valid g) eqn:Hgv; [done|].
      destruct Hv as [?|(v & -> & Hv)]; [done|]. by rewrite Hv.
Qed.

Lemma merge_idempotent (E : Env) (d : list (string * string))
    (keys : EnvFile.ApiKeys) (url url' : string) :
  EnvFile.merge E (EnvFile.merge E d keys url) keys url'
  = EnvFile.merge E d keys url.
Proof.
  set (m := EnvFile.merge E d keys url).
  assert (Hfix : foldl EnvFile.merge_key m (EnvFile.gui_api_keys E keys) = m).
  { apply foldl_merge_key_fixed, Forall_forall. intros [key g] Hin.
    assert (Hg : EnvFile.dict_get (EnvFile.gui_api_keys E keys) key = Some g).
    { revert Hin. unfold EnvFile.gui_api_keys.
      rewrite !elem_of_cons, elem_of_nil.
      intros [H|[H|[H|[H|[H|[H|[]]]]]]]; by injection H as -> ->. }
    pose proof (merge_get E d keys url key) as Hm. rewrite Hg in Hm.
    fold m in Hm. unfold EnvFile.merge_key. rewrite Hm.
    unfold EnvFile.merged_value in *.
    destruct (EnvFile.is_valid g) eqn:Hgv; [by apply dict_set_same|].
    destruct (EnvFile.dict_get d key) as [v|].
    - destruct (EnvFile.is_valid v) eqn:Hv; [by rewrite Hv|].
      rewrite is_valid_placeholder. by apply dict_set_same.
    - rewrite is_valid_placeholder. by apply dict_set_same. }
  unfold EnvFile.merge at 1. rewrite Hfix.
  pose proof (merge_get E d keys url "OLLAMA_BASE_URL") as Ho.
  rewrite gui_api_keys_ollama, decide_True in Ho by done. fold m in Ho.
  by rewrite Ho.
Qed.

(** X15: saving twice changes nothing: the merge of the same window into
    a dictionary that is already merged returns that dictionary, entry
    for entry and in the same order, whatever [get_ollama_base_url]
    returns the second time. *)
Theorem env_merge_idempotent (E : Env) (d : list (string * string))
    (keys : EnvFile.ApiKeys) (url url' : string) :
  EnvFile.merge E (EnvFile.merge E d keys url) keys url'
  = EnvFile.merge E d keys url.
Proof. apply merge_idempotent. Qed.

(** X16: what is written.  After the three lines of the heading come the
    six API keys and the address of Ollama, always all seven and always
    in this order, each with the value it has after the merge, then the
    entries of the other keys of the dictionary that was read, in the
    order they had there. *)
Theorem env_content_layout (E : Env) (d : list (string * string))
    (keys : EnvFile.ApiKeys) (url lang : string) :
  let merged := EnvFile.merge E d keys url in
  ∃ values : list string,
    length values = 7%nat
    ∧ Forall2 (λ key value, EnvFile.dict_get merged key = Some value)
        EnvFile.priority_keys values
    ∧ EnvFile.env_content lang merged
      = EnvFile.env_content lang []
        ++ zip_with (λ key value, key +:+ "=" +:+ value)
             EnvFile.priority_keys values
        ++ ((λ item, item.1 +:+ "=" +:+ item.2)
              <$> filter (λ item, item.1 ∉ EnvFile.priority_keys) d).
Proof.
  cbv zeta. set (m := EnvFile.merge E d keys url).
  assert (Hall : ∀ key, key ∈ EnvFile.priority_keys →
                        is_Some (EnvFile.dict_get m key)).
  { intros key Hkey. unfold m. rewrite merge_get.
    destruct (EnvFile.dict_get (EnvFile.gui_api_keys E keys) key) eqn:Hg;
      [done|].
    apply dict_get_None in Hg. rewrite gui_api_keys_names in Hg.
    unfold EnvFile.priority_keys in Hkey.
    apply elem_of_app in Hkey as [?|Hk]; [done|].
    apply list_elem_of_singleton in Hk as ->. by rewrite decide_True. }
  exists ((λ key, default "" (EnvFile.dict_get m key))
            <$> EnvFile.priority_keys).
  split; [done|]. split.
  - apply Forall2_fmap_r, Forall_Forall2_diag, Forall_forall.
    intros key Hkey. unfold compose. by destruct (Hall key Hkey) as [v ->].
  - assert (Hhead : ∀ m' : list (string * string),
      EnvFile.env_content lang m'
      = EnvFile.env_content lang []
        ++ omap (λ key, (λ value, key +:+ "=" +:+ value)
                          <$> EnvFile.dict_get m' key) EnvFile.priority_keys
        ++ ((λ item, item.1 +:+ "=" +:+ item.2)
              <$> filter (λ item, item.1 ∉ EnvFile.priority_keys) m')).
    { intros m'. unfold EnvFile.env_content.
      destruct (String.eqb lang "en"); reflexivity. }
    rewrite Hhead. f_equal. unfold m at 2. rewrite merge_filter. f_equal.
    revert Hall. generalize EnvFile.priority_keys.
    induction l as [|key l IH]; intros Hall; [done|].
    cbn [omap list_omap fmap list_fmap zip_with].
    destruct (Hall key) as [v Hv]; [by left|]. rewrite Hv.
    cbn [fmap option_fmap option_map default from_option id]. f_equal.
    apply IH. intros k Hk. apply Hall. by right.
Qed.


(** *** Reading back what was written *)

Section ReadBack.
Import EnvFile.

Lemma prefix_empty (s : string) : String.prefix "" s = true.
Proof. by destruct s. Qed.

Lemma prefix_cons (a c : ascii) (p s : string) :
  String.prefix (String a p) (String c s)
  = if ascii_dec a c then String.prefix p s else false.
Proof. cbn. by destruct (ascii_dec a c). Qed.

Lemma is_empty_append (k s : string) :
  is_empty k = false → is_empty (k +:+ s) = false.
Proof. by destruct k. Qed.

Lemma prefix_hash_append (k s : string) :
  is_empty k = false →
  String.prefix "#" (k +:+ s) = String.prefix "#" k.
Proof.
  destruct k as [|c k]; [done|]. intros _.
  change (String c k +:+ s) with (String c (k +:+ s)).
  rewrite !prefix_cons. destruct (ascii_dec "#" c); [|done].
  by rewrite !prefix_empty.
Qed.

Lemma contains_append (k v : string) :
  contains "=" (k +:+ "=" +:+ v) = true.
Proof.
  induction k as [|c k IH]; [done|].
  change (String c k +:+ "=" +:+ v) with (String c (k +:+ "=" +:+ v)).
  cbn [contains]. rewrite IH. apply orb_true_r.
Qed.

Lemma split_first_append (k v : string) :
  contains "=" k = false → split_first "=" (k +:+ "=" +:+ v) = (k, v).
Proof.
  induction k as [|c k IH]; [done|].
  change (String c k +:+ "=" +:+ v) with (String c (k +:+ "=" +:+ v)).
  cbn [contains split_first].
  destruct (Ascii.eqb c "=") eqn:Hc; [done|]. cbn [orb]. intros Hk.
  by rewrite IH.
Qed.

Context (E : Env).

Lemma read_line_entry acc (item : string * string) :
  str_strip E (item.1 +:+ "=" +:+ item.2) = item.1 +:+ "=" +:+ item.2 →
  clean E item →
  read_line E acc (item.1 +:+ "=" +:+ item.2) = dict_set acc item.1 item.2.
Proof.
  intros Hline (Hk & Hv & Hne & Hhash & Heq). unfold read_line. rewrite Hline.
  rewrite is_empty_append, prefix_hash_append, Hhash, contains_append by done.
  cbn [negb andb]. by rewrite split_first_append, Hk, Hv.
Qed.

Lemma foldl_read_line_entries (items : list (string * string)) :
  ∀ acc,
    Forall (λ line, str_strip E line = line)
      ((λ item, item.1 +:+ "=" +:+ item.2) <$> items) →
    Forall (clean E) items →
    foldl (read_line E) acc ((λ item, item.1 +:+ "=" +:+ item.2) <$> items)
    = foldl (λ acc item, dict_set acc item.1 item.2) acc items.
Proof.
  induction items as [|item items IH]; intros acc Hl Hc; [done|].
  cbn [fmap list_fmap] in Hl. apply Forall_cons in Hl as [Hl Hls].
  apply Forall_cons in Hc as [Hc Hcs]. cbn [fmap list_fmap foldl].
  rewrite read_line_entry by done. by apply IH.
Qed.

Lemma foldl_dict_set_fresh (items : list (string * string)) :
  ∀ acc : dict,
    NoDup (acc.*1 ++ items.*1) →
    foldl (λ acc item, dict_set acc item.1 item.2) acc items = acc ++ items.
Proof.
  induction items as [|[k v] items IH]; intros acc Hnd.
  { by rewrite app_nil_r. }
  cbn [foldl fst snd]. cbn [fmap list_fmap fst] in Hnd.
  assert (Hk : dict_set acc k v = acc ++ [(k, v)]).
  { apply NoDup_app in Hnd as (_ & Hdisj & _).
    assert (k ∉ acc.*1) as Hout by (intros Hin; apply (Hdisj k Hin); by left).
    clear -Hout. induction acc as [|[k0 v0] acc IHa]; [done|].
    cbn [fmap list_fmap fst] in Hout. apply not_elem_of_cons in Hout as [? ?].
    cbn [dict_set]. destruct (String.eqb_spec k0 k); [congruence|].
    cbn [app]. by rewrite IHa. }
  rewrite Hk, IH.
  - by rewrite <- app_assoc.
  - rewrite fmap_app. cbn [fmap list_fmap fst]. by rewrite <- app_assoc.
Qed.

Lemma env_content_entries lang d :
  env_content lang d
  = env_content lang []
    ++ ((λ item, item.1 +:+ "=" +:+ item.2) <$> entries d).
Proof.
  unfold entries. rewrite fmap_app.
  assert (Hom : ∀ l : list string,
    (λ item : string * string, item.1 +:+ "=" +:+ item.2)
      <$> omap (λ key, (λ value, (key, value)) <$> dict_get d key) l
    = omap (λ key, (λ value, key +:+ "=" +:+ value) <$> dict_get d key) l).
  { induction l as [|key l IH]; [done|]. cbn [omap list_omap].
    destruct (dict_get d key); cbn [fmap option_fmap option_map];
      [cbn [fmap list_fmap]; by rewrite <- IH|done]. }
  rewrite Hom. unfold env_content.
  destruct (String.eqb lang "en"); reflexivity.
Qed.

Lemma dict_get_elem (d : dict) (k v : string) :
  dict_get d k = Some v → (k, v) ∈ d.
Proof.
  induction d as [|[k0 v0] d IH]; [done|]. cbn [dict_get].
  destruct (String.eqb_spec k0 k) as [->|].
  - intros [= ->]. by left.
  - intros H. right. by apply IH.
Qed.

Lemma entries_subset d item : item ∈ entries d → item ∈ d.
Proof.
  unfold entries. rewrite elem_of_app. intros [H|H].
  - apply list_elem_of_omap in H as (key & _ & H).
    destruct (dict_get d key) as [v|] eqn:Hv; [|done].
    injection H as <-. by apply dict_get_elem.
  - by apply list_elem_of_filter in H as [_ ?].
Qed.

Lemma entries_keys d :
  (entries d).*1
  = filter (λ key, is_Some (dict_get d key)) priority_keys
    ++ filter (λ key, key ∉ priority_keys) d.*1.
Proof.
  unfold entries. rewrite fmap_app. f_equal.
  - induction priority_keys as [|key l IH]; [done|]. cbn [omap list_omap].
    rewrite filter_cons. destruct (dict_get d key) as [v|].
    + cbn [fmap option_fmap option_map list_fmap fst].
      rewrite decide_True by done. by f_equal.
    + cbn [fmap option_fmap option_map]. by rewrite decide_False by by intros [].
  - induction d as [|[k v] d IH]; [done|]. cbn [fmap list_fmap fst].
    rewrite !filter_cons. cbn [fst].
    destruct (decide (k ∉ priority_keys)); [|done].
    cbn [fmap list_fmap fst]. by f_equal.
Qed.

Lemma entries_NoDup d : NoDup d.*1 → NoDup (entries d).*1.
Proof.
  intros Hnd. rewrite entries_keys. apply NoDup_app. split; [|split].
  - apply NoDup_filter. by apply (bool_decide_unpack _).
  - intros key [_ Hin]%list_elem_of_filter [Hout _]%list_elem_of_filter. done.
  - by apply NoDup_filter.
Qed.

Lemma dict_get_app (d1 d2 : dict) (k : string) :
  dict_get (d1 ++ d2) k
  = match dict_get d1 k with Some v => Some v | None => dict_get d2 k end.
Proof.
  induction d1 as [|[k0 v0] d1 IH]; [done|]. cbn [app dict_get].
  by destruct (String.eqb k0 k).
Qed.

Lemma dict_get_filter_others (d : dict) (k : string) :
  dict_get (filter (λ item, item.1 ∉ priority_keys) d) k
  = if decide (k ∈ priority_keys) then None else dict_get d k.
Proof.
  induction d as [|[k0 v0] d IH].
  { by destruct (decide _). }
  rewrite filter_cons. cbn [fst dict_get].
  destruct (decide (k0 ∉ priority_keys)) as [Hout|Hin]; cbn [dict_get].
  - destruct (String.eqb_spec k0 k) as [->|]; [|apply IH].
    by rewrite decide_False.
  - rewrite IH. destruct (String.eqb_spec k0 k) as [->|]; [|done].
    by rewrite !decide_True by by apply dec_stable.
Qed.

Lemma dict_get_entries (d : dict) (k : string) :
  dict_get (entries d) k = dict_get d k.
Proof.
  unfold entries. rewrite dict_get_app, dict_get_filter_others.
  assert (Hp : ∀ l : list string,
    dict_get (omap (λ key, (λ value, (key, value)) <$> dict_get d key) l) k
    = if decide (k ∈ l) then dict_get d k else None).
  { induction l as [|key l IH].
    { by rewrite decide_False by apply not_elem_of_nil. }
    cbn [omap list_omap]. destruct (dict_get d key) as [v|] eqn:Hv.
    - cbn [fmap option_fmap option_map dict_get].
      destruct (String.eqb_spec key k) as [->|Hne].
      + by rewrite decide_True by by left.
      + rewrite IH. destruct (decide (k ∈ l)).
        * by rewrite decide_True by by right.
        * rewrite decide_False; [done|].
          intros [?|?]%elem_of_cons; [congruence|done].
    - cbn [fmap option_fmap option_map]. rewrite IH.
      destruct (decide (k ∈ l)).
      + by rewrite decide_True by by right.
      + destruct (decide (k ∈ key :: l)) as [[->|?]%elem_of_cons|]; done. }
  rewrite Hp. destruct (decide (k ∈ priority_keys)); [|done].
  by destruct (dict_get d k).
Qed.

Lemma filter_entries (d : dict) :
  filter (λ item, item.1 ∉ priority_keys) (entries d)
  = filter (λ item, item.1 ∉ priority_keys) d.
Proof.
  unfold entries. rewrite filter_app.
  assert (Hp : ∀ l : list string, (∀ key, key ∈ l → key ∈ priority_keys) →
    filter (λ item : string * string, item.1 ∉ priority_keys)
      (omap (λ key, (λ value, (key, value)) <$> dict_get d key) l) = []).
  { induction l as [|key l IH]; intros Hl; [done|]. cbn [omap list_omap].
    destruct (dict_get d key) as [v|]; cbn [fmap option_fmap option_map].
    - rewrite filter_cons, decide_False.
      + apply IH. intros k Hk. apply Hl. by right.
      + intros Hn. apply Hn, Hl. by left.
    - apply IH. intros k Hk. apply Hl. by right. }
  rewrite Hp by done. cbn [app].
  generalize d. clear. intros d.
  induction d as [|[k v] d IH]; [done|]. rewrite !filter_cons. cbn [fst].
  destruct (decide (k ∉ priority_keys)); [|done].
  rewrite filter_cons, decide_True by done. by f_equal.
Qed.

Lemma read_lines_header lang :
  Forall (λ line, str_strip E line = line) (env_content lang []) →
  read_lines E (env_content lang []) = [].
Proof.
  unfold read_lines, env_content.
  destruct (String.eqb lang "en"); cbn [app omap list_omap fmap list_fmap];
    intros (H1 & (H2 & (H3 & _)%Forall_cons)%Forall_cons)%Forall_cons;
    cbn [foldl]; unfold read_line; by rewrite H1, H2, H3.
Qed.

(** The dictionary read from the lines that are written. *)
Lemma read_lines_content lang (d : dict) :
  NoDup d.*1 →
  Forall (λ line, str_strip E line = line) (env_content lang d) →
  Forall (clean E) d →
  read_lines E (env_content lang d) = entries d.
Proof.
  intros Hnd Hlines Hclean. rewrite env_content_entries in Hlines |- *.
  apply Forall_app in Hlines as [Hh Hl].
  unfold read_lines. rewrite foldl_app.
  fold (read_lines E (env_content lang [])).
  rewrite read_lines_header by done.
  rewrite foldl_read_line_entries; [|done|].
  - apply (foldl_dict_set_fresh _ []). by apply entries_NoDup.
  - apply Forall_forall. intros item Hin%entries_subset.
    by apply (proj1 (Forall_forall _ _) Hclean).
Qed.

Lemma read_env_NoDup (file : string) : NoDup (read_env E file).*1.
Proof.
  unfold read_env, read_lines.
  assert (NoDup (@nil (string * string)).*1) as Hnil by constructor.
  revert Hnil. generalize (@nil (string * string)).
  induction (file_lines file) as [|line lines IH]; intros acc Hacc; [done|].
  cbn [foldl]. apply IH. unfold read_line.
  destruct (_ && _); [|done]. destruct (split_first _ _).
  by apply dict_set_NoDup.
Qed.

Lemma merge_NoDup (d : dict) keys url :
  NoDup d.*1 → NoDup (merge E d keys url).*1.
Proof.
  intros Hnd. unfold merge.
  destruct (dict_get _ "OLLAMA_BASE_URL");
    [|apply dict_set_NoDup]; by apply foldl_merge_key_NoDup.
Qed.

(** The merge looks at the dictionary through its entries only. *)
Lemma merge_get_ext (d d' : dict) keys url key :
  (∀ k, dict_get d k = dict_get d' k) →
  dict_get (merge E d keys url) key = dict_get (merge E d' keys url) key.
Proof.
  intros Hd. rewrite !merge_get. unfold merged_value. by rewrite !Hd.
Qed.

Lemma env_content_ext lang (d d' : dict) :
  (∀ k, dict_get d k = dict_get d' k) →
  filter (λ item, item.1 ∉ priority_keys) d
  = filter (λ item, item.1 ∉ priority_keys) d' →
  env_content lang d = env_content lang d'.
Proof.
  intros Hd Hf. unfold env_content. rewrite Hf.
  assert (Hom : ∀ l : list string,
    omap (λ key, (λ value, key +:+ "=" +:+ value) <$> dict_get d key) l
    = omap (λ key, (λ value, key +:+ "=" +:+ value) <$> dict_get d' key) l).
  { induction l as [|key l IH]; [done|]. cbn [omap list_omap].
    rewrite Hd. destruct (dict_get d' key);
      cbn [fmap option_fmap option_map]; [f_equal|]; apply IH. }
  by rewrite Hom.
Qed.

(** *** The lines of the file that is written *)

Lemma written_app p (s t : string) :
  written p (s +:+ t) = written p s +:+ written p t.
Proof.
  induction s as [|c s IH]; [done|].
  change (String c s +:+ t) with (String c (s +:+ t)). cbn [written].
  rewrite IH. destruct (Ascii.eqb c "010"); [|done].
  by destruct p; cbn.
Qed.

(** A line without line feed and carriage return is written as it is,
    and read up to the line end that follows it. *)
Lemma written_one_line p (s : string) :
  contains "010" s = false → written p s = s.
Proof.
  induction s as [|c s IH]; [done|]. cbn [contains written].
  destruct (Ascii.eqb c "010"); [done|]. cbn [orb]. intros H. by rewrite IH.
Qed.

Lemma file_lines_line p (s t : string) :
  contains "010" s = false → contains "013" s = false →
  file_lines (s +:+ linesep p +:+ t) = (s +:+ LF) :: file_lines t.
Proof.
  induction s as [|c s IH].
  { intros _ _. by destruct p. }
  change (String c s +:+ linesep p +:+ t)
    with (String c (s +:+ linesep p +:+ t)).
  cbn [contains file_lines].
  destruct (Ascii.eqb c "010"); [done|].
  destruct (Ascii.eqb c "013"); [done|]. cbn [orb]. intros H1 H2.
  by rewrite IH.
Qed.

Lemma file_lines_last (s : string) :
  contains "010" s = false → contains "013" s = false →
  file_lines s = if is_empty s then [] else [s].
Proof.
  induction s as [|c s IH]; [done|]. cbn [contains file_lines is_empty].
  destruct (Ascii.eqb c "010"); [done|].
  destruct (Ascii.eqb c "013"); [done|]. cbn [orb]. intros H1 H2.
  rewrite IH by done. by destruct s.
Qed.

Lemma read_line_LF acc (line : string) :
  one_line E line → read_line E acc (line +:+ LF) = read_line E acc line.
Proof. intros (_ & _ & H1 & H2). unfold read_line. by rewrite H1, H2. Qed.

Lemma read_line_empty acc : one_line E "" → read_line E acc "" = acc.
Proof. intros (_ & _ & H & _). unfold read_line. by rewrite H. Qed.

(** Reading the file that holds the lines [lines], joined by line feeds
    and written on the platform [p], is reading these lines. *)
Lemma read_written_lines p (lines : list string) :
  Forall (one_line E) lines →
  ∀ acc,
    foldl (read_line E) acc (file_lines (written p (join LF lines)))
    = foldl (read_line E) acc lines.
Proof.
  induction lines as [|line lines IH]; [done|].
  intros [Hline Hlines]%Forall_cons acc.
  pose proof Hline as (Hlf & Hcr & _).
  destruct lines as [|line' lines].
  - cbn [join foldl]. rewrite written_one_line, file_lines_last by done.
    destruct line; [|done]. cbn [is_empty foldl].
    by rewrite read_line_empty.
  - change (join LF (line :: line' :: lines))
      with (line +:+ LF +:+ join LF (line' :: lines)).
    rewrite !written_app, written_one_line by done.
    change (written p LF) with (linesep p +:+ "").
    replace (linesep p +:+ "") with (linesep p) by by destruct p.
    rewrite file_lines_line by done.
    cbn [foldl]. rewrite read_line_LF by done. by apply IH.
Qed.

(** The dictionary read from a file that was written. *)
Lemma read_env_written p lang (d : dict) :
  NoDup d.*1 →
  Forall (one_line E) (env_content lang d) →
  Forall (clean E) d →
  read_env E (written p (join LF (env_content lang d))) = entries d.
Proof.
  intros Hnd Hlines Hclean. unfold read_env, read_lines.
  rewrite read_written_lines by done.
  apply read_lines_content; [done| |done].
  eapply Forall_impl; [exact Hlines|]. by intros line (_ & _ & ? & _).
Qed.

End ReadBack.


(** X17: the file that is written is read back as it was written.  When
    every line that is written is one line of the file (it holds no line
    feed and no carriage return, and [strip] removes the line feed after
    it and nothing else), [strip] leaves the keys and the values that are
    written as they are, and no key is empty, starts a comment or holds
    ["="], the dictionary read from the new file holds the entries that
    were merged, each with its value, in the order of the file, whether
    the line feeds are written as such or as carriage return and line
    feed. *)
Theorem env_file_round_trip (E : Env) (p : EnvFile.platform) (file : string)
    (keys : EnvFile.ApiKeys) (url lang : string) :
  let written := EnvFile.merge E (EnvFile.read_env E file) keys url in
  let new_file := EnvFile.create_env_file E p file keys url lang in
  Forall (EnvFile.one_line E) (EnvFile.env_content lang written) →
  Forall (EnvFile.clean E) written →
  EnvFile.read_env E new_file = EnvFile.entries written
  ∧ ∀ key, EnvFile.dict_get (EnvFile.read_env E new_file) key
           = EnvFile.dict_get written key.
Proof.
  cbv zeta. unfold EnvFile.create_env_file. intros Hl Hc.
  rewrite read_env_written;
    [|apply merge_NoDup, read_env_NoDup|done|done].
  split; [done|]. intros key. apply dict_get_entries.
Qed.

(** X18: saving again rewrites the same file.  Under the conditions of
    the round trip, [create_env_file] run on the file it has written, with
    the same window, writes that file again, character for character. *)
Theorem env_file_fixed_point (E : Env) (p : EnvFile.platform) (file : string)
    (keys : EnvFile.ApiKeys) (url url' lang : string) :
  let written := EnvFile.merge E (EnvFile.read_env E file) keys url in
  let new_file := EnvFile.create_env_file E p file keys url lang in
  Forall (EnvFile.one_line E) (EnvFile.env_content lang written) →
  Forall (EnvFile.clean E) written →
  EnvFile.create_env_file E p new_file keys url' lang = new_file.
Proof.
  cbv zeta. unfold EnvFile.create_env_file. intros Hl Hc.
  rewrite read_env_written;
    [|apply merge_NoDup, read_env_NoDup|done|done].
  set (w := EnvFile.merge E (EnvFile.read_env E file) keys url).
  f_equal. f_equal. apply env_content_ext.
  - intros k.
    rewrite (merge_get_ext E (EnvFile.entries w) w keys url' k
               (dict_get_entries w)).
    unfold w. by rewrite merge_idempotent.
  - by rewrite merge_filter, filter_entries.
Qed.


Lemma env_file_round_trip_witness :
  let E := Data.env_with (PyStr Data.well_formed) in
  let file :=
    EnvFile.join (EnvFile.linesep EnvFile.Windows)
      ["# my keys"; "OPENAI_API_KEY = sk-test "; "MY_SETTING=1"; "";
       "GROQ_API_KEY=your_groq_api_key_here"] in
  let keys := EnvFile.mk_keys "" " gsk-live" "" "" "" "" in
  EnvFile.read_env E
    (EnvFile.create_env_file E EnvFile.Windows file keys
       "http://localhost:11434" "en")
  = [("OPENAI_API_KEY", "sk-test"); ("GROQ_API_KEY", "gsk-live");
     ("ANTHROPIC_API_KEY", "your_anthropic_api_key_here");
     ("DEEPSEEK_API_KEY", "your_deepseek_api_key_here");
     ("GOOGLE_API_KEY", "your_google_api_key_here");
     ("FINANCIAL_DATASETS_API_KEY", "your_financial_datasets_api_key_here");
     ("OLLAMA_BASE_URL", "http://localhost:11434"); ("MY_SETTING", "1")].
Proof.
  cbv zeta.
  refine (eq_trans
    (proj1 (env_file_round_trip (Data.env_with (PyStr Data.well_formed))
              EnvFile.Windows
              (EnvFile.join (EnvFile.linesep EnvFile.Windows)
                 ["# my keys"; "OPENAI_API_KEY = sk-test "; "MY_SETTING=1"; "";
                  "GROQ_API_KEY=your_groq_api_key_here"])
              (EnvFile.mk_keys "" " gsk-live" "" "" "" "")
              "http://localhost:11434" "en" _ _)) _).
  - unfold EnvFile.one_line. apply (bool_decide_unpack _).
    vm_compute. exact I.
  - unfold EnvFile.clean. apply (bool_decide_unpack _). vm_compute. exact I.
  - vm_compute. reflexivity.
Defined.

Lemma env_file_fixed_point_witness :
  let E := Data.env_with (PyStr Data.well_formed) in
  let file :=
    EnvFile.join EnvFile.LF
      ["# my keys"; "OPENAI_API_KEY = sk-test "; "MY_SETTING=1"; "";
       "GROQ_API_KEY=your_groq_api_key_here"] in
  let keys := EnvFile.mk_keys "" " gsk-live" "" "" "" "" in
  let new_file :=
    EnvFile.create_env_file E EnvFile.Posix file keys
      "http://localhost:11434" "en" in
  EnvFile.create_env_file E EnvFile.Posix new_file keys
    "http://127.0.0.1:11434" "en"
  = new_file.
Proof.
  cbv zeta.
  apply (env_file_fixed_point (Data.env_with (PyStr Data.well_formed))
           EnvFile.Posix
           (EnvFile.join EnvFile.LF
              ["# my keys"; "OPENAI_API_KEY = sk-test "; "MY_SETTING=1"; "";
               "GROQ_API_KEY=your_groq_api_key_here"])
           (EnvFile.mk_keys "" " gsk-live" "" "" "" "")
           "http://localhost:11434" "http://127.0.0.1:11434" "en").
  - unfold EnvFile.one_line. apply (bool_decide_unpack _).
    vm_compute. exact I.
  - unfold EnvFile.clean. apply (bool_decide_unpack _). vm_compute. exact I.
Defined.

(** A value of the window that holds a line feed is written on two lines
    and is not read back: it is not one line of the file. *)
Lemma value_with_line_feed_is_split :
  let E := Data.env_with (PyStr Data.well_formed) in
  let keys :=
    EnvFile.mk_keys "" ("gsk" +:+ EnvFile.LF +:+ "live=1") "" "" "" "" in
  let new_file := EnvFile.create_env_file E EnvFile.Posix "" keys "u" "en" in
  EnvFile.dict_get (EnvFile.merge E [] keys "u") "GROQ_API_KEY"
  = Some ("gsk" +:+ EnvFile.LF +:+ "live=1")
  ∧ EnvFile.dict_get (EnvFile.read_env E new_file) "GROQ_API_KEY" = Some "gsk"
  ∧ EnvFile.dict_get (EnvFile.read_env E new_file) "live" = Some "1".
Proof. cbv zeta. repeat split; vm_compute; reflexivity. Qed.

(** ** The form and the engine *)

(** X19: the form and the engine check the dates alike, up to the
    surrounding blanks.  The form checks the stripped dates, the launcher
    passes them as typed: when [validate_inputs] accepts a form whose
    dates carry no surrounding blanks, the date check of
    [run_hedge_fund_gui] on these dates raises nothing. *)
Theorem accepted_form_passes_date_check (E : Env) (form : Form) :
  validate_inputs E form = Valid →
  str_strip E (start_date_var form) = start_date_var form →
  str_strip E (end_date_var form) = end_date_var form →
  validate_dates E (start_date_var form) (end_date_var form)
  = ([], Returns ()).
Proof.
  intros Hv Hs He. rewrite (M_eta (validate_dates _ _ _)).
  rewrite trace_validate_dates, result_validate_dates. f_equal.
  revert Hv. unfold validate_inputs, check_date, date_ok. rewrite Hs, He.
  destruct (is_empty (str_strip E (ticker_var form))); [done|].
  destruct ((filter _ _).*1); [done|].
  destruct (float_of_str E (initial_cash_var form)) as [c|]; [|done].
  destruct (c <=? 0)%float; [done|].
  destruct (float_of_str E (margin_requirement_var form)) as [m|]; [|done].
  destruct ((m <? 0)%float || (1 <? m)%float); [done|].
  destruct (is_empty (start_date_var form)); cbn [orb].
  - destruct (is_empty (end_date_var form)); cbn [orb]; [done|].
    destruct (strptime E (end_date_var form)); [|done].
    by rewrite bool_decide_true.
  - destruct (strptime E (start_date_var form)); [|done].
    rewrite bool_decide_true by done.
    destruct (is_empty (end_date_var form)); cbn [orb]; [done|].
    destruct (strptime E (end_date_var form)); [|done].
    by rewrite bool_decide_true.
Qed.

Lemma accepted_form_passes_date_check_witness :
  let E := Data.env_with (PyStr Data.well_formed) in
  validate_dates E "2024-01-01" "" = ([], Returns ())
  ∧ validate_inputs E
      (mk_form "AAPL" [("warren_buffett", true)] "100000.0" "0.5"
         " 2024-01-01" "")
    = Valid
  ∧ result (validate_dates E " 2024-01-01" "")
    = raise ValueError "开始日期必须为YYYY-MM-DD格式".
Proof.
  cbv zeta. split; [|split; by vm_compute].
  apply (accepted_form_passes_date_check
           (Data.env_with (PyStr Data.well_formed))
           (mk_form "AAPL" [("warren_buffett", true)] "100000.0" "0.5"
              "2024-01-01" "")); by vm_compute.
Defined.

(** ** The console *)

Lemma mret_bind {B} (k : M B) : (mret () ≫= λ _ : (), k) = k.
Proof. destruct k as [t r]. done. Qed.

Lemma bind_ext {A B} (m : M A) (f g : A → M B) :
  (∀ a, f a = g a) → m ≫= f = m ≫= g.
Proof. intros H. destruct m as [t [a|e]]; [|done]. cbn. by rewrite H. Qed.

Lemma try_except_ext {A} (m : M A) (h h' : exn → M A) :
  (∀ e, h e = h' e) → try_except m h = try_except m h'.
Proof. intros H. destruct m as [t [a|e]]; [done|]. cbn. by rewrite H. Qed.

Lemma try_except_Returns {A} (m : M A) (h : exn → M A) :
  (∀ e, result m ≠ Raises e) → try_except m h = m.
Proof.
  intros H. destruct m as [t [a|e]]; [done|]. by destruct (H e).
Qed.

Section Accepting.
Context (E : Env) (print : Console.line → outcome ()).
Hypothesis accepts : ∀ l, print l = Returns ().

Lemma say_bind {B} (l : Console.line) (k : M B) :
  (Console.say print l ≫= λ _ : (), k) = k.
Proof. unfold Console.say. rewrite accepts. apply mret_bind. Qed.

Lemma say_accepted (l : Console.line) : Console.say print l = mret ().
Proof. unfold Console.say. by rewrite accepts. Qed.

Lemma console_parse response :
  Console.parse_hedge_fund_response E print response
  = parse_hedge_fund_response E response.
Proof.
  apply try_except_ext. intros e.
  destruct (is_instance e JSONDecodeError); [apply say_bind|].
  destruct (is_instance e TypeError); apply say_bind.
Qed.

Lemma console_run_hedge_fund tickers sd ed p sr sel mn mp :
  Console.run_hedge_fund E print tickers sd ed p sr sel mn mp
  = run_hedge_fund E tickers sd ed p sr sel mn mp.
Proof.
  unfold Console.run_hedge_fund, run_hedge_fund.
  apply bind_ext. intros _.
  apply (f_equal (λ b, try_finally b (emit EvProgressStop))).
  apply bind_ext. intros agent. apply bind_ext. intros fs.
  apply bind_ext. intros msg. by rewrite console_parse.
Qed.

Lemma console_resolve_selected_analysts sel :
  Console.resolve_selected_analysts E print sel
  = resolve_selected_analysts E sel.
Proof.
  unfold Console.resolve_selected_analysts, resolve_selected_analysts.
  destruct sel as [[|k l]|]; try done;
    apply try_except_ext; intros e;
    destruct (is_instance e ImportError); try done; apply say_bind.
Qed.

Lemma console_prepare tickers sd ed cash sel mn mp :
  Console.prepare E print tickers sd ed cash sel mn mp
  = prepare E sd ed sel.
Proof.
  unfold Console.prepare, prepare. rewrite say_bind.
  rewrite console_resolve_selected_analysts. apply bind_ext. intros l.
  rewrite !say_bind.
  assert (Hollama :
    (if String.eqb mp "Ollama"
     then Console.say print (Console.LOllamaModel mn)
     else mret ()) = mret ())
    by (destruct (String.eqb mp "Ollama"); [apply say_accepted|done]).
  rewrite Hollama, mret_bind. apply bind_ext. intros _.
  apply bind_ext. intros dates. by rewrite !say_bind.
Qed.

Lemma console_build_workflow sel :
  Console.build_workflow E print sel = build_workflow E sel.
Proof.
  apply try_except_ext. intros e. rewrite say_bind.
  apply bind_ext. intros _. apply say_bind.
Qed.

Lemma console_save_agent_graph show app sel :
  Console.save_agent_graph E print show app sel
  = save_agent_graph E show app sel.
Proof.
  unfold Console.save_agent_graph, save_agent_graph.
  destruct show; [|done].
  transitivity
    (try_except
       (emit (EvSaveGraph (graph_file_path sel));;
        lift (save_graph_as_png E app (graph_file_path sel)))
       (λ e, Console.say print (Console.LGraphFailed e);;
             emit (EvGraphFailed e))).
  - f_equal. cbv zeta. apply bind_ext. intros _. rewrite say_accepted.
    by destruct (save_graph_as_png E app _) as [[]|].
  - apply try_except_ext. intros e. apply say_bind.
Qed.

Lemma console_analyse tickers sd ed cash margin sr sel mn mp sg :
  Console.analyse E print tickers sd ed cash margin sr sel mn mp sg
  = analyse E tickers sd ed cash margin sr sel mn mp sg.
Proof.
  unfold Console.analyse, analyse. rewrite console_build_workflow.
  apply bind_ext. intros [app sel']. rewrite console_save_agent_graph.
  apply bind_ext. intros _. cbv zeta. rewrite !say_bind.
  rewrite console_run_hedge_fund. apply bind_ext. intros r.
  by rewrite !say_bind.
Qed.

Lemma console_error_envelope e :
  Console.error_envelope E print e = error_envelope E e.
Proof.
  unfold Console.error_envelope, error_envelope. rewrite say_bind.
  apply bind_ext. intros _. by rewrite !say_bind.
Qed.

(** On a console that accepts every line, the entry point with its
    prints is the entry point of [Engine]. *)
Lemma console_run_hedge_fund_gui tickers sd ed cash margin sr sel mn mp sg :
  Console.run_hedge_fund_gui E print tickers sd ed cash margin sr sel mn mp sg
  = run_hedge_fund_gui E tickers sd ed cash margin sr sel mn mp sg.
Proof.
  unfold Console.run_hedge_fund_gui, run_hedge_fund_gui, Console.body.
  rewrite !say_bind. rewrite console_prepare.
  transitivity
    (try_except
       ('(selected_analysts, (start_date, end_date)) ← prepare E sd ed sel;
        analyse E tickers start_date end_date cash margin sr
          selected_analysts mn mp sg)
       (Console.error_envelope E print)).
  - f_equal. apply bind_ext. intros [l [sd' ed']]. apply console_analyse.
  - apply try_except_ext. apply console_error_envelope.
Qed.

Lemma console_run_from_gui args_dict :
  Console.run_from_gui E print args_dict = run_from_gui E args_dict.
Proof.
  unfold Console.run_from_gui, run_from_gui, Console.call_run_hedge_fund_gui,
    call_run_hedge_fund_gui.
  destruct (kw_others args_dict); [|done].
  destruct (kw_tickers args_dict), (kw_start_date args_dict),
    (kw_end_date args_dict); try done.
  by rewrite console_run_hedge_fund_gui.
Qed.

End Accepting.

Section Handler.
Context (E : Env) (print : Console.line → outcome ()).

(** What the handler of the entry point does with the exception [e0]:
    it raises when one of its three prints does. *)
Lemma result_console_error_envelope e0 :
  result (Console.error_envelope E print e0)
  = (print (Console.LRunFailed e0);;
     print Console.LDetails;;
     print (Console.LTraceback (format_exc E e0));;
     Returns (ErrorEnvelope (exn_str e0) (format_exc E e0))).
Proof.
  unfold Console.error_envelope, Console.say. effects.
  destruct (print (Console.LRunFailed e0)) as [[]|]; effects;
    cbn [mbind outcome_bind]; [|done].
  destruct (print Console.LDetails) as [[]|]; effects;
    cbn [mbind outcome_bind]; [|done].
  by destruct (print (Console.LTraceback _)) as [[]|]; effects.
Qed.

Lemma result_console_run_hedge_fund_gui tickers sd ed cash margin sr sel mn mp
    sg :
  result (Console.run_hedge_fund_gui E print tickers sd ed cash margin sr sel
            mn mp sg)
  = (print Console.LStarted;;
     print Console.LRule;;
     match result (Console.body E print tickers sd ed cash margin sr sel mn
                     mp sg) with
     | Returns v => Returns v
     | Raises e0 => result (Console.error_envelope E print e0)
     end).
Proof.
  unfold Console.run_hedge_fund_gui, Console.say. effects.
  destruct (print Console.LStarted) as [[]|]; effects;
    cbn [mbind outcome_bind]; [|done].
  by destruct (print Console.LRule) as [[]|]; effects.
Qed.

(** The body of the entry point returns an analysis or raises. *)
Lemma result_console_body tickers sd ed cash margin sr sel mn mp sg v :
  result (Console.body E print tickers sd ed cash margin sr sel mn mp sg)
  = Returns v →
  ∃ r, v = Analysis r.
Proof.
  unfold Console.body. effects.
  destruct (result (Console.prepare _ _ _ _ _ _ _ _ _))
    as [[l [sd' ed']]|]; [|done].
  unfold Console.analyse. effects.
  destruct (result (Console.build_workflow _ _ _)) as [[app sel']|]; effects;
    [|done].
  destruct (result (Console.save_agent_graph _ _ _ _ _)); effects; [|done].
  unfold Console.say. effects.
  destruct (print Console.LRunning) as [[]|]; effects; [|done].
  destruct (print Console.LDashes) as [[]|]; effects; [|done].
  destruct (result (Console.run_hedge_fund _ _ _ _ _ _ _ _ _ _)) as [r|];
    effects; [|done].
  destruct (print Console.LBlankRule) as [[]|]; effects; [|done].
  destruct (print Console.LCompleted) as [[]|]; effects; [|done].
  destruct (print Console.LRule) as [[]|]; effects; [|done].
  destruct (print_trading_output E r) as [[]|]; effects; [|done].
  intros [= <-]. by exists r.
Qed.

Lemma result_console_run_from_gui args_dict :
  (∃ r, result (Console.run_from_gui E print args_dict)
        = Returns (Analysis r))
  ∨ (∃ e, result (Console.run_from_gui E print args_dict)
          = Returns (ErrorEnvelope (exn_str e) (format_exc E e))).
Proof.
  unfold Console.run_from_gui, Console.call_run_hedge_fund_gui.
  rewrite result_try_except.
  destruct (kw_others args_dict) as [|k ?]; effects.
  2:{ right. by eexists (mk_exn TypeError _). }
  destruct (kw_tickers args_dict), (kw_start_date args_dict),
    (kw_end_date args_dict); effects;
    try (right; by eexists (mk_exn TypeError _)).
  rewrite result_console_run_hedge_fund_gui.
  destruct (print Console.LStarted) as [[]|e1]; cbn [mbind outcome_bind];
    [|right; by exists e1].
  destruct (print Console.LRule) as [[]|e1]; cbn [mbind outcome_bind];
    [|right; by exists e1].
  destruct (result (Console.body _ _ _ _ _ _ _ _ _ _ _ _)) as [v|e0] eqn:Hb.
  - apply result_console_body in Hb as [r ->]. left. by exists r.
  - rewrite result_console_error_envelope.
    destruct (print (Console.LRunFailed e0)) as [[]|e1];
      cbn [mbind outcome_bind]; [|right; by exists e1].
    destruct (print Console.LDetails) as [[]|e1];
      cbn [mbind outcome_bind]; [|right; by exists e1].
    destruct (print (Console.LTraceback _)) as [[]|e1];
      cbn [mbind outcome_bind]; [|right; by exists e1].
    right. by exists e0.
Qed.

End Handler.

(** C9: the entry point [run_hedge_fund_gui] does raise across its
    boundary.  Its first two prints stand before the [try] and its
    handler prints before it returns: when the console refuses the first
    line the function raises before anything runs; it raises exactly when
    one of the two leading prints raises, or its body raises and one of
    the three prints of the handler raises; whenever it returns, it
    returns the analysis or the error dictionary of the exception of its
    body.  [run_from_gui], whose handler prints nothing, returns the
    analysis or an error dictionary on every console. *)
Theorem facade_raises_when_a_print_fails (E : Env)
    (print : Console.line → outcome ()) :
  (∀ tickers sd ed cash margin sr sel mn mp sg e,
     print Console.LStarted = Raises e →
     Console.run_hedge_fund_gui E print tickers sd ed cash margin sr sel mn
       mp sg
     = ([], Raises e))
  ∧ (∀ tickers sd ed cash margin sr sel mn mp sg e,
       result (Console.run_hedge_fund_gui E print tickers sd ed cash margin
                 sr sel mn mp sg) = Raises e
       ↔ print Console.LStarted = Raises e
         ∨ (print Console.LStarted = Returns ()
            ∧ print Console.LRule = Raises e)
         ∨ (print Console.LStarted = Returns ()
            ∧ print Console.LRule = Returns ()
            ∧ ∃ e0,
                result (Console.body E print tickers sd ed cash margin sr
                          sel mn mp sg) = Raises e0
                ∧ (print (Console.LRunFailed e0) = Raises e
                   ∨ (print (Console.LRunFailed e0) = Returns ()
                      ∧ print Console.LDetails = Raises e)
                   ∨ (print (Console.LRunFailed e0) = Returns ()
                      ∧ print Console.LDetails = Returns ()
                      ∧ print (Console.LTraceback (format_exc E e0))
                        = Raises e))))
  ∧ (∀ tickers sd ed cash margin sr sel mn mp sg v,
       result (Console.run_hedge_fund_gui E print tickers sd ed cash margin
                 sr sel mn mp sg) = Returns v →
       (∃ r, v = Analysis r
             ∧ result (Console.body E print tickers sd ed cash margin sr sel
                         mn mp sg) = Returns (Analysis r))
       ∨ (∃ e0, v = ErrorEnvelope (exn_str e0) (format_exc E e0)
                ∧ result (Console.body E print tickers sd ed cash margin sr
                            sel mn mp sg) = Raises e0))
  ∧ (∀ args_dict,
       (∃ r, result (Console.run_from_gui E print args_dict)
             = Returns (Analysis r))
       ∨ (∃ e, result (Console.run_from_gui E print args_dict)
               = Returns (ErrorEnvelope (exn_str e) (format_exc E e))))
  ∧ ((∀ l, print l = Returns ()) →
     ∀ tickers sd ed cash margin sr sel mn mp sg,
       Console.run_hedge_fund_gui E print tickers sd ed cash margin sr sel mn
         mp sg
       = run_hedge_fund_gui E tickers sd ed cash margin sr sel mn mp sg
       ∧ ∀ e, result (Console.run_hedge_fund_gui E print tickers sd ed cash
                        margin sr sel mn mp sg) ≠ Raises e).
Proof.
  split; [|split; [|split; [|split]]].
  - intros * H. unfold Console.run_hedge_fund_gui, Console.say.
    by rewrite H.
  - intros *. rewrite result_console_run_hedge_fund_gui.
    destruct (print Console.LStarted) as [[]|e1] eqn:H1;
      cbn [mbind outcome_bind].
    2:{ split; [intros [= ->]; by left|].
        intros [H|[[H _]|[H _]]]; congruence. }
    destruct (print Console.LRule) as [[]|e1] eqn:H2;
      cbn [mbind outcome_bind].
    2:{ split; [intros [= ->]; right; left; done|].
        intros [H|[[_ H]|(_ & H & _)]]; congruence. }
    destruct (result (Console.body _ _ _ _ _ _ _ _ _ _ _ _)) as [v|e0] eqn:Hb.
    { split; [done|]. intros [H|[[_ H]|(_ & _ & e0 & H & _)]]; congruence. }
    rewrite result_console_error_envelope.
    destruct (print (Console.LRunFailed e0)) as [[]|e1] eqn:H3;
      cbn [mbind outcome_bind].
    2:{ split.
        - intros [= ->]. right. right. repeat split; try done.
          exists e0. split; [done|]. by left.
        - intros [H|[[_ H]|(_ & _ & e0' & [= <-] & H)]]; try congruence.
          destruct H as [H|[[H _]|(H & _)]]; congruence. }
    destruct (print Console.LDetails) as [[]|e1] eqn:H4;
      cbn [mbind outcome_bind].
    2:{ split.
        - intros [= ->]. right. right. repeat split; try done.
          exists e0. split; [done|]. right. by left.
        - intros [H|[[_ H]|(_ & _ & e0' & [= <-] & H)]]; try congruence.
          destruct H as [H|[[_ H]|(_ & H & _)]]; congruence. }
    destruct (print (Console.LTraceback _)) as [[]|e1] eqn:H5;
      cbn [mbind outcome_bind].
    2:{ split.
        - intros [= ->]. right. right. repeat split; try done.
          exists e0. split; [done|]. right. by right.
        - intros [H|[[_ H]|(_ & _ & e0' & [= <-] & H)]]; try congruence.
          destruct H as [H|[[_ H]|(_ & _ & H)]]; congruence. }
    split; [done|].
    intros [H|[[_ H]|(_ & _ & e0' & [= <-] & H)]]; try congruence.
    destruct H as [H|[[_ H]|(_ & _ & H)]]; congruence.
  - intros *. rewrite result_console_run_hedge_fund_gui.
    destruct (print Console.LStarted) as [[]|]; cbn [mbind outcome_bind];
      [|done].
    destruct (print Console.LRule) as [[]|]; cbn [mbind outcome_bind];
      [|done].
    destruct (result (Console.body _ _ _ _ _ _ _ _ _ _ _ _)) as [v'|e0] eqn:Hb.
    + intros [= <-]. left.
      destruct (result_console_body _ _ _ _ _ _ _ _ _ _ _ _ _ Hb) as [r ->].
      by exists r.
    + rewrite result_console_error_envelope.
      destruct (print (Console.LRunFailed e0)) as [[]|];
        cbn [mbind outcome_bind]; [|done].
      destruct (print Console.LDetails) as [[]|];
        cbn [mbind outcome_bind]; [|done].
      destruct (print (Console.LTraceback _)) as [[]|];
        cbn [mbind outcome_bind]; [|done].
      intros [= <-]. right. by exists e0.
  - apply result_console_run_from_gui.
  - intros Hacc tickers sd ed ic mr sr sel mn mp sg.
    rewrite (console_run_hedge_fund_gui E print Hacc).
    split; [done|]. intros e He.
    destruct (run_hedge_fund_gui_total E tickers sd ed ic mr sr sel mn mp sg)
      as [[r Hr]|[e' Hr]]; congruence.
Qed.

Lemma facade_raises_when_a_print_fails_witness :
  let E := Data.env_with (PyStr Data.well_formed) in
  let e := mk_exn ValueError "'gbk' codec can't encode character" in
  Console.run_hedge_fund_gui E Console.no_emoji ["AAPL"] "2024-01-01"
    "2024-05-31" 100000 0 false (Some ["warren_buffett"]) "gpt-4o" "OpenAI"
    false
  = ([], Raises e)
  ∧ result (Console.run_from_gui E Console.no_emoji
              (mk_kwargs (Some ["AAPL"]) (Some "2024-01-01")
                 (Some "2024-05-31") None None None
                 (Some ["warren_buffett"]) None None None []))
    = Returns (ErrorEnvelope (exn_str e) (format_exc E e)).
Proof.
  cbv zeta. split.
  - exact (proj1 (facade_raises_when_a_print_fails
                    (Data.env_with (PyStr Data.well_formed)) Console.no_emoji)
             ["AAPL"] "2024-01-01" "2024-05-31" 100000%float 0%float false
             (Some ["warren_buffett"]) "gpt-4o" "OpenAI" false _ eq_refl).
  - vm_compute. reflexivity.
Defined.

(** X20: [run_from_gui] is [run_hedge_fund_gui] on the unpacked
    dictionary, behind one more handler.  When the dictionary holds the
    three required arguments and no key that names no parameter,
    [run_from_gui] does what [run_hedge_fund_gui] does on these arguments,
    the absent ones taking the defaults of the signature; it returns what
    [run_hedge_fund_gui] returns, and the error dictionary of its
    exception when [run_hedge_fund_gui] raises, which only a failing
    [print] makes it do.  On a console that accepts every line the two
    are equal and the handler of [run_from_gui] is not entered. *)
Theorem run_from_gui_is_the_entry_point (E : Env)
    (print : Console.line → outcome ()) (args_dict : kwargs)
    (tickers : list string) (start_date end_date : string) :
  kw_others args_dict = [] →
  kw_tickers args_dict = Some tickers →
  kw_start_date args_dict = Some start_date →
  kw_end_date args_dict = Some end_date →
  let gui :=
    Console.run_hedge_fund_gui E print tickers start_date end_date
      (default 100000%float (kw_initial_cash args_dict))
      (default 0%float (kw_margin_requirement args_dict))
      (default false (kw_show_reasoning args_dict))
      (kw_selected_analysts args_dict)
      (default "gpt-4o" (kw_model_name args_dict))
      (default "OpenAI" (kw_model_provider args_dict))
      (default false (kw_show_agent_graph args_dict)) in
  trace (Console.run_from_gui E print args_dict) = trace gui
  ∧ result (Console.run_from_gui E print args_dict)
    = match result gui with
      | Returns v => Returns v
      | Raises e => Returns (ErrorEnvelope (exn_str e) (format_exc E e))
      end
  ∧ ((∀ l, print l = Returns ()) →
     Console.run_from_gui E print args_dict = gui
     ∧ gui
       = run_hedge_fund_gui E tickers start_date end_date
           (default 100000%float (kw_initial_cash args_dict))
           (default 0%float (kw_margin_requirement args_dict))
           (default false (kw_show_reasoning args_dict))
           (kw_selected_analysts args_dict)
           (default "gpt-4o" (kw_model_name args_dict))
           (default "OpenAI" (kw_model_provider args_dict))
           (default false (kw_show_agent_graph args_dict))).
Proof.
  intros Ho Ht Hs He. cbv zeta.
  unfold Console.run_from_gui, Console.call_run_hedge_fund_gui.
  rewrite Ho, Ht, Hs, He.
  match goal with |- context [try_except ?m _] => set (gui := m) end.
  split; [|split].
  - rewrite trace_try_except. destruct (result gui); by rewrite app_nil_r.
  - rewrite result_try_except. by destruct (result gui).
  - intros Hacc.
    assert (Hq : gui
      = run_hedge_fund_gui E tickers start_date end_date
          (default 100000%float (kw_initial_cash args_dict))
          (default 0%float (kw_margin_requirement args_dict))
          (default false (kw_show_reasoning args_dict))
          (kw_selected_analysts args_dict)
          (default "gpt-4o" (kw_model_name args_dict))
          (default "OpenAI" (kw_model_provider args_dict))
          (default false (kw_show_agent_graph args_dict)))
      by apply (console_run_hedge_fund_gui E print Hacc).
    split; [|done]. apply try_except_Returns. intros e. rewrite Hq.
    match goal with
    | |- result (run_hedge_fund_gui ?a1 ?a2 ?a3 ?a4 ?a5 ?a6 ?a7 ?a8 ?a9 ?a10
                   ?a11) ≠ _ =>
        destruct (run_hedge_fund_gui_total a1 a2 a3 a4 a5 a6 a7 a8 a9 a10 a11)
          as [[r Hr]|[e' Hr]]; congruence
    end.
Qed.

Lemma run_from_gui_is_the_entry_point_witness :
  let E := Data.env_with (PyStr Data.well_formed) in
  let args_dict :=
    mk_kwargs (Some ["AAPL"]) (Some "2024-01-01") (Some "") None None None
      (Some ["warren_buffett"]) None None None [] in
  Console.run_from_gui E Console.accepting args_dict
  = run_hedge_fund_gui E ["AAPL"] "2024-01-01" "" 100000 0 false
      (Some ["warren_buffett"]) "gpt-4o" "OpenAI" false.
Proof.
  cbv zeta.
  destruct (proj2 (proj2 (run_from_gui_is_the_entry_point
              (Data.env_with (PyStr Data.well_formed)) Console.accepting
              (mk_kwargs (Some ["AAPL"]) (Some "2024-01-01") (Some "") None
                 None None (Some ["warren_buffett"]) None None None [])
              ["AAPL"] "2024-01-01" "" eq_refl eq_refl eq_refl eq_refl))
              (λ l, eq_refl)) as [H1 H2].
  exact (eq_trans H1 H2).
Defined.
